(** * strava-activity-cli: token lifecycle and activity mapping

    A shallow embedding of [strava_cli/client.py], [strava_cli/models.py]
    and the [get_client] wrapper and the [list] and [update] commands of
    [strava_cli/cli.py], with the properties of the specification stated
    over it, and further properties of the code.

    Modelling conventions.
    - A Python value is a [PyVal].  The code is written against [Any], so
      every field that the code copies without looking at it stays a
      [PyVal] in the model.
    - A Python [float] is a rational ([Q]); the model has no infinities
      and no NaN.  The operations of the code that round in Python round
      here to the nearest double ([round_double]): [total_seconds],
      [float] of an integer, which also overflows, and the division in
      [format_table_row].  The expiry test subtracts and compares exact
      values.  [int(x)] on a float is [Z.quot] of numerator by
      denominator: truncation toward zero.
    - A Python [str] is the string of its characters; the texts that
      [int] parses are ASCII texts, the Unicode database being outside
      the model.
    - The text of a file is a list of JSON tokens; insignificant white
      space is not represented, and a file that does not lex at all is a
      file holding a [TJunk] token.  [json.dump] hands the text to
      [fp.write] piece by piece, and stops at a value that it cannot
      serialise.
    - A file opened for writing has a buffer: [fp.write] fills it, and
      leaving the [with] block flushes it to the device, which can cut
      the text anywhere, also inside a chunk.
    - Exceptions are values of [exn]; a computation that can raise
      returns a [Result]; code that also reads or writes the world (file
      system, environment, clock, token endpoint, terminal) lives in the
      monad [M].
    - [console.print] parses the markup of its line and raises
      [MarkupError] on a closing tag that closes nothing.  A line in
      which the texts put between the code's own tags hold no opening
      bracket is rendered; whether any other line is rendered is for the
      world to say ([terminal]).
    - A command runs in a session: the world, the state of the remote
      API, the requests made and what was written to the terminal.
*)

From Stdlib Require Import ZArith QArith String Ascii List Bool Lia Lqa DecimalString.
From stdpp Require Import base gmap strings.

Local Open Scope string_scope.
Local Open Scope list_scope.
Local Open Scope Z_scope.
Set Warnings "-register-all".

(** ** Exceptions and results *)

(** The exceptions.  Three of them say what their message is made of,
    for the handlers that print it: [FileNotFoundError path] is the one
    whose message names [path]; [ValueError] is the ValueError of
    [client.py], whose two messages are fixed texts; [ValueErrorOf text]
    is a ValueError whose message holds a text that the code does not
    control, such as the literal that [int] or [float] rejects. *)
Inductive exn :=
| FileNotFoundError (path : string)
| ValueError
| ValueErrorOf (text : string)
| JSONDecodeError
| AttributeError
| TypeError
| KeyError
| OSError
| OverflowError
| MarkupError
| Abort.

(** [isinstance(e, ValueError)]: [json.JSONDecodeError] derives from
    [ValueError]. *)
Definition is_ValueError (e : exn) : bool :=
  match e with ValueError | ValueErrorOf _ | JSONDecodeError => true | _ => false end.

(** [isinstance(e, FileNotFoundError)]. *)
Definition is_FileNotFoundError (e : exn) : bool :=
  match e with FileNotFoundError _ => true | _ => false end.

(** A text without an opening bracket: rich finds no tag in it. *)
Fixpoint bracket_free (s : string) : bool :=
  match s with
  | EmptyString => true
  | String c rest => negb (Ascii.eqb c "["%char) && bracket_free rest
  end.

(** Whether [str(e)] is known to hold no opening bracket.  The messages
    of the interpreter, of [json] and of [client.py] name types,
    attributes and positions; the exceptions made of a text hold that
    text; nothing is known of the message of an [OSError], and a
    [MarkupError] quotes the tag it rejects. *)
Definition plain_exn (e : exn) : bool :=
  match e with
  | FileNotFoundError text | ValueErrorOf text => bracket_free text
  | OSError | MarkupError => false
  | _ => true
  end.

Inductive Result (A : Type) :=
| Ok (a : A)
| Raise (e : exn).
Arguments Ok {A} a.
Arguments Raise {A} e.

#[global] Instance Result_ret : MRet Result := @Ok.
#[global] Instance Result_bind : MBind Result := fun A B f r =>
  match r with Ok a => f a | Raise e => Raise e end.

(** ** Python values *)

(** [datetime.timedelta], in its normalised representation. *)
Record timedelta := mk_timedelta {
  td_days : Z;
  td_seconds : Z;
  td_microseconds : Z
}.

(** [datetime.datetime]; [dt_utcoffset] is the offset of an aware value
    in minutes, [None] for a naive one. *)
Record datetime := mk_datetime {
  dt_year : Z;
  dt_month : Z;
  dt_day : Z;
  dt_hour : Z;
  dt_minute : Z;
  dt_second : Z;
  dt_microsecond : Z;
  dt_utcoffset : option Z
}.

Inductive PyVal :=
| VNone
| VBool (b : bool)
| VInt (n : Z)
| VFloat (q : Q)
| VStr (s : string)
| VTimedelta (td : timedelta)
| VDatetime (dt : datetime)
| VList (l : list PyVal)
| VDict (kvs : list (string * PyVal))
| VObj (attrs : list (string * PyVal)).

(** First binding of a key in an association list. *)
Fixpoint assoc {A : Type} (k : string) (kvs : list (string * A)) : option A :=
  match kvs with
  | [] => None
  | (k', v) :: rest => if String.eqb k k' then Some v else assoc k rest
  end.

(** [d[k] = v] on a dict: an existing key keeps its position. *)
Fixpoint dict_set {A : Type} (k : string) (v : A) (kvs : list (string * A))
  : list (string * A) :=
  match kvs with
  | [] => [(k, v)]
  | (k', v') :: rest =>
      if String.eqb k k' then (k', v) :: rest else (k', v') :: dict_set k v rest
  end.

(** Truth value of an object ([bool(x)]). *)
Definition truthy (v : PyVal) : bool :=
  match v with
  | VNone => false
  | VBool b => b
  | VInt n => negb (n =? 0)
  | VFloat q => negb (Qnum q =? 0)
  | VStr s => negb (String.eqb s "")
  | VTimedelta td =>
      negb ((td_days td =? 0) && (td_seconds td =? 0) && (td_microseconds td =? 0))
  | VDatetime _ => true
  | VList l => match l with [] => false | _ => true end
  | VDict kvs => match kvs with [] => false | _ => true end
  | VObj _ => true
  end.

(** [obj.name]: only a [VObj] carries the attributes the code reads. *)
Definition py_getattr (v : PyVal) (name : string) : Result PyVal :=
  match v with
  | VObj attrs =>
      match assoc name attrs with
      | Some x => Ok x
      | None => Raise AttributeError
      end
  | _ => Raise AttributeError
  end.

(** [getattr(obj, name, default)]. *)
Definition py_getattr_default (v : PyVal) (name : string) (default : PyVal) : PyVal :=
  match py_getattr v name with
  | Ok x => x
  | Raise _ => default
  end.

(** [hasattr(obj, name)] for the two names the code probes, [root] and
    [total_seconds]: a timedelta has the method [total_seconds]. *)
Definition py_hasattr (v : PyVal) (name : string) : bool :=
  match v with
  | VTimedelta _ => String.eqb name "total_seconds"
  | VObj attrs => match assoc name attrs with Some _ => true | None => false end
  | _ => false
  end.

(** [d.get(key)]: a method of dicts only. *)
Definition py_dict_get (v : PyVal) (key : string) : Result PyVal :=
  match v with
  | VDict kvs => Ok (match assoc key kvs with Some x => x | None => VNone end)
  | _ => Raise AttributeError
  end.

(** [d[key]] with a string key. *)
Definition py_subscript (v : PyVal) (key : string) : Result PyVal :=
  match v with
  | VDict kvs =>
      match assoc key kvs with
      | Some x => Ok x
      | None => Raise KeyError
      end
  | _ => Raise TypeError
  end.

(** ** Numbers and their text *)

Definition is_space (c : ascii) : bool :=
  let n := nat_of_ascii c in
  (n =? 32)%nat || ((9 <=? n)%nat && (n <=? 13)%nat)
  || ((28 <=? n)%nat && (n <=? 31)%nat).

(** An ASCII text: the texts on which [int_of_str] below is [int]. *)
Definition ascii_text (s : string) : bool :=
  forallb (fun c => (nat_of_ascii c <? 128)%nat) (list_ascii_of_string s).

Definition digit_of (c : ascii) : option Z :=
  let n := Z.of_nat (nat_of_ascii c) in
  if (48 <=? n) && (n <=? 57) then Some (n - 48) else None.

Fixpoint lstrip (cs : list ascii) : list ascii :=
  match cs with
  | c :: rest => if is_space c then lstrip rest else cs
  | [] => []
  end.

Definition strip (cs : list ascii) : list ascii :=
  rev (lstrip (rev (lstrip cs))).

(** Digits of a decimal literal; a single underscore may sit between two
    digits.  [prev] tells whether the previous character was a digit. *)
Fixpoint int_digits (cs : list ascii) (prev : bool) (acc : Z) : option Z :=
  match cs with
  | [] => if prev then Some acc else None
  | c :: rest =>
      match digit_of c with
      | Some d => int_digits rest true (10 * acc + d)
      | None =>
          if prev && Ascii.eqb c "_"%char then int_digits rest false acc else None
      end
  end.

(** [int(s)] for a string, base 10: white space around, a sign, digits
    with single underscores between them.  The interpreter's limit on
    the number of digits (4300 unless configured otherwise) is not
    modelled, here and in [str_of_int]. *)
Definition int_of_str (s : string) : Result Z :=
  let signed :=
    match strip (list_ascii_of_string s) with
    | c :: rest =>
        if Ascii.eqb c "-"%char then (-1, rest)
        else if Ascii.eqb c "+"%char then (1, rest)
        else (1, c :: rest)
    | [] => (1, [])
    end in
  match int_digits (snd signed) false 0 with
  | Some n => Ok (fst signed * n)
  | None => Raise (ValueErrorOf s)
  end.

(** The integer nearest to [n / d], for [n >= 0] and [d > 0]; a tie goes
    to the even one. *)
Definition round_half_even (n d : Z) : Z :=
  let q := n / d in
  match 2 * (n mod d) ?= d with
  | Lt => q
  | Gt => q + 1
  | Eq => if Z.even q then q else q + 1
  end.

(** The exponent of the unit in the last place of the double nearest to
    [n / d], for [n, d > 0]: the [e] with [2^52 <= (n / d) / 2^e < 2^53],
    and [-1074] in the subnormal range. *)
Definition ulp_exponent (n d : Z) : Z :=
  let e0 := Z.log2 n - Z.log2 d in
  let below := if 0 <=? e0 then n <? d * 2 ^ e0 else n * 2 ^ (- e0) <? d in
  Z.max ((if below then e0 - 1 else e0) - 52) (-1074).

(** The double nearest to a rational (IEEE 754 binary64, round to
    nearest, ties to even), as a rational.  The result is not bounded:
    [is_finite_double] tells whether it is a double. *)
Definition round_double (x : Q) : Q :=
  let n := Z.abs (Qnum x) in
  let d := Z.pos (Qden x) in
  if n =? 0 then 0%Q
  else
    let e := ulp_exponent n d in
    let s := Z.sgn (Qnum x) in
    if 0 <=? e
    then inject_Z (s * round_half_even n (d * 2 ^ e) * 2 ^ e)
    else Qmake (s * round_half_even (n * 2 ^ (- e)) d) (Z.to_pos (2 ^ (- e))).

Definition is_finite_double (q : Q) : bool :=
  Z.abs (Qnum q) <? 2 ^ 1024 * Z.pos (Qden q).

(** [int(f)] on a float: truncation toward zero. *)
Definition int_of_float (q : Q) : Z := Z.quot (Qnum q) (Z.pos (Qden q)).

(** [td.total_seconds()]: the total microseconds divided by [10**6], a
    true division of integers, which rounds its exact quotient. *)
Definition total_seconds (td : timedelta) : Q :=
  round_double
    (Qmake ((td_days td * 86400 + td_seconds td) * 1000000 + td_microseconds td) 1000000).

(** [int(x)]. *)
Definition py_int (v : PyVal) : Result Z :=
  match v with
  | VBool b => Ok (if b then 1 else 0)
  | VInt n => Ok n
  | VFloat q => Ok (int_of_float q)
  | VStr s => int_of_str s
  | _ => Raise TypeError
  end.

(** Decimal text of an integer ([str(n)]). *)
Definition str_of_int (n : Z) : string := NilZero.string_of_int (Z.to_int n).

(** [n] printed in at least [width] digits, as [%0<width>d] does for a
    natural number. *)
Definition zero_pad (width : nat) (n : Z) : string :=
  let s := str_of_int n in
  string_of_list_ascii (repeat "0"%char (width - String.length s)) +:+ s.

(** [dt.isoformat()]. *)
Definition isoformat (dt : datetime) : string :=
  zero_pad 4 (dt_year dt) +:+ "-" +:+ zero_pad 2 (dt_month dt) +:+ "-" +:+
  zero_pad 2 (dt_day dt) +:+ "T" +:+ zero_pad 2 (dt_hour dt) +:+ ":" +:+
  zero_pad 2 (dt_minute dt) +:+ ":" +:+ zero_pad 2 (dt_second dt) +:+
  (if dt_microsecond dt =? 0 then "" else "." +:+ zero_pad 6 (dt_microsecond dt)) +:+
  match dt_utcoffset dt with
  | None => ""
  | Some off =>
      (if off <? 0 then "-" else "+") +:+ zero_pad 2 (Z.abs off / 60) +:+ ":" +:+
      zero_pad 2 (Z.abs off mod 60)
  end.

(** [x.isoformat()] on an arbitrary value: a method of datetimes; a plain
    data attribute of that name is not callable. *)
Definition py_isoformat (v : PyVal) : Result PyVal :=
  match v with
  | VDatetime dt => Ok (VStr (isoformat dt))
  | VObj attrs =>
      match assoc "isoformat" attrs with
      | Some _ => Raise TypeError
      | None => Raise AttributeError
      end
  | _ => Raise AttributeError
  end.

(** [x.total_seconds()], called after [hasattr(x, "total_seconds")]. *)
Definition py_total_seconds (v : PyVal) : Result Q :=
  match v with
  | VTimedelta td => Ok (total_seconds td)
  | VObj attrs =>
      match assoc "total_seconds" attrs with
      | Some _ => Raise TypeError
      | None => Raise AttributeError
      end
  | _ => Raise AttributeError
  end.

(** ** The activity mapper ([models.py]) *)

Module Activity.

(** The dataclass.  Python does not check the annotations, so the fields
    that [from_strava_activity] copies from the payload hold whatever the
    payload held; the fields it computes have the type of the
    computation. *)
Record t := mk {
  id : PyVal;
  name : PyVal;
  type : PyVal;
  distance : Q;
  moving_time : Z;
  elapsed_time : Z;
  total_elevation_gain : Q;
  start_date : PyVal;
  start_date_local : PyVal;
  average_speed : option Q;
  max_speed : option Q;
  average_heartrate : option Q;
  max_heartrate : option Q;
  description : PyVal;
  calories : option Q;
  gear_id : PyVal;
  trainer : PyVal;
  commute : PyVal;
  private : PyVal
}.

Section Mapper.

(** Two library functions whose text handling the model leaves open:
    [float(s)] on a string ([None] when the string is no float literal)
    and [str(x)] on a value that is neither a string, [None], a bool nor
    an int. *)
Variable float_of_str : string -> option Q.
Variable repr_other : PyVal -> string.

(** [float(x)]: an integer is rounded to the nearest double, and is too
    large when that is no double. *)
Definition py_float (v : PyVal) : Result Q :=
  match v with
  | VBool b => Ok (if b then 1%Q else 0%Q)
  | VInt n =>
      let q := round_double (inject_Z n) in
      if is_finite_double q then Ok q else Raise OverflowError
  | VFloat q => Ok q
  | VStr s =>
      match float_of_str s with
      | Some q => Ok q
      | None => Raise (ValueErrorOf s)
      end
  | _ => Raise TypeError
  end.

(** [str(x)]. *)
Definition py_str (v : PyVal) : string :=
  match v with
  | VStr s => s
  | VNone => "None"
  | VBool b => if b then "True" else "False"
  | VInt n => str_of_int n
  | _ => repr_other v
  end.

(** The helper local to [from_strava_activity]. *)
Definition get_seconds (value : PyVal) : Result Z :=
  match value with
  | VNone => Ok 0
  | _ =>
      if py_hasattr value "total_seconds"
      then q ← py_total_seconds value; Ok (int_of_float q)
      else py_int value
  end.

(** [float(activity.f) if activity.f else 0.0]. *)
Definition float_or_zero (activity : PyVal) (f : string) : Result Q :=
  x ← py_getattr activity f;
  if truthy x then x' ← py_getattr activity f; py_float x' else Ok 0%Q.

(** [float(activity.f) if activity.f else None]. *)
Definition float_or_none (activity : PyVal) (f : string) : Result (option Q) :=
  x ← py_getattr activity f;
  if truthy x then x' ← py_getattr activity f; q ← py_float x'; Ok (Some q)
  else Ok None.

(** [float(activity.calories) if getattr(activity, "calories", None) else None]. *)
Definition calories_or_none (activity : PyVal) : Result (option Q) :=
  if truthy (py_getattr_default activity "calories" VNone)
  then x ← py_getattr activity "calories"; q ← py_float x; Ok (Some q)
  else Ok None.

Definition from_strava_activity (activity : PyVal) : Result t :=
  activity_type ← py_getattr activity "type";
  activity_type ←
    (if py_hasattr activity_type "root"
     then py_getattr activity_type "root"
     else Ok (VStr (py_str activity_type)));
  id ← py_getattr activity "id";
  name ← py_getattr activity "name";
  distance ← float_or_zero activity "distance";
  moving_time ← (x ← py_getattr activity "moving_time"; get_seconds x);
  elapsed_time ← (x ← py_getattr activity "elapsed_time"; get_seconds x);
  total_elevation_gain ← float_or_zero activity "total_elevation_gain";
  start_date ← py_getattr activity "start_date";
  start_date_local ← py_getattr activity "start_date_local";
  average_speed ← float_or_none activity "average_speed";
  max_speed ← float_or_none activity "max_speed";
  average_heartrate ← float_or_none activity "average_heartrate";
  max_heartrate ← float_or_none activity "max_heartrate";
  calories ← calories_or_none activity;
  Ok {|
    id := id;
    name := name;
    type := activity_type;
    distance := distance;
    moving_time := moving_time;
    elapsed_time := elapsed_time;
    total_elevation_gain := total_elevation_gain;
    start_date := start_date;
    start_date_local := start_date_local;
    average_speed := average_speed;
    max_speed := max_speed;
    average_heartrate := average_heartrate;
    max_heartrate := max_heartrate;
    description := py_getattr_default activity "description" VNone;
    calories := calories;
    gear_id := py_getattr_default activity "gear_id" VNone;
    trainer := py_getattr_default activity "trainer" (VBool false);
    commute := py_getattr_default activity "commute" (VBool false);
    private := py_getattr_default activity "private" (VBool false)
  |}.

End Mapper.

(** An optional float as a Python value. *)
Definition opt_float (o : option Q) : PyVal :=
  match o with
  | Some q => VFloat q
  | None => VNone
  end.

Definition to_dict (self : t) : Result (list (string * PyVal)) :=
  sd ← py_isoformat (start_date self);
  sdl ← py_isoformat (start_date_local self);
  Ok [ ("id", id self);
       ("name", name self);
       ("type", type self);
       ("distance", VFloat (distance self));
       ("moving_time", VInt (moving_time self));
       ("elapsed_time", VInt (elapsed_time self));
       ("total_elevation_gain", VFloat (total_elevation_gain self));
       ("start_date", sd);
       ("start_date_local", sdl);
       ("average_speed", opt_float (average_speed self));
       ("max_speed", opt_float (max_speed self));
       ("average_heartrate", opt_float (average_heartrate self));
       ("max_heartrate", opt_float (max_heartrate self));
       ("description", description self);
       ("calories", opt_float (calories self));
       ("gear_id", gear_id self);
       ("trainer", trainer self);
       ("commute", commute self);
       ("private", private self) ].

Section Display.

(** Library text functions the model leaves open: [str(x)] on the values
    of [repr_other] above, [format(x, ".2f")] and [format(x, ".0f")] on a
    float, and [dt.strftime(fmt)]. *)
Variable repr_other : PyVal -> string.
Variable format_2f : Q -> string.
Variable format_0f : Q -> string.
Variable strftime : datetime -> string -> string.

(** [x.strftime(fmt)] on an arbitrary value: a method of datetimes. *)
Definition py_strftime (v : PyVal) (fmt : string) : Result string :=
  match v with
  | VDatetime dt => Ok (strftime dt fmt)
  | VObj attrs =>
      match assoc "strftime" attrs with
      | Some _ => Raise TypeError
      | None => Raise AttributeError
      end
  | _ => Raise AttributeError
  end.

Definition format_table_row (self : t) : Result (list (string * PyVal)) :=
  let distance_km := round_double (distance self / 1000) in
  let hours := moving_time self / 3600 in
  let minutes := (moving_time self mod 3600) / 60 in
  let time_str :=
    if 0 <? hours
    then str_of_int hours +:+ "h " +:+ str_of_int minutes +:+ "m"
    else str_of_int minutes +:+ "m" in
  date ← py_strftime (start_date_local self) "%Y-%m-%d %H:%M";
  Ok [ ("ID", VStr (py_str repr_other (id self)));
       ("Date", VStr date);
       ("Name", name self);
       ("Type", type self);
       ("Distance", VStr (format_2f distance_km +:+ " km"));
       ("Time", VStr time_str);
       ("Elevation", VStr (format_0f (total_elevation_gain self) +:+ " m")) ].

End Display.

End Activity.

(** ** JSON text ([json.load], [json.dump]) *)

Inductive token :=
| TNull
| TTrue
| TFalse
| TInt (n : Z)
| TFloat (q : Q)
| TStr (s : string)
| TLBrace
| TRBrace
| TLBracket
| TRBracket
| TColon
| TComma
| TJunk (s : string).

(** What the encoder's generator does next: yield a chunk, or raise. *)
Inductive emit :=
| Chunk (t : token)
| Fails (e : exn).

(** [JSONEncoder.iterencode]: the chunks in the order they are yielded.
    A value that is not JSON serialisable raises [TypeError] when the
    generator reaches it, after the chunks before it. *)
Fixpoint iterencode (v : PyVal) : list emit :=
  match v with
  | VNone => [Chunk TNull]
  | VBool b => [Chunk (if b then TTrue else TFalse)]
  | VInt n => [Chunk (TInt n)]
  | VFloat q => [Chunk (TFloat q)]
  | VStr s => [Chunk (TStr s)]
  | VList l =>
      Chunk TLBracket ::
      (fix elements (l : list PyVal) : list emit :=
         match l with
         | [] => []
         | x :: rest =>
             iterencode x ++
             match rest with
             | [] => []
             | _ => Chunk TComma :: elements rest
             end
         end) l ++ [Chunk TRBracket]
  | VDict kvs =>
      Chunk TLBrace ::
      (fix members (kvs : list (string * PyVal)) : list emit :=
         match kvs with
         | [] => []
         | (k, x) :: rest =>
             Chunk (TStr k) :: Chunk TColon :: iterencode x ++
             match rest with
             | [] => []
             | _ => Chunk TComma :: members rest
             end
         end) kvs ++ [Chunk TRBrace]
  | VTimedelta _ | VDatetime _ | VObj _ => [Fails TypeError]
  end.

(** The decoder, by recursive descent; [fuel] bounds the depth of calls. *)
Fixpoint parse_value (fuel : nat) (ts : list token) {struct fuel}
  : option (PyVal * list token) :=
  match fuel with
  | O => None
  | S fuel =>
      match ts with
      | TNull :: r => Some (VNone, r)
      | TTrue :: r => Some (VBool true, r)
      | TFalse :: r => Some (VBool false, r)
      | TInt n :: r => Some (VInt n, r)
      | TFloat q :: r => Some (VFloat q, r)
      | TStr s :: r => Some (VStr s, r)
      | TLBracket :: TRBracket :: r => Some (VList [], r)
      | TLBracket :: r =>
          match parse_elements fuel r with
          | Some (vs, r') => Some (VList vs, r')
          | None => None
          end
      | TLBrace :: TRBrace :: r => Some (VDict [], r)
      | TLBrace :: r =>
          match parse_members fuel r with
          | Some (kvs, r') =>
              Some (VDict (fold_left (fun d kv => dict_set (fst kv) (snd kv) d) kvs []), r')
          | None => None
          end
      | _ => None
      end
  end
with parse_elements (fuel : nat) (ts : list token) {struct fuel}
  : option (list PyVal * list token) :=
  match fuel with
  | O => None
  | S fuel =>
      match parse_value fuel ts with
      | Some (v, TComma :: r) =>
          match parse_elements fuel r with
          | Some (vs, r') => Some (v :: vs, r')
          | None => None
          end
      | Some (v, TRBracket :: r) => Some ([v], r)
      | _ => None
      end
  end
with parse_members (fuel : nat) (ts : list token) {struct fuel}
  : option (list (string * PyVal) * list token) :=
  match fuel with
  | O => None
  | S fuel =>
      match ts with
      | TStr k :: TColon :: r =>
          match parse_value fuel r with
          | Some (v, TComma :: r') =>
              match parse_members fuel r' with
              | Some (kvs, r'') => Some ((k, v) :: kvs, r'')
              | None => None
              end
          | Some (v, TRBrace :: r') => Some ([(k, v)], r')
          | _ => None
          end
      | _ => None
      end
  end.

(** [json.loads]: one value and nothing after it; [None] stands for
    [JSONDecodeError]. *)
Definition json_loads (ts : list token) : option PyVal :=
  match parse_value (2 * length ts + 1) ts with
  | Some (v, []) => Some v
  | _ => None
  end.

(** ** The world of the token manager *)

(** [write_budget] describes the device under the files: [None] is a
    device that takes everything; [Some (k, part)] is one that takes [k]
    more chunks whole and, of the chunk after them, a part that reads as
    the tokens [part] (none when nothing readable of it reaches the
    file).  [terminal] says, for each line to come whose markup the
    model cannot vouch for, whether rich renders it; a line beyond the
    list is rendered. *)
Record World := mk_World {
  fs : gmap string (list token);       (* files by path *)
  environ : gmap string string;        (* os.environ, after load_dotenv() *)
  clock : Q;                           (* time.time() *)
  write_budget : option (nat * list token);   (* the device *)
  refresh_calls : list (Z * PyVal * PyVal);   (* calls made to the token endpoint *)
  client_access_token : PyVal;         (* self.client.access_token *)
  terminal : list bool                 (* the verdicts of rich on the lines to come *)
}.

Definition M (A : Type) : Type := World -> Result A * World.

#[global] Instance M_ret : MRet M := fun A a w => (Ok a, w).
#[global] Instance M_bind : MBind M := fun A B f m w =>
  match m w with
  | (Ok a, w') => f a w'
  | (Raise e, w') => (Raise e, w')
  end.

Definition raise {A : Type} (e : exn) : M A := fun w => (Raise e, w).
Definition lift {A : Type} (r : Result A) : M A := fun w => (r, w).

Definition with_fs (f : gmap string (list token)) (w : World) : World :=
  mk_World f (environ w) (clock w) (write_budget w) (refresh_calls w)
           (client_access_token w) (terminal w).

(** [path.exists()]. *)
Definition path_exists (path : string) : M bool := fun w =>
  (Ok (bool_decide (is_Some (fs w !! path))), w).

(** [json.load(open(path))]. *)
Definition json_load (path : string) : M PyVal := fun w =>
  match fs w !! path with
  | None => (Raise (FileNotFoundError path), w)
  | Some ts =>
      match json_loads ts with
      | Some v => (Ok v, w)
      | None => (Raise JSONDecodeError, w)
      end
  end.

(** [open(path, "w")]: the file is created or truncated at once. *)
Definition open_w (path : string) : M unit := fun w =>
  (Ok tt, with_fs (<[path := []]> (fs w)) w).

(** [fp.write(chunk)]: the chunk goes to the buffer of the file object. *)
Definition fp_write (t : token) (buffer : list token) : list token := buffer ++ [t].

(** [for chunk in iterable: fp.write(chunk)]: the buffer afterwards, and
    the exception of the generator when it raises. *)
Fixpoint write_chunks (es : list emit) (buffer : list token) : Result unit * list token :=
  match es with
  | [] => (Ok tt, buffer)
  | Chunk t :: rest => write_chunks rest (fp_write t buffer)
  | Fails e :: _ => (Raise e, buffer)
  end.

(** [json.dump(obj, fp, indent=2)]. *)
Definition json_dump (obj : PyVal) (buffer : list token) : Result unit * list token :=
  write_chunks (iterencode obj) buffer.

(** Whether the device cuts a text, and what it leaves of it. *)
Definition device_cuts (budget : option (nat * list token)) (text : list token) : bool :=
  match budget with
  | Some (k, _) => (k <? length text)%nat
  | None => false
  end.

Definition device_takes (budget : option (nat * list token)) (text : list token)
  : list token :=
  match budget with
  | Some (k, part) => if (k <? length text)%nat then firstn k text ++ part else text
  | None => text
  end.

(** Closing the file: the buffer is flushed to the device, and a device
    that cuts the text makes the flush raise.  (A buffer that fills up is
    flushed earlier, by the write that fills it; the file and the
    exception are the same.) *)
Definition fp_close (path : string) (buffer : list token) : M unit := fun w =>
  let budget :=
    match write_budget w with
    | Some (k, part) => Some ((k - length buffer)%nat, part)
    | None => None
    end in
  (if device_cuts (write_budget w) buffer then Raise OSError else Ok tt,
   mk_World (<[path := device_takes (write_budget w) buffer]> (fs w)) (environ w) (clock w)
            budget (refresh_calls w) (client_access_token w) (terminal w)).

(** [with open(path, "w") as f: body(f)]: the file is closed when the
    block is left, also by an exception, and an exception of the close
    replaces that of the block. *)
Definition with_open_w (path : string)
  (body : list token -> Result unit * list token) : M unit := fun w =>
  let w1 := snd (open_w path w) in
  let (r, buffer) := body [] in
  match fp_close path buffer w1 with
  | (Ok _, w2) => (r, w2)
  | (Raise e, w2) => (Raise e, w2)
  end.

(** [os.environ.get(key)]. *)
Definition environ_get (key : string) : M (option string) := fun w =>
  (Ok (environ w !! key), w).

(** [time.time()]. *)
Definition time_time : M Q := fun w => (Ok (clock w), w).

(** [self.client.access_token = v]. *)
Definition set_access_token (v : PyVal) : M unit := fun w =>
  (Ok tt,
   mk_World (fs w) (environ w) (clock w) (write_budget w) (refresh_calls w) v (terminal w)).

(** [console.print(line)], as far as it can fail: [plain] tells whether
    the texts put into the line are known to hold no opening bracket;
    otherwise the world has the verdict of rich's markup parser. *)
Definition rich_print (plain : bool) : M unit := fun w =>
  if plain then (Ok tt, w)
  else
    match terminal w with
    | [] => (Ok tt, w)
    | ok :: rest =>
        (if ok : bool then Ok tt else Raise MarkupError,
         mk_World (fs w) (environ w) (clock w) (write_budget w) (refresh_calls w)
                  (client_access_token w) rest)
    end.

(** [x - 300]. *)
Definition py_sub_int (x : PyVal) (k : Z) : Result PyVal :=
  match x with
  | VBool b => Ok (VInt ((if b then 1 else 0) - k))
  | VInt n => Ok (VInt (n - k))
  | VFloat q => Ok (VFloat (q - inject_Z k)%Q)
  | _ => Raise TypeError
  end.

(** [t > x] for a float [t]. *)
Definition py_float_gt (t : Q) (x : PyVal) : Result bool :=
  match x with
  | VBool b => Ok (negb (Qle_bool t (if b then 1 else 0)%Q))
  | VInt n => Ok (negb (Qle_bool t (inject_Z n)))
  | VFloat q => Ok (negb (Qle_bool t q))
  | _ => Raise TypeError
  end.

(** An optional string (the result of [os.environ.get]) as a value. *)
Definition opt_str (o : option string) : PyVal :=
  match o with
  | Some s => VStr s
  | None => VNone
  end.

(** ** The token manager ([client.py]) *)

Module StravaClient.

(** The object: its token file.  The state of [self.client] is the
    [client_access_token] of the world. *)
Record t := mk { token_file : string }.

Section Client.

(** The remote token endpoint, [Client.refresh_access_token]: from client
    id, client secret and refresh token to the response, or an exception. *)
Variable refresh_access_token : Z -> PyVal -> PyVal -> Result PyVal.

(** The call itself, recorded in the world. *)
Definition call_refresh_access_token (client_id : Z) (client_secret refresh_token : PyVal)
  : M PyVal := fun w =>
  (refresh_access_token client_id client_secret refresh_token,
   mk_World (fs w) (environ w) (clock w) (write_budget w)
            (refresh_calls w ++ [(client_id, client_secret, refresh_token)])
            (client_access_token w) (terminal w)).

Definition _refresh_token (self : t) (refresh_token : PyVal) : M unit :=
  client_id ← environ_get "STRAVA_CLIENT_ID";
  client_secret ← environ_get "STRAVA_CLIENT_SECRET";
  if negb (truthy (opt_str client_id)) || negb (truthy (opt_str client_secret))
  then raise ValueError
  else
    cid ← lift (py_int (opt_str client_id));
    token_response ← call_refresh_access_token cid (opt_str client_secret) refresh_token;
    (* Update token file *)
    _ ← with_open_w (token_file self) (json_dump token_response);
    access_token ← lift (py_subscript token_response "access_token");
    set_access_token access_token.

(** [expires_at and time.time() > (expires_at - 300)], as the condition
    of the [if]. *)
Definition needs_refresh (expires_at : PyVal) : M bool :=
  if truthy expires_at
  then
    now ← time_time;
    limit ← lift (py_sub_int expires_at 300);
    lift (py_float_gt now limit)
  else mret false.

Definition _load_and_set_token (self : t) : M unit :=
  present ← path_exists (token_file self);
  if negb present
  then raise (FileNotFoundError (token_file self))
  else
    data ← json_load (token_file self);
    access_token ← lift (py_dict_get data "access_token");
    refresh_token ← lift (py_dict_get data "refresh_token");
    expires_at ← lift (py_dict_get data "expires_at");
    if negb (truthy access_token) || negb (truthy refresh_token)
    then raise ValueError
    else
      (* Check if token needs refresh (with 5 minute buffer) *)
      expired ← needs_refresh expires_at;
      if expired : bool
      then _refresh_token self refresh_token
      else set_access_token access_token.

(** [StravaClient(token_file)]: [Client()] starts with no access token. *)
Definition __init__ (token_file : option string) : M t :=
  let self := mk (default "strava-token.json" token_file) in
  _ ← set_access_token VNone;
  _ ← _load_and_set_token self;
  mret self.

End Client.
End StravaClient.

(** [cli.get_client]: the two exceptions of the token manager it handles
    are printed and end the command with [click.Abort]; any other
    propagates.  What is printed is not recorded here (the commands
    below record it). *)
Definition get_client (refresh_access_token : Z -> PyVal -> PyVal -> Result PyVal)
  (token_file : option string) : M StravaClient.t := fun w =>
  let token_path :=
    match token_file with
    | Some s => if truthy (VStr s) then Some s else None
    | None => None
    end in
  match StravaClient.__init__ refresh_access_token token_path w with
  | (Raise e, w') =>
      if is_FileNotFoundError e || is_ValueError e
      then (_ ← rich_print (plain_exn e); raise Abort) w'
      else (Raise e, w')
  | ok => ok
  end.

(** ** Notions used to state the properties *)

(** The chunks an encoder run yields before it stops, and whether it runs
    to the end. *)
Fixpoint emitted (es : list emit) : list token :=
  match es with
  | Chunk t :: rest => t :: emitted rest
  | _ => []
  end.

Fixpoint complete (es : list emit) : bool :=
  match es with
  | [] => true
  | Chunk _ :: rest => complete rest
  | Fails _ :: _ => false
  end.

(** [json.dumps(v)], as tokens. *)
Definition json_dumps (v : PyVal) : list token := emitted (iterencode v).

Fixpoint nodup_keys (ks : list string) : bool :=
  match ks with
  | [] => true
  | k :: rest => negb (existsb (String.eqb k) rest) && nodup_keys rest
  end.

(** The values [json.load] can return: no timedelta, datetime or object
    anywhere, and no key twice in a dict. *)
Fixpoint json_value (v : PyVal) : bool :=
  match v with
  | VNone | VBool _ | VInt _ | VFloat _ | VStr _ => true
  | VList l => forallb json_value l
  | VDict kvs =>
      forallb (fun kv => json_value (snd kv)) kvs && nodup_keys (map fst kvs)
  | VTimedelta _ | VDatetime _ | VObj _ => false
  end.

(** The chunks of the elements of a list and of the members of a dict,
    as [iterencode] yields them between the brackets. *)
Definition encode_elements : list PyVal -> list emit :=
  fix elements (l : list PyVal) : list emit :=
    match l with
    | [] => []
    | x :: rest =>
        iterencode x ++
        match rest with
        | [] => []
        | _ => Chunk TComma :: elements rest
        end
    end.

(** Members of a dict. *)
Definition encode_members : list (string * PyVal) -> list emit :=
  fix members (kvs : list (string * PyVal)) : list emit :=
    match kvs with
    | [] => []
    | (k, x) :: rest =>
        Chunk (TStr k) :: Chunk TColon :: iterencode x ++
        match rest with
        | [] => []
        | _ => Chunk TComma :: members rest
        end
    end.

(** The tokens a JSON value can begin with. *)
Definition starts_value (ts : list token) : bool :=
  match ts with
  | (TNull | TTrue | TFalse | TInt _ | TFloat _ | TStr _ | TLBracket | TLBrace) :: _ => true
  | _ => false
  end.

(** Decoding undoes encoding, with any text after the value and any
    sufficient fuel. *)
Definition round_trips (v : PyVal) : Prop :=
  json_value v = true ->
  complete (iterencode v) = true /\
  forall fuel rest, (length (json_dumps v) <= fuel)%nat ->
    parse_value fuel (json_dumps v ++ rest) = Some (v, rest).

(** The number a value stands for in arithmetic ([bool] is an [int]). *)
Definition as_number (v : PyVal) : option Q :=
  match v with
  | VBool b => Some (if b then 1 else 0)%Q
  | VInt n => Some (inject_Z n)
  | VFloat q => Some q
  | _ => None
  end.

(** A numeric zero: [0] or [0.0]. *)
Definition numeric_zero (v : PyVal) : bool :=
  match v with
  | VInt n => n =? 0
  | VFloat q => Qnum q =? 0
  | _ => false
  end.

(** The state [set_access_token] leaves, and the one an overwrite of the
    token file leaves. *)
Definition with_access_token (v : PyVal) (w : World) : World :=
  mk_World (fs w) (environ w) (clock w) (write_budget w) (refresh_calls w) v (terminal w).

(** Total microseconds of a timedelta. *)
Definition td_total_microseconds (td : timedelta) : Z :=
  (td_days td * 86400 + td_seconds td) * 1000000 + td_microseconds td.

(** [s] is [u] microseconds in whole seconds, truncated toward zero: the
    quotient that is no larger in magnitude and has the same sign. *)
Definition truncated_seconds (u s : Z) : Prop :=
  s = Z.quot u 1000000 /\
  Z.abs s * 1000000 <= Z.abs u < (Z.abs s + 1) * 1000000 /\ 0 <= s * u.

(** The rule of a duration: [None] counts as 0, an integer is taken as it
    is, a float is truncated toward zero, and so is a timedelta of less
    than 2^34 seconds in magnitude. *)
Definition duration_rule (x : PyVal) (s : Z) : Prop :=
  (x = VNone -> s = 0) /\
  (forall n, x = VInt n -> s = n) /\
  (forall q, x = VFloat q -> s = Z.quot (Qnum q) (Z.pos (Qden q))) /\
  (forall td, x = VTimedelta td ->
     Z.abs (td_total_microseconds td) < 2 ^ 34 * 1000000 ->
     truncated_seconds (td_total_microseconds td) s).

(** Kinds of values, and payload shapes. *)
Definition is_int (v : PyVal) : bool := match v with VInt _ => true | _ => false end.
Definition is_float (v : PyVal) : bool := match v with VFloat _ => true | _ => false end.
Definition is_str (v : PyVal) : bool := match v with VStr _ => true | _ => false end.
Definition is_bool (v : PyVal) : bool := match v with VBool _ => true | _ => false end.
Definition is_datetime (v : PyVal) : bool :=
  match v with VDatetime _ => true | _ => false end.
Definition is_opt_float (v : PyVal) : bool :=
  match v with VNone | VFloat _ => true | _ => false end.
Definition is_opt_str (v : PyVal) : bool :=
  match v with VNone | VStr _ => true | _ => false end.

Definition field_is (kind : PyVal -> bool) (p : PyVal) (f : string) : bool :=
  match py_getattr p f with
  | Ok x => kind x
  | Raise _ => false
  end.

(** A payload whose attributes have the kinds of the fields of
    [Activity.to_dict], the two timestamps being of kind [date_kind]. *)
Definition shape (date_kind : PyVal -> bool) (p : PyVal) : bool :=
  field_is is_int p "id" && field_is is_str p "name" && field_is is_str p "type" &&
  field_is is_float p "distance" && field_is is_int p "moving_time" &&
  field_is is_int p "elapsed_time" && field_is is_float p "total_elevation_gain" &&
  field_is date_kind p "start_date" && field_is date_kind p "start_date_local" &&
  field_is is_opt_float p "average_speed" && field_is is_opt_float p "max_speed" &&
  field_is is_opt_float p "average_heartrate" && field_is is_opt_float p "max_heartrate" &&
  field_is is_opt_str p "description" && field_is is_opt_float p "calories" &&
  field_is is_opt_str p "gear_id" && field_is is_bool p "trainer" &&
  field_is is_bool p "commute" && field_is is_bool p "private".

(** The transport shape: timestamps are ISO-8601 strings. *)
Definition transport_shape : PyVal -> bool := shape is_str.

(** The same shape with the timestamps still datetimes. *)
Definition record_shape : PyVal -> bool := shape is_datetime.

(** A record with its timestamps replaced by their ISO-8601 text. *)
Definition iso_dates (r : Activity.t) : Activity.t :=
  let iso v := match v with VDatetime dt => VStr (isoformat dt) | _ => v end in
  Activity.mk (Activity.id r) (Activity.name r) (Activity.type r) (Activity.distance r)
    (Activity.moving_time r) (Activity.elapsed_time r) (Activity.total_elevation_gain r)
    (iso (Activity.start_date r)) (iso (Activity.start_date_local r))
    (Activity.average_speed r) (Activity.max_speed r) (Activity.average_heartrate r)
    (Activity.max_heartrate r) (Activity.description r) (Activity.calories r)
    (Activity.gear_id r) (Activity.trainer r) (Activity.commute r) (Activity.private r).

(** A record with other identity fields. *)
Definition with_identity (i n : PyVal) (r : Activity.t) : Activity.t :=
  Activity.mk i n (Activity.type r) (Activity.distance r)
    (Activity.moving_time r) (Activity.elapsed_time r) (Activity.total_elevation_gain r)
    (Activity.start_date r) (Activity.start_date_local r)
    (Activity.average_speed r) (Activity.max_speed r) (Activity.average_heartrate r)
    (Activity.max_heartrate r) (Activity.description r) (Activity.calories r)
    (Activity.gear_id r) (Activity.trainer r) (Activity.commute r) (Activity.private r).

(** The optional metrics read by attribute access, with their fields. *)
Definition optional_metrics : list (string * (Activity.t -> option Q)) :=
  [ ("average_speed", Activity.average_speed);
    ("max_speed", Activity.max_speed);
    ("average_heartrate", Activity.average_heartrate);
    ("max_heartrate", Activity.max_heartrate) ].

(** The rule of an optional metric: the record holds [None] exactly when
    the payload's value is falsy, and [float] of the value otherwise; a
    numeric zero is falsy. *)
Definition metric_rule (float_of_str : string -> option Q) (x : PyVal) (o : option Q)
  : Prop :=
  (o = None <-> truthy x = false) /\
  (truthy x = true -> exists q, Activity.py_float float_of_str x = Ok q /\ o = Some q) /\
  (numeric_zero x = true -> o = None).

(** What normalization makes of a float, of an optional float and of an
    integer duration. *)
Definition zero_or (v : PyVal) : Q :=
  match v with
  | VFloat q => if Qnum q =? 0 then 0%Q else q
  | _ => 0%Q
  end.

Definition none_or (v : PyVal) : option Q :=
  match v with
  | VFloat q => if Qnum q =? 0 then None else Some q
  | _ => None
  end.

Definition int_or_zero (v : PyVal) : Z :=
  match v with
  | VInt n => n
  | _ => 0
  end.

Arguments zero_or : simpl never.
Arguments none_or : simpl never.

(** The record that normalization yields on a payload of a [shape]. *)
Definition shaped_record (p : PyVal) : Activity.t :=
  let attr f := py_getattr_default p f VNone in
  Activity.mk (attr "id") (attr "name") (attr "type") (zero_or (attr "distance"))
    (int_or_zero (attr "moving_time")) (int_or_zero (attr "elapsed_time"))
    (zero_or (attr "total_elevation_gain")) (attr "start_date") (attr "start_date_local")
    (none_or (attr "average_speed")) (none_or (attr "max_speed"))
    (none_or (attr "average_heartrate")) (none_or (attr "max_heartrate"))
    (attr "description") (none_or (attr "calories")) (attr "gear_id")
    (attr "trainer") (attr "commute") (attr "private").

(** ** The commands ([cli.py]) *)

Module Cli.

(** An exception in a command: one of the modelled code, or one raised
    inside a library (stravalib, rich), known by its name and by the
    text its message holds. *)
Inductive failure :=
| Python (e : exn)
| Library (name text : string).

Definition plain_failure (f : failure) : bool :=
  match f with
  | Python e => plain_exn e
  | Library _ text => bracket_free text
  end.

(** The lines the commands write with [console.print], each with the
    texts put into it; the code's own tags are not represented. *)
Inductive message :=
| Error_loading (e : exn)
| Invalid_date (flag : string)
| Error_fetching_activities (f : failure)
| No_activities_found
| No_updates_specified
| Updated_successfully (activity_id : Z)
| Name_line (name : string)
| Description_line (description : string)
| Error_updating (activity_id : Z) (f : failure).

(** What reaches the terminal: a line, the JSON text given to
    [click.echo], a table with its cells, an empty line. *)
Inductive output :=
| Print (m : message)
| Echo (text : list token)
| Print_table (title : option nat) (rows : list (list PyVal))
| Print_blank.

(** Whether the texts put into a line or into the cells of a table are
    known to hold no opening bracket.  [click.echo] does not parse
    markup; a cell that is not a string renders itself. *)
Definition plain_message (m : message) : bool :=
  match m with
  | Error_loading e => plain_exn e
  | Invalid_date flag => bracket_free flag
  | Error_fetching_activities f | Error_updating _ f => plain_failure f
  | Name_line text | Description_line text => bracket_free text
  | No_activities_found | No_updates_specified | Updated_successfully _ => true
  end.

Definition plain_cell (cell : PyVal) : bool :=
  match cell with
  | VStr s => bracket_free s
  | _ => false
  end.

Definition plain_output (o : output) : bool :=
  match o with
  | Print m => plain_message m
  | Print_table _ rows => forallb (forallb plain_cell) rows
  | Echo _ | Print_blank => true
  end.

(** The requests made to the remote API through the stravalib client,
    each with the access token the client holds. *)
Inductive api_call :=
| Get_activities (token : PyVal) (after before : option datetime) (limit : Z)
| Get_activity (token : PyVal) (activity_id : Z)
| Update_activity (token : PyVal) (activity_id : Z) (updates : list (string * PyVal)).

Inductive Outcome (A : Type) :=
| Done (a : A)
| Failed (f : failure).
Arguments Done {A} a.
Arguments Failed {A} f.

Section Commands.

(** The remote service: its state and the three requests the commands
    make; the text functions of the mapper; [datetime.strptime(s, fmt)],
    [None] standing for its [ValueError]. *)
Variable R : Type.
Variable get_activities :
  PyVal -> option datetime -> option datetime -> Z -> R -> Outcome (list PyVal) * R.
Variable get_activity : PyVal -> Z -> R -> Outcome PyVal * R.
Variable update_activity : PyVal -> Z -> list (string * PyVal) -> R -> Outcome unit * R.
Variable endpoint : Z -> PyVal -> PyVal -> Result PyVal.
Variable float_of_str : string -> option Q.
Variable repr_other : PyVal -> string.
Variable format_2f : Q -> string.
Variable format_0f : Q -> string.
Variable strftime : datetime -> string -> string.
Variable strptime : string -> string -> option datetime.

Record Session := mk_Session {
  world : World;
  remote : R;
  calls : list api_call;
  console : list output
}.

Definition C (A : Type) : Type := Session -> Outcome A * Session.

#[global] Instance C_ret : MRet C := fun A a s => (Done a, s).
#[global] Instance C_bind : MBind C := fun A B f m s =>
  match m s with
  | (Done a, s') => f a s'
  | (Failed x, s') => (Failed x, s')
  end.

Definition fail {A : Type} (x : failure) : C A := fun s => (Failed x, s).

(** A pure computation of the mapper inside a command. *)
Definition pure {A : Type} (r : Result A) : C A := fun s =>
  match r with
  | Ok a => (Done a, s)
  | Raise e => (Failed (Python e), s)
  end.

(** [try: body except Exception as e: handler(e)]. *)
Definition try_except {A : Type} (body : C A) (handler : failure -> C A) : C A := fun s =>
  match body s with
  | (Failed x, s') => handler x s'
  | done => done
  end.

(** Writing to the terminal: what is written is recorded once rich has
    rendered it. *)
Definition emit (o : output) : C unit := fun s =>
  match rich_print (plain_output o) (world s) with
  | (Ok _, w') => (Done tt, mk_Session w' (remote s) (calls s) (console s ++ [o]))
  | (Raise e, w') => (Failed (Python e), mk_Session w' (remote s) (calls s) (console s))
  end.

(** [console.print(text)]. *)
Definition console_print (m : message) : C unit := emit (Print m).

(** [click.echo(json.dumps(obj, indent=2))]: [json.dumps] raises
    [TypeError] on a value that is not serialisable, before anything is
    written. *)
Definition echo_json (obj : PyVal) : C unit :=
  if complete (iterencode obj)
  then emit (Echo (json_dumps obj))
  else fail (Python TypeError).

(** A request to the remote API, made with the client's access token. *)
Definition request {A : Type} (call : PyVal -> api_call)
  (run : PyVal -> R -> Outcome A * R) : C A := fun s =>
  let token := client_access_token (world s) in
  let (res, remote') := run token (remote s) in
  (res, mk_Session (world s) remote' (calls s ++ [call token]) (console s)).

Definition get_client (token_file : option string) : C StravaClient.t := fun s =>
  let token_path :=
    match token_file with
    | Some p => if truthy (VStr p) then Some p else None
    | None => None
    end in
  match StravaClient.__init__ endpoint token_path (world s) with
  | (Ok client, w') => (Done client, mk_Session w' (remote s) (calls s) (console s))
  | (Raise e, w') =>
      if is_FileNotFoundError e || is_ValueError e
      then (_ ← console_print (Error_loading e); fail (Python Abort))
             (mk_Session w' (remote s) (calls s) (console s))
      else (Failed (Python e), mk_Session w' (remote s) (calls s) (console s))
  end.

(** [[f(x) for x in xs]]. *)
Fixpoint for_each {A B : Type} (f : A -> Result B) (xs : list A) : Result (list B) :=
  match xs with
  | [] => Ok []
  | x :: rest => y ← f x; ys ← for_each f rest; Ok (y :: ys)
  end.

(** The check of [Table.add_row] on a cell: [None] stands for an empty
    cell, a string is kept, and so is an object that knows how to
    render itself; anything else is refused. *)
Definition add_cell (cell : PyVal) : Outcome PyVal :=
  match cell with
  | VNone => Done (VStr "")
  | VStr s => Done (VStr s)
  | _ =>
      if py_hasattr cell "__rich__" || py_hasattr cell "__rich_console__"
      then Done cell
      else Failed (Library "NotRenderableError" "")
  end.

Fixpoint add_cells (cells : list PyVal) : Outcome (list PyVal) :=
  match cells with
  | [] => Done []
  | c :: rest =>
      match add_cell c with
      | Done c' =>
          match add_cells rest with
          | Done cs => Done (c' :: cs)
          | Failed x => Failed x
          end
      | Failed x => Failed x
      end
  end.

(** [table.add_row] on the cells of a row, the table being the rows so
    far. *)
Definition add_row (table : list (list PyVal)) (cells : list PyVal)
  : C (list (list PyVal)) := fun s =>
  match add_cells cells with
  | Done row => (Done (table ++ [row]), s)
  | Failed x => (Failed x, s)
  end.

(** The block that parses [--after] and [--before]. *)
Definition parse_date (flag : string) (value : option string) : C (option datetime) :=
  match value with
  | Some text =>
      if truthy (VStr text)
      then
        match strptime text "%Y-%m-%d" with
        | Some d => mret (Some d)
        | None => _ ← console_print (Invalid_date flag); fail (Python Abort)
        end
      else mret None
  | None => mret None
  end.

(** The loop of [list] that fills the table. *)
Fixpoint add_activity_rows (table : list (list PyVal)) (activities : list Activity.t)
  : C (list (list PyVal)) :=
  match activities with
  | [] => mret table
  | activity :: rest =>
      row ← pure (Activity.format_table_row repr_other format_2f format_0f strftime activity);
      cells ← pure (for_each (py_subscript (VDict row))
                      ["ID"; "Date"; "Name"; "Type"; "Distance"; "Time"; "Elevation"]);
      table' ← add_row table cells;
      add_activity_rows table' rest
  end.

Definition update (activity_id : Z) (name description type : option string)
  (commute trainer : option bool) (gear_id : option string) (output_json : bool)
  (token_file : option string) : C unit :=
  client ← get_client token_file;
  (* Build update dictionary *)
  let updates : list (string * PyVal) := [] in
  let updates := if truthy (opt_str name) then dict_set "name" (opt_str name) updates
                 else updates in
  let updates := match description with
                 | Some d => dict_set "description" (VStr d) updates
                 | None => updates
                 end in
  let updates := if truthy (opt_str type) then dict_set "type" (opt_str type) updates
                 else updates in
  let updates := match commute with
                 | Some b => dict_set "commute" (VBool b) updates
                 | None => updates
                 end in
  let updates := match trainer with
                 | Some b => dict_set "trainer" (VBool b) updates
                 | None => updates
                 end in
  let updates := if truthy (opt_str gear_id) then dict_set "gear_id" (opt_str gear_id) updates
                 else updates in
  if negb (truthy (VDict updates))
  then console_print No_updates_specified
  else
    try_except
      ((* Update activity *)
       _ ← request (fun token => Update_activity token activity_id updates)
                   (fun token => update_activity token activity_id updates);
       (* Fetch updated activity *)
       strava_activity ← request (fun token => Get_activity token activity_id)
                                 (fun token => get_activity token activity_id);
       activity ← pure (Activity.from_strava_activity float_of_str repr_other strava_activity);
       if output_json
       then d ← pure (Activity.to_dict activity); echo_json (VDict d)
       else
         _ ← console_print (Updated_successfully activity_id);
         _ ← console_print (Name_line (Activity.py_str repr_other (Activity.name activity)));
         if truthy (Activity.description activity)
         then console_print
                (Description_line (Activity.py_str repr_other (Activity.description activity)))
         else mret tt)
      (fun e =>
         _ ← console_print (Error_updating activity_id e);
         fail (Python Abort)).

Definition list (limit : Z) (after before : option string) (output_json : bool)
  (token_file : option string) : C unit :=
  client ← get_client token_file;
  (* Parse dates if provided *)
  after_date ← parse_date "--after" after;
  before_date ← parse_date "--before" before;
  (* Fetch activities *)
  activities ←
    try_except
      (strava_activities ←
         request (fun token => Get_activities token after_date before_date limit)
                 (fun token => get_activities token after_date before_date limit);
       pure (for_each (Activity.from_strava_activity float_of_str repr_other)
                      strava_activities))
      (fun e =>
         _ ← console_print (Error_fetching_activities e);
         fail (Python Abort));
  match activities with
  | [] => console_print No_activities_found
  | _ =>
      if output_json
      then
        dicts ← pure (for_each Activity.to_dict activities);
        echo_json (VDict [("activities", VList (map VDict dicts));
                          ("count", VInt (Z.of_nat (length activities)))])
      else
        table ← add_activity_rows [] activities;
        emit (Print_table (Some (length activities)) table)
  end.

End Commands.
End Cli.

(** ** The sentences of the specification that the code does not meet,
    as the specification words them *)

(** "Either the new triple is fully written to the token file, or the
    previous file contents remain intact." *)
Definition overwrite_is_atomic : Prop :=
  forall (endpoint : Z -> PyVal -> PyVal -> Result PyVal) (self : StravaClient.t)
         (refresh_token : PyVal) (w : World) (old : list token),
    fs w !! StravaClient.token_file self = Some old ->
    let w' := snd (StravaClient._refresh_token endpoint self refresh_token w) in
    fs w' !! StravaClient.token_file self = Some old \/
    exists cid secret resp,
      endpoint cid secret refresh_token = Ok resp /\
      complete (iterencode resp) = true /\
      fs w' !! StravaClient.token_file self = Some (json_dumps resp).

(** "A structured duration is reduced to its total seconds, fractional
    seconds being truncated toward zero." *)
Definition duration_is_truncated : Prop :=
  forall td : timedelta,
    Activity.get_seconds (VTimedelta td)
    = Ok (Z.quot (td_total_microseconds td) 1000000).

(** "Normalization fails if [id] or [name] is absent or of the wrong
    kind."  The code has no [MalformedActivity]; any exception counts. *)
Definition identity_is_checked : Prop :=
  forall (float_of_str : string -> option Q) (repr_other : PyVal -> string) (p : PyVal),
    field_is is_int p "id" && field_is is_str p "name" = false ->
    exists e, Activity.from_strava_activity float_of_str repr_other p = Raise e.

(** "An explicitly supplied numeric zero for an optional metric is mapped
    to the value zero." *)
Definition zero_is_kept : Prop :=
  forall (float_of_str : string -> option Q) (repr_other : PyVal -> string)
         (p : PyVal) (r : Activity.t),
    Activity.from_strava_activity float_of_str repr_other p = Ok r ->
    (forall f get z, In (f, get) optional_metrics ->
       py_getattr p f = Ok z -> numeric_zero z = true ->
       exists q, get r = Some q /\ (q == 0)%Q) /\
    (forall z, py_getattr p "calories" = Ok z -> numeric_zero z = true ->
       exists q, Activity.calories r = Some q /\ (q == 0)%Q).

(** The preconditions shared by the statements about a refresh that goes
    through: a token file holding a dict with truthy tokens, the client id
    and secret configured, the endpoint answering with a JSON value that
    has an access token, and a device that accepts every write. *)
Definition refresh_goes_through (endpoint : Z -> PyVal -> PyVal -> Result PyVal)
  (self : StravaClient.t) (w : World) (access_token refresh_token expires_at : PyVal)
  (cid : Z) (secret : string) (resp new_token : PyVal) : Prop :=
  exists ts kvs cid_text,
    fs w !! StravaClient.token_file self = Some ts /\
    json_loads ts = Some (VDict kvs) /\
    py_dict_get (VDict kvs) "access_token" = Ok access_token /\
    py_dict_get (VDict kvs) "refresh_token" = Ok refresh_token /\
    py_dict_get (VDict kvs) "expires_at" = Ok expires_at /\
    truthy access_token = true /\ truthy refresh_token = true /\
    environ w !! "STRAVA_CLIENT_ID" = Some cid_text /\
    int_of_str cid_text = Ok cid /\
    environ w !! "STRAVA_CLIENT_SECRET" = Some secret /\
    secret <> "" /\
    endpoint cid (VStr secret) refresh_token = Ok resp /\
    json_value resp = true /\
    py_subscript resp "access_token" = Ok new_token /\
    write_budget w = None.

(** What a refresh that went through leaves: one call to the endpoint with
    the stored refresh token, the new access token on the client, and a
    token file that deserializes to the response. *)
Definition refreshed (self : StravaClient.t) (w : World) (res : Result unit * World)
  (refresh_token : PyVal) (cid : Z) (secret : string) (resp new_token : PyVal) : Prop :=
  fst res = Ok tt /\
  refresh_calls (snd res) = refresh_calls w ++ [(cid, VStr secret, refresh_token)] /\
  client_access_token (snd res) = new_token /\
  (fs (snd res) !! StravaClient.token_file self) ≫= json_loads = Some resp.

(** "For every record whose [expires_at] is within 300 seconds of now or
    in the past, the refresh endpoint is invoked, and the record and the
    file afterwards match its output." *)
Definition refresh_within_margin : Prop :=
  forall endpoint self w access_token refresh_token expires_at cid secret resp new_token t,
    refresh_goes_through endpoint self w access_token refresh_token expires_at
                         cid secret resp new_token ->
    as_number expires_at = Some t ->
    (t <= clock w + 300)%Q ->
    refreshed self w (StravaClient._load_and_set_token endpoint self w)
              refresh_token cid secret resp new_token.

(** "Normalizing the transport output of a payload in transport shape
    yields the same record." *)
Definition transport_round_trip : Prop :=
  forall (float_of_str : string -> option Q) (repr_other : PyVal -> string) (p : PyVal),
    transport_shape p = true ->
    exists r d,
      Activity.from_strava_activity float_of_str repr_other p = Ok r /\
      Activity.to_dict r = Ok d /\
      Activity.from_strava_activity float_of_str repr_other (VObj d) = Ok r.

(** ** Notions used to state the further properties *)

(** The token file of [self] holds an object whose three entries read
    [a], [r] and [e] with [dict.get], the two tokens being truthy. *)
Definition holds_tokens (self : StravaClient.t) (w : World) (a r e : PyVal) : Prop :=
  exists ts kvs,
    fs w !! StravaClient.token_file self = Some ts /\
    json_loads ts = Some (VDict kvs) /\
    py_dict_get (VDict kvs) "access_token" = Ok a /\
    py_dict_get (VDict kvs) "refresh_token" = Ok r /\
    py_dict_get (VDict kvs) "expires_at" = Ok e /\
    truthy a = true /\ truthy r = true.

(** The test of [_load_and_set_token] holds: [e] is a truthy number and
    the clock is past [e - 300]. *)
Definition due (e : PyVal) (w : World) : Prop :=
  truthy e = true /\ exists t, as_number e = Some t /\ (t - 300 < clock w)%Q.

(** The environment names a client id that reads as the integer [cid]
    and a non-empty secret. *)
Definition configured (w : World) (cid : Z) (secret : string) : Prop :=
  exists cid_text,
    environ w !! "STRAVA_CLIENT_ID" = Some cid_text /\
    int_of_str cid_text = Ok cid /\
    environ w !! "STRAVA_CLIENT_SECRET" = Some secret /\
    secret <> "".

(** The world after one more call of the refresh endpoint. *)
Definition with_call (cid : Z) (secret refresh_token : PyVal) (w : World) : World :=
  mk_World (fs w) (environ w) (clock w) (write_budget w)
           (refresh_calls w ++ [(cid, secret, refresh_token)]) (client_access_token w)
           (terminal w).

(** The path that [get_client] and [__init__] make of the option
    [--token-file]. *)
Definition token_path (token_file : option string) : string :=
  match token_file with
  | Some s => if String.eqb s "" then "strava-token.json" else s
  | None => "strava-token.json"
  end.

(** The attributes that [from_strava_activity] reads without a default. *)
Definition direct_attributes : list string :=
  [ "type"; "id"; "name"; "distance"; "moving_time"; "elapsed_time";
    "total_elevation_gain"; "start_date"; "start_date_local"; "average_speed";
    "max_speed"; "average_heartrate"; "max_heartrate" ].

(** Kinds of values: what [float] accepts besides strings (an integer
    must be below 2^1024 - 2^970 in magnitude, or it is too large for a
    double), what [get_seconds] accepts besides strings, and the types
    that normalization resolves: a string, [None], a bool, or a wrapper
    with a [root]. *)
Definition is_number_or_none (v : PyVal) : bool :=
  match v with
  | VNone | VBool _ | VFloat _ => true
  | VInt n => Z.abs n <? 2 ^ 1024 - 2 ^ 970
  | _ => false
  end.

Definition is_activity_type (v : PyVal) : bool :=
  match v with
  | VNone | VBool _ | VStr _ => true
  | VObj _ => py_hasattr v "root"
  | _ => false
  end.

Definition is_duration (v : PyVal) : bool :=
  match v with VNone | VBool _ | VInt _ | VFloat _ | VTimedelta _ => true | _ => false end.

Definition anything (v : PyVal) : bool := true.

(** A payload that has the attributes read without a default, its type
    being resolvable, its numbers being numbers or [None] and its
    durations numbers, [None] or timedeltas. *)
Definition typed_payload (p : PyVal) : bool :=
  field_is is_activity_type p "type" && field_is anything p "id" &&
  field_is anything p "name" &&
  field_is is_number_or_none p "distance" && field_is is_duration p "moving_time" &&
  field_is is_duration p "elapsed_time" &&
  field_is is_number_or_none p "total_elevation_gain" &&
  field_is anything p "start_date" && field_is anything p "start_date_local" &&
  field_is is_number_or_none p "average_speed" && field_is is_number_or_none p "max_speed" &&
  field_is is_number_or_none p "average_heartrate" &&
  field_is is_number_or_none p "max_heartrate" &&
  is_number_or_none (py_getattr_default p "calories" VNone).

(** The keys of [to_dict] and of [format_table_row], in their order. *)
Definition transport_keys : list string :=
  [ "id"; "name"; "type"; "distance"; "moving_time"; "elapsed_time";
    "total_elevation_gain"; "start_date"; "start_date_local"; "average_speed";
    "max_speed"; "average_heartrate"; "max_heartrate"; "description"; "calories";
    "gear_id"; "trainer"; "commute"; "private" ].

Definition table_keys : list string :=
  [ "ID"; "Date"; "Name"; "Type"; "Distance"; "Time"; "Elevation" ].

(** The fields of a record that hold whatever the payload held. *)
Definition copied_fields (r : Activity.t) : list PyVal :=
  [ Activity.id r; Activity.name r; Activity.type r; Activity.description r;
    Activity.gear_id r; Activity.trainer r; Activity.commute r; Activity.private r ].

(** Both timestamps of a record are datetimes. *)
Definition has_datetimes (r : Activity.t) : bool :=
  is_datetime (Activity.start_date r) && is_datetime (Activity.start_date_local r).

(** The dictionary that [update] builds from its options. *)
Definition update_fields (name description type : option string)
  (commute trainer : option bool) (gear_id : option string) : list (string * PyVal) :=
  (if truthy (opt_str name) then [("name", opt_str name)] else []) ++
  (match description with Some d => [("description", VStr d)] | None => [] end) ++
  (if truthy (opt_str type) then [("type", opt_str type)] else []) ++
  (match commute with Some b => [("commute", VBool b)] | None => [] end) ++
  (match trainer with Some b => [("trainer", VBool b)] | None => [] end) ++
  (if truthy (opt_str gear_id) then [("gear_id", opt_str gear_id)] else []).

(** A cell as the table keeps it, and the records whose row the table
    accepts: a local start that is a datetime, a name and a type that are
    strings or [None]. *)
Definition shown (cell : PyVal) : PyVal :=
  match cell with VNone => VStr "" | _ => cell end.

Definition is_text_or_none (v : PyVal) : bool :=
  match v with VNone | VStr _ => true | _ => false end.

(** Values whose [str] is one of the modelled texts: of integers,
    those within the interpreter's limit on the digits of a conversion. *)
Definition is_label (v : PyVal) : bool :=
  match v with
  | VNone | VBool _ | VStr _ => true
  | VInt n => Z.abs n <? 10 ^ 4300
  | _ => false
  end.

Definition tabular (r : Activity.t) : bool :=
  is_datetime (Activity.start_date_local r) && is_text_or_none (Activity.name r) &&
  is_text_or_none (Activity.type r) && is_label (Activity.id r) &&
  (Z.abs (Activity.moving_time r) <? 10 ^ 4300).

(** A session after one more output, and after one more request that
    left the remote service in the state [r]. *)
Definition logged {R : Type} (o : Cli.output) (s : Cli.Session R) : Cli.Session R :=
  Cli.mk_Session R (Cli.world R s) (Cli.remote R s) (Cli.calls R s) (Cli.console R s ++ [o]).

Definition requested {R : Type} (c : Cli.api_call) (r : R) (s : Cli.Session R)
  : Cli.Session R :=
  Cli.mk_Session R (Cli.world R s) r (Cli.calls R s ++ [c]) (Cli.console R s).

(** ** Sample inputs *)

Definition triple (a r : string) (e : Z) : PyVal :=
  VDict [("access_token", VStr a); ("refresh_token", VStr r); ("expires_at", VInt e)].

(** An endpoint that always answers with the same fresh triple. *)
Definition sample_endpoint (client_id : Z) (client_secret refresh_token : PyVal)
  : Result PyVal :=
  Ok (triple "new-access" "new-refresh" 2000007200).

Definition sample_environ : gmap string string :=
  <["STRAVA_CLIENT_ID" := "4711"]> (<["STRAVA_CLIENT_SECRET" := "s3cret"]> ∅).

Definition sample_self : StravaClient.t := StravaClient.mk "strava-token.json".

(** A world at time [now] whose token file holds the value [v]. *)
Definition sample_world (v : PyVal) (now : Q) (budget : option (nat * list token)) : World :=
  mk_World (<["strava-token.json" := json_dumps v]> ∅) sample_environ now budget [] VNone [].

(** The triple stored before a refresh, and the time of the samples. *)
Definition old_triple (expires_at : Z) : PyVal := triple "old-access" "old-refresh" expires_at.
Definition sample_now : Q := 1700000000.

(** Worlds: a device that takes three chunks only, one that also takes
    the beginning of the fourth, a string, and one that takes nothing;
    token files whose
    expiry is zero, exactly 300 seconds ahead, 200 seconds ahead, an hour
    ahead, or absent; a token file that holds a JSON array. *)
Definition world_interrupted : World :=
  sample_world (old_triple 1699990000) sample_now (Some (3%nat, [])).
Definition world_cut_in_string : World :=
  sample_world (old_triple 1699990000) sample_now (Some (3%nat, [TJunk "new-acc"])).
Definition world_full_disk : World :=
  sample_world (old_triple 1699990000) sample_now (Some (0%nat, [])).
Definition world_zero_expiry : World := sample_world (old_triple 0) sample_now None.
Definition world_boundary : World := sample_world (old_triple 1700000300) sample_now None.
Definition world_expiring : World := sample_world (old_triple 1700000200) sample_now None.
Definition world_fresh : World := sample_world (old_triple 1700003600) sample_now None.
Definition world_no_expiry : World :=
  sample_world (VDict [("access_token", VStr "old-access"); ("refresh_token", VStr "old-refresh")])
               sample_now None.
Definition world_not_object : World := sample_world (VList []) sample_now None.

(** [float(s)] for the strings that are integer literals. *)
Definition sample_float_of_str (s : string) : option Q :=
  match int_of_str s with
  | Ok n => Some (inject_Z n)
  | Raise _ => None
  end.

Definition sample_repr (v : PyVal) : string := "<object>".

Definition sample_date : datetime := mk_datetime 2024 5 17 6 30 0 0 (Some 0).
Definition sample_date_local : datetime := mk_datetime 2024 5 17 8 30 0 0 None.

(** A payload as the API client delivers it: a wrapped type, a structured
    duration, a metric that is an explicit zero. *)
Definition sample_payload : PyVal :=
  VObj [ ("id", VInt 987654321);
         ("name", VStr "Morning Run");
         ("type", VObj [("root", VStr "Run")]);
         ("distance", VFloat 5000);
         ("moving_time", VTimedelta (mk_timedelta 0 3661 0));
         ("elapsed_time", VInt 3700);
         ("total_elevation_gain", VFloat (617 # 5));
         ("start_date", VDatetime sample_date);
         ("start_date_local", VDatetime sample_date_local);
         ("average_speed", VFloat (5 # 2));
         ("max_speed", VFloat 4);
         ("average_heartrate", VFloat 0);
         ("max_heartrate", VNone);
         ("description", VNone);
         ("calories", VInt 0);
         ("gear_id", VStr "g1");
         ("trainer", VBool false);
         ("commute", VBool false);
         ("private", VBool true) ].

(** A payload in the shape of an [Activity] record. *)
Definition sample_record_payload : PyVal :=
  VObj [ ("id", VInt 987654321);
         ("name", VStr "Morning Run");
         ("type", VStr "Run");
         ("distance", VFloat 5000);
         ("moving_time", VInt 3661);
         ("elapsed_time", VInt 3700);
         ("total_elevation_gain", VFloat (617 # 5));
         ("start_date", VDatetime sample_date);
         ("start_date_local", VDatetime sample_date_local);
         ("average_speed", VFloat (5 # 2));
         ("max_speed", VFloat 4);
         ("average_heartrate", VFloat 0);
         ("max_heartrate", VNone);
         ("description", VNone);
         ("calories", VFloat 0);
         ("gear_id", VStr "g1");
         ("trainer", VBool false);
         ("commute", VBool false);
         ("private", VBool true) ].

(** The same payload in transport shape, as [to_dict] renders it. *)
Definition sample_transport : list (string * PyVal) :=
  [ ("id", VInt 987654321);
    ("name", VStr "Morning Run");
    ("type", VStr "Run");
    ("distance", VFloat 5000);
    ("moving_time", VInt 3661);
    ("elapsed_time", VInt 3700);
    ("total_elevation_gain", VFloat (617 # 5));
    ("start_date", VStr "2024-05-17T06:30:00+00:00");
    ("start_date_local", VStr "2024-05-17T08:30:00");
    ("average_speed", VFloat (5 # 2));
    ("max_speed", VFloat 4);
    ("average_heartrate", VNone);
    ("max_heartrate", VNone);
    ("description", VNone);
    ("calories", VNone);
    ("gear_id", VStr "g1");
    ("trainer", VBool false);
    ("commute", VBool false);
    ("private", VBool true) ].

(** A payload whose identity fields are of the wrong kind. *)
Definition sample_bad_identity : PyVal :=
  VObj [ ("id", VNone);
         ("name", VInt 7);
         ("type", VStr "Run");
         ("distance", VNone);
         ("moving_time", VNone);
         ("elapsed_time", VNone);
         ("total_elevation_gain", VNone);
         ("start_date", VNone);
         ("start_date_local", VNone);
         ("average_speed", VNone);
         ("max_speed", VNone);
         ("average_heartrate", VNone);
         ("max_heartrate", VNone) ].

(** Further worlds: no token file; a token file without refresh token;
    one whose expiry is a text; a second file beside the token file; an
    environment without the client settings, and one whose client id is
    not a number. *)
Definition world_no_file : World := mk_World ∅ sample_environ sample_now None [] VNone [].
Definition world_no_refresh_token : World :=
  sample_world (VDict [("access_token", VStr "old-access")]) sample_now None.
Definition world_text_expiry : World :=
  sample_world (VDict [("access_token", VStr "old-access");
                       ("refresh_token", VStr "old-refresh");
                       ("expires_at", VStr "soon")]) sample_now None.
Definition world_two_files : World :=
  with_fs (<["notes.json" := [TLBracket; TRBracket]]> (fs world_expiring)) world_expiring.
Definition world_unconfigured : World :=
  mk_World (fs world_expiring) ∅ sample_now None [] VNone [].
Definition world_bad_client_id : World :=
  mk_World (fs world_expiring) (<["STRAVA_CLIENT_ID" := "my-app"]> sample_environ)
           sample_now None [] VNone [].

(** Worlds whose terminal rejects the lines that may hold markup, and a
    payload whose name holds a closing tag. *)
Definition with_terminal (t : list bool) (w : World) : World :=
  mk_World (fs w) (environ w) (clock w) (write_budget w) (refresh_calls w)
           (client_access_token w) t.
Definition world_rejecting : World := with_terminal [false] world_no_file.
Definition sample_markup_payload : PyVal :=
  VObj [ ("id", VInt 1);
         ("name", VStr "a [/b]");
         ("type", VStr "Run");
         ("distance", VNone);
         ("moving_time", VNone);
         ("elapsed_time", VNone);
         ("total_elevation_gain", VNone);
         ("start_date", VDatetime sample_date);
         ("start_date_local", VDatetime sample_date_local);
         ("average_speed", VNone);
         ("max_speed", VNone);
         ("average_heartrate", VNone);
         ("max_heartrate", VNone) ].

(** An endpoint that is out of reach, and one whose answer lacks the
    access token. *)
Definition failing_endpoint (client_id : Z) (client_secret refresh_token : PyVal)
  : Result PyVal :=
  Raise OSError.
Definition incomplete_endpoint (client_id : Z) (client_secret refresh_token : PyVal)
  : Result PyVal :=
  Ok (VDict [("refresh_token", VStr "new-refresh"); ("expires_at", VInt 2000007200)]).

(** The record normalized from the sample payloads. *)
Definition sample_activity : Activity.t :=
  Activity.mk (VInt 987654321) (VStr "Morning Run") (VStr "Run") 5000 3661 3700 (617 # 5)
              (VDatetime sample_date) (VDatetime sample_date_local)
              (Some (5 # 2)) (Some 4%Q) None None VNone None
              (VStr "g1") (VBool false) (VBool false) (VBool true).

(** Text functions for the samples: a number written as a fraction, a
    datetime written in ISO format whatever the format asked for, and a
    parser that knows a single day. *)
Definition sample_format (q : Q) : string :=
  str_of_int (Qnum q) +:+ "/" +:+ str_of_int (Zpos (Qden q)).
Definition sample_strftime (dt : datetime) (fmt : string) : string := isoformat dt.
Definition sample_strptime (text fmt : string) : option datetime :=
  if String.eqb text "2024-05-01" then Some (mk_datetime 2024 5 1 0 0 0 0 None) else None.

(** A remote service that keeps a list of payloads: it lists the first
    [limit] of them, finds one by its id, and updates attributes in
    place. *)
Definition has_id (activity_id : Z) (p : PyVal) : bool :=
  match py_getattr p "id" with
  | Ok (VInt n) => n =? activity_id
  | _ => false
  end.

Definition sample_get_activities (token : PyVal) (after before : option datetime) (limit : Z)
  (r : list PyVal) : Cli.Outcome (list PyVal) * list PyVal :=
  (Cli.Done (firstn (Z.to_nat limit) r), r).

Definition sample_get_activity (token : PyVal) (activity_id : Z) (r : list PyVal)
  : Cli.Outcome PyVal * list PyVal :=
  match find (has_id activity_id) r with
  | Some p => (Cli.Done p, r)
  | None => (Cli.Failed (Cli.Library "ObjectNotFound" "Record Not Found"), r)
  end.

Definition sample_update_activity (token : PyVal) (activity_id : Z)
  (updates : list (string * PyVal)) (r : list PyVal) : Cli.Outcome unit * list PyVal :=
  if existsb (has_id activity_id) r
  then (Cli.Done tt,
        map (fun p =>
               match p with
               | VObj attrs =>
                   if has_id activity_id p
                   then VObj (fold_left (fun a kv => dict_set (fst kv) (snd kv) a) updates attrs)
                   else p
               | _ => p
               end) r)
  else (Cli.Failed (Cli.Library "ObjectNotFound" "Record Not Found"), r).

(** A session that starts with a fresh token file and the given remote
    payloads, and the same session once the client is set up. *)
Definition sample_session (r : list PyVal) : Cli.Session (list PyVal) :=
  Cli.mk_Session (list PyVal) world_fresh r [] [].
Definition sample_session_ready (r : list PyVal) : Cli.Session (list PyVal) :=
  Cli.mk_Session (list PyVal) (with_access_token (VStr "old-access") world_fresh) r [] [].

(** The commands on the sample service. *)
Definition sample_update :=
  Cli.update (list PyVal) sample_get_activity sample_update_activity sample_endpoint
             sample_float_of_str sample_repr.
Definition sample_list :=
  Cli.list (list PyVal) sample_get_activities sample_endpoint sample_float_of_str sample_repr
           sample_format sample_format sample_strftime sample_strptime.

(** * Properties *)

(** ** Basic facts *)

Lemma bind_Ok {A B : Type} (m : Result A) (f : A -> Result B) (b : B) :
  m ≫= f = Ok b -> exists a, m = Ok a /\ f a = Ok b.
Proof. destruct m as [a|e]; simpl; [eauto | discriminate]. Qed.

(** One step of a successful run of [from_strava_activity]. *)
Ltac step H :=
  let a := fresh "x" in
  let E := fresh "E" in
  apply bind_Ok in H as (a & E & H).

(** Rewriting with the outcome of a step. *)
Ltac rw H := rewrite H; cbn [mbind Result_bind].

Lemma assoc_dict_set {A : Type} (k k' : string) (v : A) (l : list (string * A)) :
  assoc k (dict_set k' v l) = if String.eqb k k' then Some v else assoc k l.
Proof.
  induction l as [|[k0 v0] l IH]; simpl.
  - destruct (String.eqb k k'); reflexivity.
  - destruct (String.eqb k' k0) eqn:E0; simpl.
    + apply String.eqb_eq in E0 as <-.
      destruct (String.eqb k k'); reflexivity.
    + destruct (String.eqb k k0) eqn:E1.
      * apply String.eqb_eq in E1 as <-.
        rewrite String.eqb_sym in E0. now rewrite E0.
      * exact IH.
Qed.

Lemma getattr_error (p : PyVal) (f : string) (e : exn) :
  py_getattr p f = Raise e -> e = AttributeError.
Proof.
  unfold py_getattr. destruct p; try (intros [= <-]; reflexivity).
  destruct (assoc f attrs); [discriminate | intros [= <-]; reflexivity].
Qed.

Lemma getattr_dict_set (attrs : list (string * PyVal)) (f : string) (i n : PyVal) :
  String.eqb f "id" = false -> String.eqb f "name" = false ->
  py_getattr (VObj (dict_set "id" i (dict_set "name" n attrs))) f
  = py_getattr (VObj attrs) f.
Proof.
  intros Hi Hn. unfold py_getattr. rewrite !assoc_dict_set, Hi, Hn. reflexivity.
Qed.

Lemma numeric_zero_falsy (x : PyVal) : numeric_zero x = true -> truthy x = false.
Proof. destruct x; try discriminate; simpl; intros ->; reflexivity. Qed.

Lemma quot_truncates (u : Z) : truncated_seconds u (Z.quot u 1000000).
Proof.
  unfold truncated_seconds. split; [reflexivity|]. Z.to_euclidean_division_equations. nia.
Qed.

Lemma round_half_even_bounds (n d : Z) :
  0 < d -> 0 <= n ->
  2 * d * round_half_even n d <= 2 * n + d /\ 2 * n <= 2 * d * round_half_even n d + d.
Proof.
  intros Hd Hn. unfold round_half_even.
  pose proof (Z.div_mod n d ltac:(lia)) as E.
  pose proof (Z.mod_pos_bound n d Hd) as B.
  set (q := n / d) in *. set (r := n mod d) in *.
  assert (E1 : 2 * d * q = 2 * n - 2 * r) by (rewrite E; ring).
  assert (E2 : 2 * d * (q + 1) = 2 * n - 2 * r + 2 * d) by (rewrite E; ring).
  destruct (Z.compare_spec (2 * r) d) as [C | C | C].
  - destruct (Z.even q); [rewrite E1 | rewrite E2]; lia.
  - rewrite E1. lia.
  - rewrite E2. lia.
Qed.

Lemma round_half_even_exact (n : Z) : round_half_even n 1 = n.
Proof. unfold round_half_even. rewrite Z.mod_1_r, Z.div_1_r. reflexivity. Qed.

(** A positive rational below [2^b] has its unit in the last place at
    [2^(b - 53)] at most. *)
Lemma ulp_exponent_le (n d b : Z) :
  0 < n -> 0 < d -> 0 <= b -> n < 2 ^ b * d -> -1074 <= b - 53 ->
  ulp_exponent n d <= b - 53.
Proof.
  intros Hn Hd Hb Hlt Hs. unfold ulp_exponent.
  pose proof (Z.log2_spec n Hn) as [Ln1 Ln2].
  pose proof (Z.log2_spec d Hd) as [Ld1 Ld2].
  pose proof (Z.log2_nonneg n) as Nn. pose proof (Z.log2_nonneg d) as Nd.
  set (a := Z.log2 n) in *. set (c := Z.log2 d) in *.
  assert (Hab : a - c <= b).
  { destruct (Z.le_gt_cases (a - c) b) as [H|H]; [exact H|exfalso].
    assert (2 ^ (b + c + 1) <= 2 ^ a) by (apply Z.pow_le_mono_r; lia).
    assert (2 ^ (b + c + 1) = 2 ^ b * 2 ^ (Z.succ c)).
    { rewrite <- Z.pow_add_r by lia. f_equal. lia. }
    assert (0 < 2 ^ b) by (apply Z.pow_pos_nonneg; lia).
    nia. }
  apply Z.max_lub; [|lia].
  destruct (Z.eq_dec (a - c) b) as [E|E].
  2:{ match goal with |- context [if ?t then _ else _] => destruct t end; lia. }
  rewrite E. destruct (0 <=? b) eqn:B; [|apply Z.leb_gt in B; lia].
  assert (Hb' : (n <? d * 2 ^ b) = true) by (apply Z.ltb_lt; lia).
  rewrite Hb'. lia.
Qed.

Lemma pow2_pos (k : Z) : 0 <= k -> Z.pos (Z.to_pos (2 ^ k)) = 2 ^ k.
Proof. intros H. apply Z2Pos.id. apply Z.pow_pos_nonneg; lia. Qed.

(** Below 2^34 seconds, rounding the total seconds to a double does not
    reach the next whole second. *)
Lemma total_seconds_floor (u : Z) :
  Z.abs u < 2 ^ 34 * 1000000 ->
  int_of_float (round_double (Qmake u 1000000)) = Z.quot u 1000000.
Proof.
  intros Hu. unfold round_double, int_of_float. cbn [Qnum Qden].
  destruct (Z.abs u =? 0) eqn:Z0.
  { apply Z.eqb_eq in Z0. assert (u = 0) by lia. subst u. reflexivity. }
  apply Z.eqb_neq in Z0.
  assert (Hn : 0 < Z.abs u) by lia.
  pose proof (ulp_exponent_le (Z.abs u) 1000000 34 Hn ltac:(lia) ltac:(lia) Hu ltac:(lia)) as He.
  set (e := ulp_exponent (Z.abs u) 1000000) in *.
  destruct (0 <=? e) eqn:E0; [apply Z.leb_le in E0; lia|]. clear E0.
  cbn [Qnum Qden]. rewrite pow2_pos by lia.
  set (k := - e) in *. assert (Hk : 19 <= k) by (unfold k; lia).
  assert (Hp : 2 ^ 19 <= 2 ^ k) by (apply Z.pow_le_mono_r; lia).
  change (2 ^ 19) with 524288 in Hp.
  assert (Hn' : 0 <= Z.abs u * 2 ^ k) by nia.
  pose proof (round_half_even_bounds (Z.abs u * 2 ^ k) 1000000 ltac:(lia) Hn') as [B1 B2].
  set (m := round_half_even (Z.abs u * 2 ^ k) 1000000) in *.
  pose proof (Z.div_mod (Z.abs u) 1000000 ltac:(lia)) as D.
  pose proof (Z.mod_pos_bound (Z.abs u) 1000000 ltac:(lia)) as DB.
  set (N := Z.abs u / 1000000) in *.
  assert (HN : 0 <= N) by (apply Z.div_pos; lia).
  assert (Hm : N * 2 ^ k <= m < (N + 1) * 2 ^ k) by nia.
  assert (Hq : m / 2 ^ k = N).
  { symmetry. apply (Z.div_unique m (2 ^ k) N (m - N * 2 ^ k)); [left|]; nia. }
  assert (Hm0 : 0 <= m) by nia.
  assert (Hp2 : 0 < 2 ^ k) by lia.
  destruct (Z.lt_trichotomy u 0) as [Neg | [Zero | Pos]]; [| lia |].
  - rewrite (Z.sgn_neg u Neg). replace (-1 * m) with (- m) by lia.
    rewrite Z.quot_opp_l by lia. rewrite Z.quot_div_nonneg by lia. rewrite Hq.
    replace u with (- Z.abs u) at 1 by lia.
    rewrite Z.quot_opp_l by lia. rewrite Z.quot_div_nonneg by lia. reflexivity.
  - rewrite (Z.sgn_pos u Pos). replace (1 * m) with m by lia.
    rewrite Z.quot_div_nonneg by lia. rewrite Hq.
    rewrite Z.quot_div_nonneg by lia. unfold N. f_equal. lia.
Qed.

(** An integer below 2^1024 - 2^970 in magnitude is rounded to a finite
    double. *)
Lemma round_double_int_finite (n : Z) :
  Z.abs n < 2 ^ 1024 - 2 ^ 970 ->
  is_finite_double (round_double (inject_Z n)) = true.
Proof.
  intros Hn. unfold round_double, is_finite_double. cbn [inject_Z Qnum Qden].
  destruct (Z.abs n =? 0) eqn:Z0; [reflexivity|]. apply Z.eqb_neq in Z0.
  assert (Hp : 0 < Z.abs n) by lia.
  assert (Hlt : Z.abs n < 2 ^ 1024 * 1) by lia.
  pose proof (ulp_exponent_le (Z.abs n) 1 1024 Hp ltac:(lia) ltac:(lia) Hlt ltac:(lia)) as He.
  assert (Hl : -1074 <= ulp_exponent (Z.abs n) 1) by (unfold ulp_exponent; apply Z.le_max_r).
  set (e := ulp_exponent (Z.abs n) 1) in *.
  assert (Hs : Z.abs (Z.sgn n) = 1) by (destruct n; try reflexivity; lia).
  destruct (0 <=? e) eqn:E0.
  - apply Z.leb_le in E0. cbn [inject_Z Qnum Qden]. apply Z.ltb_lt.
    assert (Hpe : 0 < 2 ^ e) by (apply Z.pow_pos_nonneg; lia).
    assert (Hle : 2 ^ e <= 2 ^ 971) by (apply Z.pow_le_mono_r; lia).
    pose proof (round_half_even_bounds (Z.abs n) (1 * 2 ^ e) ltac:(lia) ltac:(lia)) as [B1 _].
    set (m := round_half_even (Z.abs n) (1 * 2 ^ e)) in *.
    assert (Hm : 0 <= m).
    { unfold m, round_half_even.
      assert (0 <= Z.abs n / (1 * 2 ^ e)) by (apply Z.div_pos; lia).
      destruct (_ ?= _); [destruct (Z.even _)| |]; lia. }
    rewrite !Z.abs_mul, Hs, (Z.abs_eq m Hm), (Z.abs_eq (2 ^ e)) by lia.
    assert (H971 : 2 * 2 ^ 970 = 2 ^ 971)
      by (change 971 with (Z.succ 970); rewrite Z.pow_succ_r; lia).
    assert (H1025 : 2 * 2 ^ 1024 = 2 ^ 1025)
      by (change 1025 with (Z.succ 1024); rewrite Z.pow_succ_r; lia).
    nia.
  - apply Z.leb_gt in E0. cbn [Qnum Qden]. rewrite pow2_pos by lia.
    rewrite round_half_even_exact. apply Z.ltb_lt.
    assert (Hpe : 0 < 2 ^ (- e)) by (apply Z.pow_pos_nonneg; lia).
    rewrite !Z.abs_mul, Hs, (Z.abs_eq (2 ^ (- e))) by lia.
    rewrite (Z.abs_eq (Z.abs n)) by lia. nia.
Qed.

Lemma field_is_inv (kind : PyVal -> bool) (p : PyVal) (f : string) :
  field_is kind p f = true -> exists v, py_getattr p f = Ok v /\ kind v = true.
Proof. unfold field_is. destruct (py_getattr p f); [eauto | discriminate]. Qed.

(** Splitting a [shape] hypothesis into its fields. *)
Ltac kinds :=
  repeat match goal with
  | H : _ && _ = true |- _ => apply andb_true_iff in H as [H ?]
  | H : field_is _ _ _ = true |- _ =>
      let v := fresh "v" in
      let E := fresh "E" in
      let K := fresh "K" in
      apply field_is_inv in H as (v & E & K)
  end.

Lemma zero_or_idem (v : PyVal) : zero_or (VFloat (zero_or v)) = zero_or v.
Proof.
  unfold zero_or. destruct v; try reflexivity.
  destruct (Qnum q =? 0) eqn:E; simpl; [reflexivity | now rewrite E].
Qed.

Lemma none_or_idem (v : PyVal) : none_or (Activity.opt_float (none_or v)) = none_or v.
Proof.
  unfold none_or. destruct v; try reflexivity.
  destruct (Qnum q =? 0) eqn:E; simpl; [reflexivity | now rewrite E].
Qed.

Lemma is_opt_float_opt (o : option Q) : is_opt_float (Activity.opt_float o) = true.
Proof. destruct o; reflexivity. Qed.

(** ** The activity mapper *)

Section MapperFacts.

Variable float_of_str : string -> option Q.
Variable repr_other : PyVal -> string.

Local Abbreviation normalize := (Activity.from_strava_activity float_of_str repr_other).
Local Abbreviation py_float := (Activity.py_float float_of_str).

Lemma conditional_float_rule (x : PyVal) (o : option Q) :
  (if truthy x then py_float x ≫= (fun q : Q => Ok (Some q)) else Ok None) = Ok o ->
  metric_rule float_of_str x o.
Proof.
  unfold metric_rule. intros H. destruct (truthy x) eqn:T.
  - step H. injection H as <-. split; [split; discriminate|].
    split; [eauto|]. intros Z. apply numeric_zero_falsy in Z. congruence.
  - injection H as <-. split; [tauto|]. split; [discriminate | reflexivity].
Qed.

Lemma float_or_none_rule (p : PyVal) (f : string) (o : option Q) :
  Activity.float_or_none float_of_str p f = Ok o ->
  exists x, py_getattr p f = Ok x /\ metric_rule float_of_str x o.
Proof.
  unfold Activity.float_or_none. intros H. step H. exists x. split; [exact E|].
  rewrite E in H. apply conditional_float_rule. exact H.
Qed.

Lemma calories_or_none_rule (p : PyVal) (o : option Q) :
  Activity.calories_or_none float_of_str p = Ok o ->
  metric_rule float_of_str (py_getattr_default p "calories" VNone) o.
Proof.
  unfold Activity.calories_or_none, py_getattr_default. intros H.
  apply conditional_float_rule.
  destruct (py_getattr p "calories") as [x|e]; exact H.
Qed.

Lemma opt_float_norm (v : PyVal) :
  is_opt_float v = true ->
  (if truthy v then py_float v ≫= (fun q : Q => Ok (Some q)) else Ok None)
  = Ok (none_or v).
Proof.
  unfold none_or. destruct v; try discriminate; intros _; simpl; [reflexivity|].
  destruct (Qnum q =? 0); reflexivity.
Qed.

(** On a payload of a [shape], normalization succeeds, whatever the kind
    of the timestamps. *)
Lemma from_shape (date_kind : PyVal -> bool) (p : PyVal) :
  shape date_kind p = true -> normalize p = Ok (shaped_record p).
Proof.
  intros H. unfold shape in H. kinds.
  unfold Activity.from_strava_activity, shaped_record, Activity.float_or_zero,
    Activity.float_or_none, Activity.calories_or_none, py_getattr_default.
  rewrite E17, E16, E15, E14, E13, E12, E11, E10, E9, E8, E7, E6, E5, E4, E3, E2, E1, E0, E.
  destruct v15; try discriminate K15.
  destruct v14; try discriminate K14.
  destruct v13; try discriminate K13.
  destruct v12; try discriminate K12.
  destruct v11; try discriminate K11.
  simpl.
  rewrite (opt_float_norm v8), (opt_float_norm v7), (opt_float_norm v6),
    (opt_float_norm v5), (opt_float_norm v3) by assumption.
  unfold zero_or. destruct (Qnum q =? 0), (Qnum q0 =? 0); reflexivity.
Qed.

Lemma get_seconds_rule (x : PyVal) (s : Z) :
  Activity.get_seconds x = Ok s -> duration_rule x s.
Proof.
  intros H. unfold duration_rule. split; [|split; [|split]].
  - intros ->. injection H as <-. reflexivity.
  - intros n ->. injection H as <-. reflexivity.
  - intros q ->. injection H as <-. reflexivity.
  - intros td -> Hb. injection H as <-. unfold total_seconds.
    fold (td_total_microseconds td). rewrite (total_seconds_floor _ Hb).
    apply quot_truncates.
Qed.


(** C3, as amended: for every payload on which normalization succeeds,
    each optional metric of the record is None exactly when the payload's
    value is falsy (None, a numeric zero, False, an empty string; for
    calories also an absent attribute) and is float(value) otherwise; an
    explicitly supplied zero is therefore mapped to None, not to zero. *)
Theorem optional_metric_none_iff_falsy (p : PyVal) (r : Activity.t) :
  normalize p = Ok r ->
  (forall f get, In (f, get) optional_metrics ->
     exists x, py_getattr p f = Ok x /\ metric_rule float_of_str x (get r)) /\
  metric_rule float_of_str (py_getattr_default p "calories" VNone) (Activity.calories r).
Proof.
  unfold Activity.from_strava_activity. intros H.
  do 15 step H. injection H as <-. split.
  - intros f get [[= <- <-]|[[= <- <-]|[[= <- <-]|[[= <- <-]|[]]]]]; simpl;
      apply float_or_none_rule; assumption.
  - simpl. apply calories_or_none_rule. assumption.
Qed.

(** C2, as amended: normalization does not look at the kind of id and
    name.  When the payload has no id or no name attribute it fails, with
    AttributeError; otherwise the two values are copied as they are, and
    putting any other values in their place changes nothing else in the
    outcome. *)
Theorem identity_copied_unchecked (p : PyVal) :
  ((exists e, py_getattr p "id" = Raise e) \/ (exists e, py_getattr p "name" = Raise e) ->
   normalize p = Raise AttributeError) /\
  (forall r, normalize p = Ok r ->
     py_getattr p "id" = Ok (Activity.id r) /\ py_getattr p "name" = Ok (Activity.name r)) /\
  (forall attrs r i n, p = VObj attrs -> normalize p = Ok r ->
     normalize (VObj (dict_set "id" i (dict_set "name" n attrs)))
     = Ok (with_identity i n r)).
Proof.
  split; [|split].
  - intros H. unfold Activity.from_strava_activity.
    destruct (py_getattr p "type") as [ty|e] eqn:Et.
    2:{ apply getattr_error in Et as ->. reflexivity. }
    simpl.
    assert (Hty : exists ty', (if py_hasattr ty "root" then py_getattr ty "root"
                               else Ok (VStr (Activity.py_str repr_other ty))) = Ok ty').
    { destruct (py_hasattr ty "root") eqn:Hh; [|eauto].
      unfold py_hasattr in Hh. unfold py_getattr. destruct ty; try discriminate Hh.
      destruct (assoc "root" attrs); [eauto | discriminate]. }
    destruct Hty as [ty' ->]. simpl.
    destruct (py_getattr p "id") as [i|e] eqn:Ei.
    2:{ apply getattr_error in Ei as ->. reflexivity. }
    simpl. destruct H as [[e H]|[e H]]; [discriminate|].
    rewrite H. apply getattr_error in H as ->. reflexivity.
  - unfold Activity.from_strava_activity. intros r H.
    do 15 step H. injection H as <-. simpl. split; assumption.
  - intros attrs r i n -> H. revert H.
    unfold Activity.from_strava_activity, Activity.float_or_zero, Activity.float_or_none,
      Activity.calories_or_none, py_getattr_default.
    rewrite !(getattr_dict_set _ "type"), !(getattr_dict_set _ "distance"),
      !(getattr_dict_set _ "moving_time"), !(getattr_dict_set _ "elapsed_time"),
      !(getattr_dict_set _ "total_elevation_gain"), !(getattr_dict_set _ "start_date"),
      !(getattr_dict_set _ "start_date_local"), !(getattr_dict_set _ "average_speed"),
      !(getattr_dict_set _ "max_speed"), !(getattr_dict_set _ "average_heartrate"),
      !(getattr_dict_set _ "max_heartrate"), !(getattr_dict_set _ "description"),
      !(getattr_dict_set _ "calories"), !(getattr_dict_set _ "gear_id"),
      !(getattr_dict_set _ "trainer"), !(getattr_dict_set _ "commute"),
      !(getattr_dict_set _ "private") by reflexivity.
    assert (Hi : py_getattr (VObj (dict_set "id" i (dict_set "name" n attrs))) "id" = Ok i).
    { unfold py_getattr. rewrite assoc_dict_set. reflexivity. }
    assert (Hn : py_getattr (VObj (dict_set "id" i (dict_set "name" n attrs))) "name" = Ok n).
    { unfold py_getattr. rewrite !assoc_dict_set. reflexivity. }
    rewrite Hi, Hn. intros H.
    do 15 step H. injection H as <-.
    rw E. rw E0. rw E3. rw E4. rw E5. rw E6. rw E7. rw E8. rw E9. rw E10. rw E11.
    rw E12. rw E13. reflexivity.
Qed.

(** C7, as amended: for every payload in transport shape whose two
    timestamps are still datetimes, to_transport(normalize(payload))
    succeeds and yields a payload in transport shape; normalizing that
    output again yields the same record except for start_date and
    start_date_local, which now hold the ISO-8601 strings; to_transport
    fails on that record, with AttributeError. *)
Theorem record_round_trip (p : PyVal) :
  record_shape p = true ->
  exists r d,
    normalize p = Ok r /\
    Activity.to_dict r = Ok d /\
    transport_shape (VObj d) = true /\
    normalize (VObj d) = Ok (iso_dates r) /\
    Activity.to_dict (iso_dates r) = Raise AttributeError.
Proof.
  intros H. pose proof (from_shape _ _ H) as Hr.
  unfold record_shape, shape in H. kinds.
  destruct v10 as [| | | | | |dt1| | |]; try discriminate K10.
  destruct v9 as [| | | | | |dt2| | |]; try discriminate K9.
  destruct v13 as [| |n1| | | | | | |]; try discriminate K13.
  destruct v12 as [| |n2| | | | | | |]; try discriminate K12.
  assert (Hsr : shaped_record p =
    Activity.mk v17 v16 v15 (zero_or v14) n1 n2 (zero_or v11) (VDatetime dt1)
      (VDatetime dt2) (none_or v8) (none_or v7) (none_or v6) (none_or v5) v4
      (none_or v3) v2 v1 v0 v).
  { unfold shaped_record, py_getattr_default.
    rewrite E17, E16, E15, E14, E13, E12, E11, E10, E9, E8, E7, E6, E5, E4, E3, E2, E1, E0, E.
    reflexivity. }
  rewrite Hsr in *. clear Hsr.
  set (d :=
     [("id", v17); ("name", v16); ("type", v15); ("distance", VFloat (zero_or v14));
      ("moving_time", VInt n1); ("elapsed_time", VInt n2);
      ("total_elevation_gain", VFloat (zero_or v11));
      ("start_date", VStr (isoformat dt1)); ("start_date_local", VStr (isoformat dt2));
      ("average_speed", Activity.opt_float (none_or v8));
      ("max_speed", Activity.opt_float (none_or v7));
      ("average_heartrate", Activity.opt_float (none_or v6));
      ("max_heartrate", Activity.opt_float (none_or v5)); ("description", v4);
      ("calories", Activity.opt_float (none_or v3)); ("gear_id", v2); ("trainer", v1);
      ("commute", v0); ("private", v)]).
  assert (Hs : transport_shape (VObj d) = true).
  { unfold transport_shape, shape, field_is, d. cbn.
    rewrite K17, K16, K15, K4, K2, K1, K0, K, !is_opt_float_opt. reflexivity. }
  eexists _, d. split; [exact Hr|]. split; [reflexivity|].
  split; [exact Hs|]. split; [|reflexivity].
  rewrite (from_shape _ _ Hs). f_equal.
  unfold shaped_record, iso_dates, d. cbn.
  rewrite !zero_or_idem, !none_or_idem. reflexivity.
Qed.

End MapperFacts.

(** ** JSON text *)

(** The encoder on containers, with the helpers named. *)
Lemma iterencode_list (l : list PyVal) :
  iterencode (VList l) = Chunk TLBracket :: encode_elements l ++ [Chunk TRBracket].
Proof. reflexivity. Qed.

Lemma iterencode_dict (kvs : list (string * PyVal)) :
  iterencode (VDict kvs) = Chunk TLBrace :: encode_members kvs ++ [Chunk TRBrace].
Proof. reflexivity. Qed.

(** Induction on values that reaches the values inside lists, dicts and
    objects. *)
Lemma PyVal_nested_ind (P : PyVal -> Prop) :
  P VNone -> (forall b, P (VBool b)) -> (forall n, P (VInt n)) -> (forall q, P (VFloat q)) ->
  (forall s, P (VStr s)) -> (forall td, P (VTimedelta td)) -> (forall dt, P (VDatetime dt)) ->
  (forall l, Forall P l -> P (VList l)) ->
  (forall kvs, Forall (fun kv => P (snd kv)) kvs -> P (VDict kvs)) ->
  (forall attrs, Forall (fun kv => P (snd kv)) attrs -> P (VObj attrs)) ->
  forall v, P v.
Proof.
  intros HN HB HI HF HS HT HD HL HK HO.
  fix IH 1. intros [ | b | n | q | s | td | dt | l | kvs | attrs ].
  - exact HN.
  - apply HB.
  - apply HI.
  - apply HF.
  - apply HS.
  - apply HT.
  - apply HD.
  - apply HL. induction l as [|x l IHl]; constructor; [apply IH | exact IHl].
  - apply HK. induction kvs as [|[k x] kvs IHl]; constructor; [apply IH | exact IHl].
  - apply HO. induction attrs as [|[k x] kvs IHl]; constructor; [apply IH | exact IHl].
Qed.

Lemma emitted_app (a b : list emit) :
  complete a = true -> emitted (a ++ b) = emitted a ++ emitted b.
Proof.
  induction a as [|[t|e] a IH]; simpl; intros H; [reflexivity | | discriminate].
  now rewrite IH.
Qed.

Lemma complete_app (a b : list emit) : complete (a ++ b) = complete a && complete b.
Proof. induction a as [|[t|e] a IH]; simpl; auto. Qed.

Lemma starts_value_dumps (v : PyVal) : json_value v = true -> starts_value (json_dumps v) = true.
Proof. destruct v as [ |[]| | | | | | | | ]; simpl; auto. Qed.

Lemma nodup_keys_NoDup (ks : list string) : nodup_keys ks = true <-> NoDup ks.
Proof.
  induction ks as [|k ks IH]; simpl.
  - split; [constructor | reflexivity].
  - rewrite andb_true_iff, negb_true_iff, IH, NoDup_cons. 
    assert (existsb (String.eqb k) ks = false <-> k ∉ ks) as ->; [|reflexivity].
    rewrite <- not_true_iff_false, existsb_exists. split.
    + intros H Hin. apply H. exists k. rewrite String.eqb_refl. split; [|reflexivity].
      now apply list_elem_of_In.
    + intros H (x & Hin & Heq). apply String.eqb_eq in Heq as <-. 
      apply H. now apply list_elem_of_In.
Qed.

Lemma dict_set_fresh {A : Type} (k : string) (v : A) (acc : list (string * A)) :
  k ∉ map fst acc -> dict_set k v acc = acc ++ [(k, v)].
Proof.
  induction acc as [|[k' v'] acc IH]; simpl; intros H; [reflexivity|].
  apply not_elem_of_cons in H as [Hne H].
  destruct (String.eqb k k') eqn:E; [apply String.eqb_eq in E; contradiction|].
  now rewrite IH.
Qed.

(** Building a dict from pairs with distinct keys keeps the pairs. *)
Lemma fold_dict_set {A : Type} (kvs acc : list (string * A)) :
  NoDup (map fst (acc ++ kvs)) ->
  fold_left (fun d kv => dict_set (fst kv) (snd kv) d) kvs acc = acc ++ kvs.
Proof.
  revert acc. induction kvs as [|[k v] kvs IH]; intros acc H; simpl.
  - now rewrite app_nil_r.
  - rewrite dict_set_fresh.
    + rewrite IH; rewrite <- app_assoc; [reflexivity | exact H].
    + rewrite map_app in H. apply NoDup_app in H as (_ & H & _).
      intros Hin. apply (H k Hin). simpl. left.
Qed.

(** The elements of a non-empty list, up to the closing bracket. *)
Lemma parse_elements_dumps (x : PyVal) (l : list PyVal) :
  Forall round_trips (x :: l) -> forallb json_value (x :: l) = true ->
  complete (encode_elements (x :: l)) = true /\
  forall fuel rest, (length (emitted (encode_elements (x :: l))) + 1 <= fuel)%nat ->
    parse_elements fuel (emitted (encode_elements (x :: l)) ++ TRBracket :: rest)
    = Some (x :: l, rest).
Proof.
  revert x. induction l as [|y l IH]; intros x HF Hj.
  - apply Forall_cons in HF as [Hx _]. simpl in Hj. rewrite andb_true_r in Hj.
    destruct (Hx Hj) as [Hc Hp]. cbn [encode_elements]. rewrite app_nil_r.
    split; [exact Hc|]. intros fuel rest Hf.
    destruct fuel as [|fuel]; [lia|]. cbn [parse_elements].
    fold (json_dumps x) in *. rewrite Hp by lia. reflexivity.
  - apply Forall_cons in HF as [Hx HF]. cbn [forallb] in Hj.
    apply andb_true_iff in Hj as [Hjx Hj].
    destruct (Hx Hjx) as [Hc Hp]. destruct (IH y HF Hj) as [Hc' Hp'].
    change (encode_elements (x :: y :: l))
      with (iterencode x ++ Chunk TComma :: encode_elements (y :: l)).
    split.
    + rewrite complete_app, Hc. exact Hc'.
    + intros fuel rest Hf. rewrite emitted_app in * by exact Hc.
      cbn [emitted] in *. fold (json_dumps x) in *.
      rewrite length_app in Hf. cbn [length] in Hf.
      destruct fuel as [|fuel]; [lia|]. cbn [parse_elements].
      rewrite <- app_assoc. rewrite Hp by lia. cbn [app].
      rewrite Hp' by lia. reflexivity.
Qed.

(** The members of a non-empty dict, up to the closing brace. *)
Lemma parse_members_dumps (k : string) (x : PyVal) (kvs : list (string * PyVal)) :
  Forall (fun kv => round_trips (snd kv)) ((k, x) :: kvs) ->
  forallb (fun kv => json_value (snd kv)) ((k, x) :: kvs) = true ->
  complete (encode_members ((k, x) :: kvs)) = true /\
  forall fuel rest, (length (emitted (encode_members ((k, x) :: kvs))) + 1 <= fuel)%nat ->
    parse_members fuel (emitted (encode_members ((k, x) :: kvs)) ++ TRBrace :: rest)
    = Some ((k, x) :: kvs, rest).
Proof.
  revert k x. induction kvs as [|[k' y] kvs IH]; intros k x HF Hj.
  - apply Forall_cons in HF as [Hx _]. simpl in Hj, Hx. rewrite andb_true_r in Hj.
    destruct (Hx Hj) as [Hc Hp]. cbn [encode_members]. rewrite app_nil_r.
    split; [exact Hc|]. intros fuel rest Hf. cbn [emitted length] in *.
    fold (json_dumps x) in *.
    destruct fuel as [|fuel]; [lia|]. cbn [parse_members app].
    rewrite Hp by lia. reflexivity.
  - apply Forall_cons in HF as [Hx HF]. cbn [forallb snd] in Hj, Hx.
    apply andb_true_iff in Hj as [Hjx Hj].
    destruct (Hx Hjx) as [Hc Hp]. destruct (IH k' y HF Hj) as [Hc' Hp'].
    change (encode_members ((k, x) :: (k', y) :: kvs))
      with (Chunk (TStr k) :: Chunk TColon :: iterencode x ++
            Chunk TComma :: encode_members ((k', y) :: kvs)).
    split.
    + cbn [complete]. rewrite complete_app, Hc. exact Hc'.
    + intros fuel rest Hf. cbn [emitted] in *. rewrite emitted_app in * by exact Hc.
      cbn [emitted] in *. fold (json_dumps x) in *.
      cbn [length] in Hf. rewrite length_app in Hf. cbn [length] in Hf.
      destruct fuel as [|fuel]; [lia|]. cbn [parse_members app].
      rewrite <- app_assoc. rewrite Hp by lia. cbn [app].
      rewrite Hp' by lia. reflexivity.
Qed.

Lemma parse_value_list (fuel : nat) (ts rest : list token) :
  starts_value ts = true ->
  parse_value (S fuel) (TLBracket :: ts ++ rest) =
  match parse_elements fuel (ts ++ rest) with
  | Some (vs, r') => Some (VList vs, r')
  | None => None
  end.
Proof.
  destruct ts as [|t ts]; [discriminate|]. destruct t; try discriminate; reflexivity.
Qed.

Lemma json_round_trips (v : PyVal) : round_trips v.
Proof.
  induction v using PyVal_nested_ind; intros Hj; try discriminate Hj;
    try (split; [reflexivity|]; intros [|fuel] rest Hf; [simpl in Hf; lia | reflexivity]).
  - destruct b; (split; [reflexivity|]; intros [|fuel] rest Hf; [simpl in Hf; lia | reflexivity]).
  - destruct l as [|x l].
    + split; [reflexivity|]. intros [|fuel] rest Hf; [simpl in Hf; lia | reflexivity].
    + cbn [json_value] in Hj. destruct (parse_elements_dumps x l H Hj) as [Hc Hp].
      unfold json_dumps. rewrite iterencode_list. split.
      * cbn [complete]. rewrite complete_app, Hc. reflexivity.
      * intros fuel rest Hf. cbn [emitted] in *. rewrite emitted_app in * by exact Hc.
        cbn [emitted length] in *. rewrite length_app in Hf. cbn [length] in Hf.
        destruct fuel as [|fuel]; [lia|].
        assert (Hs : starts_value (emitted (encode_elements (x :: l))) = true).
        { apply Forall_cons in H as [Hx _]. cbn [forallb] in Hj.
          apply andb_true_iff in Hj as [Hjx _]. destruct (Hx Hjx) as [Hcx _].
          cbn [encode_elements]. rewrite emitted_app by exact Hcx.
          pose proof (starts_value_dumps x Hjx) as Hsx. unfold json_dumps in Hsx.
          destruct (emitted (iterencode x)); [discriminate | exact Hsx]. }
        cbn [app]. rewrite <- app_assoc. cbn [app].
        rewrite (parse_value_list _ _ _ Hs), Hp by lia. reflexivity.
  - destruct kvs as [|[k x] kvs].
    + split; [reflexivity|]. intros [|fuel] rest Hf; [simpl in Hf; lia | reflexivity].
    + cbn [json_value] in Hj. apply andb_true_iff in Hj as [Hj Hn].
      destruct (parse_members_dumps k x kvs H Hj) as [Hc Hp].
      unfold json_dumps. rewrite iterencode_dict. split.
      * cbn [complete]. rewrite complete_app, Hc. reflexivity.
      * intros fuel rest Hf. cbn [emitted] in *. rewrite emitted_app in * by exact Hc.
        cbn [emitted length] in *. rewrite length_app in Hf. cbn [length] in Hf.
        destruct fuel as [|fuel]; [lia|].
        cbn [app]. rewrite <- app_assoc. 
        change (encode_members ((k, x) :: kvs))
          with (Chunk (TStr k) :: Chunk TColon :: iterencode x ++
                  match kvs with [] => [] | _ => Chunk TComma :: encode_members kvs end) in *.
        cbn [emitted app parse_value] in *.
        rewrite Hp by lia.
        rewrite (fold_dict_set ((k, x) :: kvs) []); [reflexivity|].
        apply nodup_keys_NoDup. exact Hn.
Qed.

(** [json.loads(json.dumps(v)) == v] for every JSON value. *)
Theorem loads_dumps (v : PyVal) : json_value v = true -> json_loads (json_dumps v) = Some v.
Proof.
  intros Hj. destruct (json_round_trips v Hj) as [_ Hp]. unfold json_loads.
  rewrite <- (app_nil_r (json_dumps v)) at 2. rewrite Hp by lia. reflexivity.
Qed.

(** ** Writing a file *)

Lemma write_chunks_buffer (es : list emit) (buffer : list token) :
  snd (write_chunks es buffer) = buffer ++ emitted es.
Proof.
  revert buffer. induction es as [|[t|e] es IH]; intros buffer; cbn [write_chunks emitted].
  - now rewrite app_nil_r.
  - rewrite IH. unfold fp_write. now rewrite <- app_assoc.
  - now rewrite app_nil_r.
Qed.

Lemma write_chunks_complete (es : list emit) (buffer : list token) :
  complete es = true -> fst (write_chunks es buffer) = Ok tt.
Proof.
  revert buffer. induction es as [|[t|e] es IH]; intros buffer H; cbn [write_chunks].
  - reflexivity.
  - now apply IH.
  - discriminate H.
Qed.

Lemma write_chunks_incomplete (es : list emit) (buffer : list token) :
  complete es = false -> exists e, fst (write_chunks es buffer) = Raise e.
Proof.
  revert buffer. induction es as [|[t|e] es IH]; intros buffer H; cbn [write_chunks].
  - discriminate H.
  - now apply IH.
  - eauto.
Qed.

Lemma complete_emitted (es : list emit) : complete es = true -> map Chunk (emitted es) = es.
Proof.
  induction es as [|[t|e] es IH]; intros H; cbn [emitted map].
  - reflexivity.
  - f_equal. now apply IH.
  - discriminate H.
Qed.

Lemma json_dump_buffer (v : PyVal) : json_dump v [] = (fst (json_dump v []), json_dumps v).
Proof.
  unfold json_dump, json_dumps.
  rewrite (surjective_pairing (write_chunks (iterencode v) [])) at 1.
  now rewrite write_chunks_buffer.
Qed.

Lemma device_takes_whole (budget : option (nat * list token)) (text : list token) :
  device_cuts budget text = false -> device_takes budget text = text.
Proof.
  unfold device_cuts, device_takes. destruct budget as [[k part]|]; [|reflexivity].
  now intros ->.
Qed.

(** A device that cuts leaves less than the text, whatever part of the
    next chunk it takes. *)
Lemma device_takes_cut (k : nat) (part text : list token) :
  device_cuts (Some (k, part)) text = true ->
  device_takes (Some (k, part)) text = firstn k text ++ part /\ (k < length text)%nat.
Proof.
  unfold device_cuts, device_takes. intros H. rewrite H. split; [reflexivity|].
  now apply Nat.ltb_lt.
Qed.

(** ** The token manager *)

Section ClientFacts.

Variable endpoint : Z -> PyVal -> PyVal -> Result PyVal.

Local Abbreviation refresh := (StravaClient._refresh_token endpoint).
Local Abbreviation load := (StravaClient._load_and_set_token endpoint).
Local Abbreviation token_file := StravaClient.token_file.

Lemma int_of_str_nonempty (s : string) (n : Z) : int_of_str s = Ok n -> s <> "".
Proof. intros H ->. discriminate H. Qed.

Lemma truthy_str (s : string) : s <> "" -> truthy (VStr s) = true.
Proof.
  intros H. simpl. apply negb_true_iff. now apply String.eqb_neq.
Qed.

Lemma truthy_opt_str (o : option string) :
  truthy (opt_str o) = true <-> exists s, o = Some s /\ s <> "".
Proof.
  destruct o as [s|]; simpl.
  - rewrite negb_true_iff, String.eqb_neq. split; [eauto | intros (s' & [= <-] & H); exact H].
  - split; [discriminate | intros (s & H & _); discriminate H].
Qed.

Lemma refresh_unconfigured (self : StravaClient.t) (r : PyVal) (w : World) :
  truthy (opt_str (environ w !! "STRAVA_CLIENT_ID")) = false \/
  truthy (opt_str (environ w !! "STRAVA_CLIENT_SECRET")) = false ->
  refresh self r w = (Raise ValueError, w).
Proof.
  intros H. unfold StravaClient._refresh_token, mbind, M_bind, environ_get, raise.
  destruct H as [-> | ->]; [|rewrite orb_true_r]; reflexivity.
Qed.

Lemma refresh_bad_client_id (self : StravaClient.t) (r : PyVal) (w : World)
  (cid_text secret : string) (e : exn) :
  environ w !! "STRAVA_CLIENT_ID" = Some cid_text -> cid_text <> "" ->
  environ w !! "STRAVA_CLIENT_SECRET" = Some secret -> secret <> "" ->
  int_of_str cid_text = Raise e ->
  refresh self r w = (Raise e, w).
Proof.
  intros Hid Hne Hsec Hns Hint.
  unfold StravaClient._refresh_token, mbind, M_bind, environ_get, raise, lift.
  rewrite Hid, Hsec. cbn [opt_str]. rewrite (truthy_str _ Hne), (truthy_str _ Hns).
  cbn [negb orb py_int]. rewrite Hint. reflexivity.
Qed.

Lemma refresh_endpoint_raises (self : StravaClient.t) (r : PyVal) (w : World)
  (cid : Z) (secret : string) (e : exn) :
  configured w cid secret ->
  endpoint cid (VStr secret) r = Raise e ->
  refresh self r w = (Raise e, with_call cid (VStr secret) r w).
Proof.
  intros (cid_text & Hid & Hint & Hsec & Hns) Hep.
  unfold StravaClient._refresh_token, mbind, M_bind, environ_get, raise, lift.
  rewrite Hid, Hsec. cbn [opt_str].
  rewrite (truthy_str _ (int_of_str_nonempty _ _ Hint)), (truthy_str _ Hns).
  cbn [negb orb py_int]. rewrite Hint.
  unfold StravaClient.call_refresh_access_token. rewrite Hep. reflexivity.
Qed.

(** A refresh once the endpoint has answered: the call is recorded, the
    token file is what the device leaves of the text of the response,
    and the outcome is the failure of the flush, else that of the
    encoder, else that of the lookup of the access token. *)
Lemma refresh_answered (self : StravaClient.t) (r : PyVal) (w : World)
  (cid : Z) (secret : string) (resp : PyVal) :
  configured w cid secret ->
  endpoint cid (VStr secret) r = Ok resp ->
  let w1 := snd (fp_close (token_file self) (json_dumps resp)
                          (with_call cid (VStr secret) r w)) in
  refresh self r w =
  match (if device_cuts (write_budget w) (json_dumps resp) then Raise OSError
         else fst (json_dump resp [])) with
  | Raise e => (Raise e, w1)
  | Ok _ =>
      match py_subscript resp "access_token" with
      | Ok tok => (Ok tt, with_access_token tok w1)
      | Raise e => (Raise e, w1)
      end
  end.
Proof.
  intros (cid_text & Hid & Hint & Hsec & Hns) Hep. cbv zeta.
  unfold StravaClient._refresh_token, mbind, M_bind, environ_get, raise, lift.
  rewrite Hid, Hsec. cbn [opt_str].
  rewrite (truthy_str _ (int_of_str_nonempty _ _ Hint)), (truthy_str _ Hns).
  cbn [negb orb py_int]. rewrite Hint.
  unfold StravaClient.call_refresh_access_token. rewrite Hep.
  unfold with_open_w. rewrite (json_dump_buffer resp).
  unfold open_w, fp_close, with_fs, with_call, set_access_token, with_access_token.
  cbn [fst snd fs environ clock write_budget refresh_calls client_access_token terminal].
  rewrite insert_insert_eq.
  destruct (device_cuts (write_budget w) (json_dumps resp)); [reflexivity|].
  destruct (fst (json_dump resp [])) as [[]|e]; [|reflexivity].
  destruct (py_subscript resp "access_token"); reflexivity.
Qed.


Lemma path_exists_present (path : string) (w : World) (ts : list token) :
  fs w !! path = Some ts -> path_exists path w = (Ok true, w).
Proof.
  intros H. unfold path_exists. rewrite H, bool_decide_eq_true_2; [reflexivity | eauto].
Qed.

Lemma path_exists_absent (path : string) (w : World) :
  fs w !! path = None -> path_exists path w = (Ok false, w).
Proof.
  intros H. unfold path_exists. rewrite H, bool_decide_eq_false_2; [reflexivity|].
  intros [x Hx]. discriminate Hx.
Qed.

Lemma load_no_file (self : StravaClient.t) (w : World) :
  fs w !! token_file self = None ->
  load self w = (Raise (FileNotFoundError (token_file self)), w).
Proof.
  intros H. unfold StravaClient._load_and_set_token, mbind, M_bind.
  rewrite (path_exists_absent _ _ H). reflexivity.
Qed.

Lemma load_not_json (self : StravaClient.t) (w : World) (ts : list token) :
  fs w !! token_file self = Some ts -> json_loads ts = None ->
  load self w = (Raise JSONDecodeError, w).
Proof.
  intros H Hj. unfold StravaClient._load_and_set_token, mbind, M_bind.
  rewrite (path_exists_present _ _ _ H). cbn [negb]. unfold json_load.
  rewrite H, Hj. reflexivity.
Qed.

Lemma load_json (self : StravaClient.t) (w : World) (ts : list token) (data : PyVal) :
  fs w !! token_file self = Some ts -> json_loads ts = Some data ->
  load self w =
  (access_token ← lift (py_dict_get data "access_token");
   refresh_token ← lift (py_dict_get data "refresh_token");
   expires_at ← lift (py_dict_get data "expires_at");
   if negb (truthy access_token) || negb (truthy refresh_token)
   then raise ValueError
   else
     expired ← StravaClient.needs_refresh expires_at;
     if expired : bool
     then refresh self refresh_token
     else set_access_token access_token) w.
Proof.
  intros H Hj. unfold StravaClient._load_and_set_token, mbind at 1, M_bind at 1.
  rewrite (path_exists_present _ _ _ H). cbn [negb].
  unfold mbind at 1, M_bind at 1, json_load. rewrite H, Hj. reflexivity.
Qed.

Lemma load_not_object (self : StravaClient.t) (w : World) (ts : list token) (data : PyVal) :
  fs w !! token_file self = Some ts -> json_loads ts = Some data ->
  (forall kvs, data <> VDict kvs) ->
  load self w = (Raise AttributeError, w).
Proof.
  intros H Hj Hd. rewrite (load_json _ _ _ _ H Hj).
  destruct data; try reflexivity. now destruct (Hd kvs).
Qed.

Lemma load_missing_token (self : StravaClient.t) (w : World) (ts : list token)
  (kvs : list (string * PyVal)) (a r : PyVal) :
  fs w !! token_file self = Some ts -> json_loads ts = Some (VDict kvs) ->
  py_dict_get (VDict kvs) "access_token" = Ok a ->
  py_dict_get (VDict kvs) "refresh_token" = Ok r ->
  truthy a = false \/ truthy r = false ->
  load self w = (Raise ValueError, w).
Proof.
  intros H Hj Ha Hr Hf. rewrite (load_json _ _ _ _ H Hj).
  unfold mbind, M_bind, lift. rewrite Ha, Hr. cbn [py_dict_get].
  destruct Hf as [-> | ->]; [|rewrite orb_true_r]; reflexivity.
Qed.

Lemma load_tokens (self : StravaClient.t) (w : World) (ts : list token)
  (kvs : list (string * PyVal)) (a r e : PyVal) :
  fs w !! token_file self = Some ts -> json_loads ts = Some (VDict kvs) ->
  py_dict_get (VDict kvs) "access_token" = Ok a ->
  py_dict_get (VDict kvs) "refresh_token" = Ok r ->
  py_dict_get (VDict kvs) "expires_at" = Ok e ->
  truthy a = true -> truthy r = true ->
  load self w =
  (expired ← StravaClient.needs_refresh e;
   if expired : bool then refresh self r else set_access_token a) w.
Proof.
  intros H Hj Ha Hr He Ta Tr. rewrite (load_json _ _ _ _ H Hj).
  unfold mbind at 1 2 3, M_bind at 1 2 3, lift. rewrite Ha, Hr, He, Ta, Tr. reflexivity.
Qed.

Lemma needs_refresh_falsy (e : PyVal) (w : World) :
  truthy e = false -> StravaClient.needs_refresh e w = (Ok false, w).
Proof. intros H. unfold StravaClient.needs_refresh. rewrite H. reflexivity. Qed.

Lemma needs_refresh_number (e : PyVal) (t : Q) (w : World) :
  truthy e = true -> as_number e = Some t ->
  exists b, StravaClient.needs_refresh e w = (Ok b, w) /\
            (b = true <-> (t - 300 < clock w)%Q).
Proof.
  intros H Hn. unfold StravaClient.needs_refresh. rewrite H.
  unfold mbind, M_bind, time_time, lift.
  assert (Hb : forall x y : Q, negb (Qle_bool x y) = true <-> (y < x)%Q).
  { intros x y. rewrite negb_true_iff, <- not_true_iff_false, Qle_bool_iff.
    split; [apply Qnot_le_lt | apply Qlt_not_le]. }
  destruct e as [ |b|n|q| | | | | | ]; try discriminate Hn; simpl in Hn; injection Hn as <-;
    eexists; (split; [reflexivity|]); cbn [py_float_gt]; rewrite Hb.
  - destruct b; [|discriminate H]. reflexivity.
  - replace (n - 300) with (n + - 300) by lia.
    rewrite inject_Z_plus. reflexivity.
  - reflexivity.
Qed.

(** C5: for every credential record whose expires_at is more than 300
    seconds after the current time, loading succeeds with the stored
    access token used as it is, makes no call to the refresh endpoint and
    leaves the files on disk as they were. *)
Theorem fresh_token_used_as_is (self : StravaClient.t) (w : World) (ts : list token)
  (kvs : list (string * PyVal)) (a r e : PyVal) (t : Q) :
  fs w !! token_file self = Some ts -> json_loads ts = Some (VDict kvs) ->
  py_dict_get (VDict kvs) "access_token" = Ok a ->
  py_dict_get (VDict kvs) "refresh_token" = Ok r ->
  py_dict_get (VDict kvs) "expires_at" = Ok e ->
  truthy a = true -> truthy r = true ->
  as_number e = Some t -> (clock w + 300 < t)%Q ->
  load self w = (Ok tt, with_access_token a w) /\
  fs (snd (load self w)) = fs w /\
  refresh_calls (snd (load self w)) = refresh_calls w /\
  client_access_token (snd (load self w)) = a.
Proof.
  intros H Hj Ha Hr He Ta Tr Hn Hlt.
  assert (Hl : load self w = (Ok tt, with_access_token a w)).
  { rewrite (load_tokens _ _ _ _ _ _ _ H Hj Ha Hr He Ta Tr). unfold mbind, M_bind.
    destruct (truthy e) eqn:Te.
    - destruct (needs_refresh_number e t w Te Hn) as (b & -> & Hb).
      destruct b; [|reflexivity].
      assert (Hc : (t - 300 < clock w)%Q) by now apply Hb.
      lra.
    - rewrite (needs_refresh_falsy e w Te). reflexivity. }
  rewrite Hl. repeat split; reflexivity.
Qed.

(** C8: for every credential record in which expires_at is absent, the
    record is treated as not expired: no call to the refresh endpoint is
    made, the files are left as they were, and the stored access token is
    used as it is. *)
Theorem absent_expiry_not_expired (self : StravaClient.t) (w : World) (ts : list token)
  (kvs : list (string * PyVal)) (a r : PyVal) :
  fs w !! token_file self = Some ts -> json_loads ts = Some (VDict kvs) ->
  py_dict_get (VDict kvs) "access_token" = Ok a ->
  py_dict_get (VDict kvs) "refresh_token" = Ok r ->
  assoc "expires_at" kvs = None ->
  truthy a = true -> truthy r = true ->
  load self w = (Ok tt, with_access_token a w) /\
  fs (snd (load self w)) = fs w /\
  refresh_calls (snd (load self w)) = refresh_calls w /\
  client_access_token (snd (load self w)) = a.
Proof.
  intros H Hj Ha Hr He Ta Tr.
  assert (Hl : load self w = (Ok tt, with_access_token a w)).
  { rewrite (load_tokens _ _ _ _ a r VNone H Hj Ha Hr); try assumption.
    - reflexivity.
    - simpl. now rewrite He. }
  rewrite Hl. repeat split; reflexivity.
Qed.

(** C10: for every credential record whose expires_at is present and
    falsy (0, 0.0, False), no refresh is attempted and the stored access
    token is used as it is, wherever the clock stands; the endpoint is
    only ever called when expires_at is truthy. *)
Theorem falsy_expiry_never_refreshes (self : StravaClient.t) (w : World) (ts : list token)
  (kvs : list (string * PyVal)) (a r e : PyVal) :
  fs w !! token_file self = Some ts -> json_loads ts = Some (VDict kvs) ->
  py_dict_get (VDict kvs) "access_token" = Ok a ->
  py_dict_get (VDict kvs) "refresh_token" = Ok r ->
  assoc "expires_at" kvs = Some e ->
  truthy a = true -> truthy r = true ->
  (truthy e = false ->
   load self w = (Ok tt, with_access_token a w) /\
   fs (snd (load self w)) = fs w /\
   refresh_calls (snd (load self w)) = refresh_calls w /\
   client_access_token (snd (load self w)) = a) /\
  (refresh_calls (snd (load self w)) <> refresh_calls w -> truthy e = true) /\
  truthy (VInt 0) = false /\ truthy (VFloat 0) = false /\ truthy (VBool false) = false.
Proof.
  intros H Hj Ha Hr He Ta Tr.
  assert (Hl : truthy e = false -> load self w = (Ok tt, with_access_token a w)).
  { intros Te. rewrite (load_tokens _ _ _ _ a r e H Hj Ha Hr); try assumption.
    - unfold mbind, M_bind. rewrite (needs_refresh_falsy e w Te). reflexivity.
    - simpl. now rewrite He. }
  split; [|split; [|repeat split; reflexivity]].
  - intros Te. rewrite (Hl Te). repeat split; reflexivity.
  - intros Hc. destruct (truthy e) eqn:Te; [reflexivity|].
    rewrite (Hl eq_refl) in Hc. now destruct Hc.
Qed.

Lemma refresh_completes (self : StravaClient.t) (w : World) (refresh_token : PyVal)
  (cid_text secret : string) (cid : Z) (resp new_token : PyVal) :
  environ w !! "STRAVA_CLIENT_ID" = Some cid_text ->
  int_of_str cid_text = Ok cid ->
  environ w !! "STRAVA_CLIENT_SECRET" = Some secret ->
  secret <> "" ->
  endpoint cid (VStr secret) refresh_token = Ok resp ->
  json_value resp = true ->
  py_subscript resp "access_token" = Ok new_token ->
  write_budget w = None ->
  refresh self refresh_token w =
  (Ok tt,
   mk_World (<[token_file self := json_dumps resp]> (fs w)) (environ w) (clock w) None
            (refresh_calls w ++ [(cid, VStr secret, refresh_token)]) new_token (terminal w)).
Proof.
  intros Hid Hint Hsec Hne Hep Hjv Hsub Hb.
  assert (Hc : configured w cid secret) by (exists cid_text; repeat split; assumption).
  rewrite (refresh_answered self refresh_token w cid secret resp Hc Hep), Hb.
  cbn [device_cuts]. unfold json_dump.
  rewrite (write_chunks_complete _ _ (proj1 (json_round_trips resp Hjv))), Hsub.
  unfold fp_close, with_call, with_access_token. cbn. rewrite Hb. reflexivity.
Qed.

(** C6, as amended: for every credential record whose expires_at is
    truthy (not zero) and for which now > expires_at - 300 holds
    strictly, when the client id and secret are configured, the endpoint
    answers with a JSON value that has an access_token, and no write
    fails: the endpoint is called once, with the record's refresh token,
    the client's access token is the one of the response, and the token
    file afterwards deserializes to the response. *)
Theorem refresh_when_expired (self : StravaClient.t) (w : World)
  (access_token refresh_token expires_at : PyVal) (cid : Z) (secret : string)
  (resp new_token : PyVal) (t : Q) :
  refresh_goes_through endpoint self w access_token refresh_token expires_at
                       cid secret resp new_token ->
  as_number expires_at = Some t ->
  truthy expires_at = true ->
  (t - 300 < clock w)%Q ->
  refreshed self w (load self w) refresh_token cid secret resp new_token.
Proof.
  intros (ts & kvs & cid_text & H & Hj & Ha & Hr & He & Ta & Tr & Hid & Hint & Hsec & Hne &
          Hep & Hjv & Hsub & Hb) Hn Te Hlt.
  rewrite (load_tokens _ _ _ _ _ _ _ H Hj Ha Hr He Ta Tr). unfold mbind, M_bind.
  destruct (needs_refresh_number expires_at t w Te Hn) as (b & -> & Hbt).
  destruct b; [|apply Hbt in Hlt; discriminate Hlt].
  rewrite (refresh_completes _ _ _ _ _ _ _ _ Hid Hint Hsec Hne Hep Hjv Hsub Hb).
  unfold refreshed. cbn [fst snd fs refresh_calls client_access_token].
  repeat split. rewrite lookup_insert_eq. simpl. now apply loads_dumps.
Qed.
End ClientFacts.

(** ** The statements on sample inputs *)



(** The sample worlds meet the preconditions of a refresh. *)
Lemma refresh_goes_through_sample (e : Z) :
  refresh_goes_through sample_endpoint sample_self (sample_world (old_triple e) sample_now None)
    (VStr "old-access") (VStr "old-refresh") (VInt e) 4711 "s3cret"
    (triple "new-access" "new-refresh" 2000007200) (VStr "new-access").
Proof.
  exists (json_dumps (old_triple e)), 
    [("access_token", VStr "old-access"); ("refresh_token", VStr "old-refresh");
     ("expires_at", VInt e)], "4711".
  repeat split; try reflexivity. discriminate.
Defined.

(** C6 as stated fails: a record whose expires_at is 0 lies in the past,
    and one expiring exactly 300 seconds from now is within the margin;
    neither is refreshed. *)
Lemma refresh_not_always_due :
  refresh_calls (snd (StravaClient._load_and_set_token sample_endpoint sample_self
                        world_zero_expiry)) = [] /\
  refresh_calls (snd (StravaClient._load_and_set_token sample_endpoint sample_self
                        world_boundary)) = [] /\
  ~ refresh_within_margin.
Proof.
  split; [vm_compute; reflexivity|]. split; [vm_compute; reflexivity|].
  intros H.
  assert (Hm : (0 <= clock world_zero_expiry + 300)%Q) by (vm_compute; discriminate).
  destruct (H _ _ _ _ _ _ _ _ _ _ 0%Q (refresh_goes_through_sample 0) eq_refl Hm)
    as (_ & Hc & _).
  vm_compute in Hc. discriminate Hc.
Qed.

(** C6, as amended, on a record expiring 200 seconds from now. *)
Lemma refresh_when_expired_witness :
  refreshed sample_self world_expiring
    (StravaClient._load_and_set_token sample_endpoint sample_self world_expiring)
    (VStr "old-refresh") 4711 "s3cret" (triple "new-access" "new-refresh" 2000007200)
    (VStr "new-access").
Proof.
  apply (refresh_when_expired sample_endpoint sample_self world_expiring
           (VStr "old-access") (VStr "old-refresh") (VInt 1700000200) 4711 "s3cret"
           (triple "new-access" "new-refresh" 2000007200) (VStr "new-access")
           (inject_Z 1700000200)).
  - exact (refresh_goes_through_sample 1700000200).
  - reflexivity.
  - reflexivity.
  - vm_compute. reflexivity.
Defined.

(** C5 on a record expiring an hour from now. *)
Lemma fresh_token_used_as_is_witness :
  StravaClient._load_and_set_token sample_endpoint sample_self world_fresh
  = (Ok tt, with_access_token (VStr "old-access") world_fresh) /\
  fs (snd (StravaClient._load_and_set_token sample_endpoint sample_self world_fresh))
  = fs world_fresh /\
  refresh_calls (snd (StravaClient._load_and_set_token sample_endpoint sample_self world_fresh))
  = refresh_calls world_fresh /\
  client_access_token
    (snd (StravaClient._load_and_set_token sample_endpoint sample_self world_fresh))
  = VStr "old-access".
Proof.
  apply (fresh_token_used_as_is sample_endpoint sample_self world_fresh
           (json_dumps (old_triple 1700003600))
           [("access_token", VStr "old-access"); ("refresh_token", VStr "old-refresh");
            ("expires_at", VInt 1700003600)]
           (VStr "old-access") (VStr "old-refresh") (VInt 1700003600)
           (inject_Z 1700003600)); try reflexivity.
Defined.

(** C8 on a token file without expires_at. *)
Lemma absent_expiry_not_expired_witness :
  StravaClient._load_and_set_token sample_endpoint sample_self world_no_expiry
  = (Ok tt, with_access_token (VStr "old-access") world_no_expiry) /\
  fs (snd (StravaClient._load_and_set_token sample_endpoint sample_self world_no_expiry))
  = fs world_no_expiry /\
  refresh_calls
    (snd (StravaClient._load_and_set_token sample_endpoint sample_self world_no_expiry))
  = refresh_calls world_no_expiry /\
  client_access_token
    (snd (StravaClient._load_and_set_token sample_endpoint sample_self world_no_expiry))
  = VStr "old-access".
Proof.
  apply (absent_expiry_not_expired sample_endpoint sample_self world_no_expiry
           (json_dumps (VDict [("access_token", VStr "old-access");
                               ("refresh_token", VStr "old-refresh")]))
           [("access_token", VStr "old-access"); ("refresh_token", VStr "old-refresh")]
           (VStr "old-access") (VStr "old-refresh")); reflexivity.
Defined.

(** C10 on a token file whose expires_at is 0, long in the past. *)
Lemma falsy_expiry_never_refreshes_witness :
  (clock world_zero_expiry > 0)%Q /\
  StravaClient._load_and_set_token sample_endpoint sample_self world_zero_expiry
  = (Ok tt, with_access_token (VStr "old-access") world_zero_expiry) /\
  refresh_calls
    (snd (StravaClient._load_and_set_token sample_endpoint sample_self world_zero_expiry))
  = refresh_calls world_zero_expiry.
Proof.
  split; [reflexivity|].
  destruct (falsy_expiry_never_refreshes sample_endpoint sample_self world_zero_expiry
              (json_dumps (old_triple 0))
              [("access_token", VStr "old-access"); ("refresh_token", VStr "old-refresh");
               ("expires_at", VInt 0)]
              (VStr "old-access") (VStr "old-refresh") (VInt 0)
              eq_refl eq_refl eq_refl eq_refl eq_refl eq_refl eq_refl) as [H _].
  destruct (H eq_refl) as (H1 & _ & H3 & _). split; [exact H1 | exact H3].
Defined.

(** C4, at the failing input: a token file that holds the JSON array []
    is well-formed JSON and has neither token field; loading it fails
    with AttributeError, which is neither the ValueError of an invalid
    token file nor FileNotFoundError, so that [get_client], which
    handles those two, lets it through. *)
Theorem token_file_not_an_object :
  fs world_not_object !! "strava-token.json" = Some [TLBracket; TRBracket] /\
  json_loads [TLBracket; TRBracket] = Some (VList []) /\
  StravaClient._load_and_set_token sample_endpoint sample_self world_not_object
  = (Raise AttributeError, world_not_object) /\
  is_ValueError AttributeError = false /\
  is_FileNotFoundError AttributeError = false /\
  fst (get_client sample_endpoint None world_not_object) = Raise AttributeError.
Proof. repeat split; vm_compute; reflexivity. Qed.

(** C2 as stated fails: a payload whose id is None and whose name is an
    integer is normalized without error. *)
Lemma identity_not_checked : ~ identity_is_checked.
Proof.
  intros H.
  destruct (H sample_float_of_str sample_repr sample_bad_identity eq_refl) as [e He].
  vm_compute in He. discriminate He.
Qed.

(** C3 as stated fails: an average heart rate supplied as 0.0 is mapped
    to None. *)
Lemma zero_not_kept : ~ zero_is_kept.
Proof.
  intros H.
  destruct (H sample_float_of_str sample_repr sample_payload _ eq_refl) as [H1 H2].
  destruct (H1 "average_heartrate" Activity.average_heartrate (VFloat 0))
    as (q & Hq & _); [simpl; tauto | reflexivity | reflexivity |].
  discriminate Hq.
Qed.



(** The sample transport payload is what [to_dict] renders from the
    record normalized from the sample record payload. *)
Example sample_transport_rendered :
  Activity.from_strava_activity sample_float_of_str sample_repr sample_record_payload ≫=
    Activity.to_dict = Ok sample_transport.
Proof. vm_compute. reflexivity. Qed.

(** C7 as stated fails: on a payload in transport shape the timestamps
    are strings, and to_transport fails on the record normalized from it;
    read as a dict, the payload is not even normalized. *)
Lemma transport_not_round_trip :
  transport_shape (VObj sample_transport) = true /\
  Activity.from_strava_activity sample_float_of_str sample_repr (VDict sample_transport)
  = Raise AttributeError /\
  ~ transport_round_trip.
Proof.
  split; [reflexivity|]. split; [reflexivity|].
  intros H.
  destruct (H sample_float_of_str sample_repr (VObj sample_transport) eq_refl)
    as (r & d & H1 & H2 & _).
  vm_compute in H1. injection H1 as <-. vm_compute in H2. discriminate H2.
Qed.

(** C7, as amended, on a sample payload. *)
Lemma record_round_trip_witness :
  exists r d,
    Activity.from_strava_activity sample_float_of_str sample_repr sample_record_payload = Ok r /\
    Activity.to_dict r = Ok d /\
    transport_shape (VObj d) = true /\
    Activity.from_strava_activity sample_float_of_str sample_repr (VObj d) = Ok (iso_dates r) /\
    Activity.to_dict (iso_dates r) = Raise AttributeError.
Proof.
  apply (record_round_trip sample_float_of_str sample_repr sample_record_payload).
  reflexivity.
Defined.

(** C3, as amended, on a sample payload. *)
Lemma optional_metric_none_iff_falsy_witness :
  exists r,
    Activity.from_strava_activity sample_float_of_str sample_repr sample_payload = Ok r /\
    (forall f get, In (f, get) optional_metrics ->
       exists x, py_getattr sample_payload f = Ok x /\ metric_rule sample_float_of_str x (get r)) /\
    metric_rule sample_float_of_str (py_getattr_default sample_payload "calories" VNone)
                (Activity.calories r).
Proof.
  eexists. split; [reflexivity|].
  apply (optional_metric_none_iff_falsy sample_float_of_str sample_repr sample_payload).
  reflexivity.
Defined.

(** C2, as amended, on sample payloads. *)
Lemma identity_copied_unchecked_witness :
  exists r,
    Activity.from_strava_activity sample_float_of_str sample_repr sample_record_payload = Ok r /\
    py_getattr sample_record_payload "id" = Ok (Activity.id r) /\
    Activity.from_strava_activity sample_float_of_str sample_repr
      (VObj (dict_set "id" VNone (dict_set "name" (VInt 7)
               (match sample_record_payload with VObj attrs => attrs | _ => [] end))))
    = Ok (with_identity VNone (VInt 7) r) /\
    Activity.from_strava_activity sample_float_of_str sample_repr (VObj [("type", VStr "Run")])
    = Raise AttributeError.
Proof.
  destruct (identity_copied_unchecked sample_float_of_str sample_repr sample_record_payload)
    as (_ & H2 & H3).
  destruct (identity_copied_unchecked sample_float_of_str sample_repr
              (VObj [("type", VStr "Run")])) as (H1 & _).
  eexists. split; [reflexivity|]. split; [apply H2; reflexivity|].
  split; [apply H3; reflexivity|].
  apply H1. left. exists AttributeError. reflexivity.
Defined.

(** ** The token manager: failures, frame and reloading *)

Section TokenFileFacts.

Variable endpoint : Z -> PyVal -> PyVal -> Result PyVal.
Local Abbreviation refresh := (StravaClient._refresh_token endpoint).
Local Abbreviation load := (StravaClient._load_and_set_token endpoint).
Local Abbreviation token_file := StravaClient.token_file.

Lemma needs_refresh_world (e : PyVal) (w : World) :
  snd (StravaClient.needs_refresh e w) = w.
Proof.
  unfold StravaClient.needs_refresh, mbind, M_bind, time_time, lift.
  destruct (truthy e); [|reflexivity].
  destruct (py_sub_int e 300); [|reflexivity]. reflexivity.
Qed.

Lemma needs_refresh_true (e : PyVal) (w : World) :
  StravaClient.needs_refresh e w = (Ok true, w) <-> due e w.
Proof.
  split.
  - intros H. unfold due. destruct (truthy e) eqn:Te.
    + split; [reflexivity|]. destruct (as_number e) as [t|] eqn:Hn.
      * destruct (needs_refresh_number e t w Te Hn) as (b & Hb & Hbt).
        rewrite Hb in H. injection H as ->. exists t. split; [reflexivity|]. now apply Hbt.
      * exfalso. unfold StravaClient.needs_refresh, mbind, M_bind, time_time, lift in H.
        rewrite Te in H. destruct e; try discriminate H; discriminate Hn.
    + rewrite (needs_refresh_falsy e w Te) in H. discriminate H.
  - intros (Te & t & Hn & Hlt).
    destruct (needs_refresh_number e t w Te Hn) as (b & Hb & Hbt).
    rewrite Hb. apply Hbt in Hlt. now subst b.
Qed.

Lemma load_cases (self : StravaClient.t) (w : World) :
  (exists e, load self w = (Raise e, w)) \/
  (exists a r e, holds_tokens self w a r e /\ ~ due e w /\
                 load self w = (Ok tt, with_access_token a w)) \/
  (exists a r e, holds_tokens self w a r e /\ due e w /\
                 load self w = refresh self r w).
Proof.
  destruct (fs w !! token_file self) as [ts|] eqn:Hf.
  2:{ left. eexists. now apply load_no_file. }
  destruct (json_loads ts) as [data|] eqn:Hj.
  2:{ left. eexists. now apply (load_not_json endpoint self w ts). }
  destruct data as [ | | | | | | | |kvs| ];
    try (left; eexists; apply (load_not_object endpoint self w ts _ Hf Hj); congruence).
  destruct (py_dict_get (VDict kvs) "access_token") as [a|] eqn:Ha; [|discriminate Ha].
  destruct (py_dict_get (VDict kvs) "refresh_token") as [r|] eqn:Hr; [|discriminate Hr].
  destruct (py_dict_get (VDict kvs) "expires_at") as [e|] eqn:He; [|discriminate He].
  destruct (truthy a) eqn:Ta.
  2:{ left. eexists. apply (load_missing_token endpoint self w ts kvs a r Hf Hj Ha Hr). now left. }
  destruct (truthy r) eqn:Tr.
  2:{ left. eexists. apply (load_missing_token endpoint self w ts kvs a r Hf Hj Ha Hr). now right. }
  assert (Hh : holds_tokens self w a r e) by (exists ts, kvs; repeat split; assumption).
  rewrite (load_tokens endpoint self w ts kvs a r e Hf Hj Ha Hr He Ta Tr).
  unfold mbind, M_bind.
  pose proof (needs_refresh_world e w) as Hw.
  pose proof (needs_refresh_true e w) as Ht.
  destruct (StravaClient.needs_refresh e w) as [[[|]|x] w0]; simpl in Hw; subst w0.
  - right. right. exists a, r, e. split; [exact Hh|]. split; [|reflexivity]. now apply Ht.
  - right. left. exists a, r, e. split; [exact Hh|]. split; [|reflexivity].
    intros Hd. apply Ht in Hd. discriminate Hd.
  - left. eauto.
Qed.

Lemma refresh_written (self : StravaClient.t) (r : PyVal) (w : World)
  (cid : Z) (secret : string) (resp : PyVal) :
  configured w cid secret ->
  endpoint cid (VStr secret) r = Ok resp ->
  exists content,
    fs (snd (refresh self r w)) = <[token_file self := content]> (fs w) /\
    (fst (refresh self r w) = Ok tt ->
       map Chunk content = iterencode resp /\
       py_subscript resp "access_token" = Ok (client_access_token (snd (refresh self r w)))) /\
    refresh_calls (snd (refresh self r w)) = refresh_calls w ++ [(cid, VStr secret, r)].
Proof.
  intros Hc Hep. exists (device_takes (write_budget w) (json_dumps resp)).
  rewrite (refresh_answered endpoint self r w cid secret resp Hc Hep).
  destruct (device_cuts (write_budget w) (json_dumps resp)) eqn:Hcut; cbn [fst snd].
  { split; [reflexivity|]. split; [intros [=] | reflexivity]. }
  unfold json_dump. destruct (complete (iterencode resp)) eqn:Hco.
  - rewrite (write_chunks_complete _ _ Hco).
    destruct (py_subscript resp "access_token") as [tok|e]; cbn [fst snd];
      (split; [reflexivity|]); (split; [|reflexivity]); [|intros [=]].
    intros _. rewrite (device_takes_whole _ _ Hcut). unfold json_dumps.
    split; [now apply complete_emitted | reflexivity].
  - destruct (write_chunks_incomplete _ [] Hco) as [e ->]. cbn [fst snd].
    split; [reflexivity|]. split; [intros [=] | reflexivity].
Qed.

Lemma refresh_outcome (self : StravaClient.t) (r : PyVal) (w : World) :
  (exists e, refresh self r w = (Raise e, w)) \/
  (exists cid secret, configured w cid secret /\
     ((exists e, endpoint cid (VStr secret) r = Raise e /\
                 refresh self r w = (Raise e, with_call cid (VStr secret) r w)) \/
      (exists resp, endpoint cid (VStr secret) r = Ok resp))).
Proof.
  destruct (truthy (opt_str (environ w !! "STRAVA_CLIENT_ID"))) eqn:Tid.
  2:{ left. eexists. apply refresh_unconfigured. now left. }
  destruct (truthy (opt_str (environ w !! "STRAVA_CLIENT_SECRET"))) eqn:Tsec.
  2:{ left. eexists. apply refresh_unconfigured. now right. }
  apply truthy_opt_str in Tid as (cid_text & Hid & Hne).
  apply truthy_opt_str in Tsec as (secret & Hsec & Hns).
  destruct (int_of_str cid_text) as [cid|e] eqn:Hint.
  2:{ left. exists e. apply (refresh_bad_client_id endpoint self r w cid_text secret); assumption. }
  right. exists cid, secret.
  assert (Hc : configured w cid secret) by (exists cid_text; repeat split; assumption).
  split; [exact Hc|].
  destruct (endpoint cid (VStr secret) r) as [resp|e] eqn:Hep.
  - right. eauto.
  - left. exists e. split; [reflexivity|]. now apply refresh_endpoint_raises.
Qed.

(** X1: loading the tokens, with or without a refresh, changes no file
    other than the token file of the client. *)
Theorem load_touches_only_token_file (self : StravaClient.t) (w : World) (p : string) :
  p <> token_file self ->
  fs (snd (load self w)) !! p = fs w !! p.
Proof.
  intros Hp.
  destruct (load_cases self w) as [[e ->] | [(a & r & e & _ & _ & ->) | (a & r & e & _ & _ & ->)]];
    try reflexivity.
  destruct (refresh_outcome self r w) as [[x ->] | (cid & secret & Hc & [(x & _ & ->) | [resp Hep]])];
    try reflexivity.
  destruct (refresh_written self r w cid secret resp Hc Hep) as (ws & -> & _).
  now apply lookup_insert_ne.
Qed.

(** X2: the token file is changed only on the refresh path, and only once
    the endpoint has answered: if the files differ after loading, then
    the file held both tokens, the expiry was due, the environment was
    configured, the endpoint returned a response, and exactly that call
    was made. *)
Theorem token_file_written_only_after_answer (self : StravaClient.t) (w : World) :
  fs (snd (load self w)) <> fs w ->
  exists a r e cid secret resp,
    holds_tokens self w a r e /\ due e w /\ configured w cid secret /\
    endpoint cid (VStr secret) r = Ok resp /\
    refresh_calls (snd (load self w)) = refresh_calls w ++ [(cid, VStr secret, r)].
Proof.
  intros Hne.
  destruct (load_cases self w) as [[e Hl] | [(a & r & e & _ & _ & Hl) | (a & r & e & Hh & Hd & Hl)]];
    rewrite Hl in *; try (now destruct Hne).
  destruct (refresh_outcome self r w) as [[x Hr] | (cid & secret & Hc & [(x & _ & Hr) | [resp Hep]])];
    try (rewrite Hr in Hne; now destruct Hne).
  destruct (refresh_written self r w cid secret resp Hc Hep) as (ws & _ & _ & Hcalls).
  exists a, r, e, cid, secret, resp. repeat split; try assumption; apply Hd.
Qed.

(** X3: loading the tokens calls the refresh endpoint at most once, and when
    it does, with the client id and secret of the environment and the
    refresh token stored in the file. *)
Theorem at_most_one_refresh_call (self : StravaClient.t) (w : World) :
  refresh_calls (snd (load self w)) = refresh_calls w \/
  exists a r e cid secret,
    holds_tokens self w a r e /\ due e w /\ configured w cid secret /\
    refresh_calls (snd (load self w)) = refresh_calls w ++ [(cid, VStr secret, r)].
Proof.
  destruct (load_cases self w) as [[e Hl] | [(a & r & e & _ & _ & Hl) | (a & r & e & Hh & Hd & Hl)]];
    rewrite Hl; try (left; reflexivity).
  destruct (refresh_outcome self r w) as [[x Hr] | (cid & secret & Hc & [(x & _ & Hr) | [resp Hep]])].
  - rewrite Hr. now left.
  - rewrite Hr. right. exists a, r, e, cid, secret. repeat split; try assumption; apply Hd.
  - destruct (refresh_written self r w cid secret resp Hc Hep) as (ws & _ & _ & Hcalls).
    right. exists a, r, e, cid, secret. repeat split; try assumption; apply Hd.
Qed.

Lemma get_client_load (token_file' : option string) (w : World) :
  get_client endpoint token_file' w =
  match load (StravaClient.mk (token_path token_file')) (with_access_token VNone w) with
  | (Ok _, w') => (Ok (StravaClient.mk (token_path token_file')), w')
  | (Raise e, w') =>
      if is_FileNotFoundError e || is_ValueError e
      then (_ ← rich_print (plain_exn e); raise Abort) w'
      else (Raise e, w')
  end.
Proof.
  unfold get_client, StravaClient.__init__, mbind, M_bind, mret, M_ret, set_access_token.
  fold (with_access_token VNone w).
  assert (Hp : default "strava-token.json"
                 match token_file' with
                 | Some s => if truthy (VStr s) then Some s else None
                 | None => None
                 end = token_path token_file').
  { destruct token_file' as [s|]; [|reflexivity]. simpl.
    destruct (String.eqb s ""); reflexivity. }
  rewrite Hp.
  destruct (load _ _) as [[[]|e] w']; reflexivity.
Qed.

(** The handler of [get_client]: the line is printed or rich rejects
    it; a line known to be plain is printed, and the world stays. *)
Lemma handler_outcome {A : Type} (plain : bool) (w : World) :
  exists e w',
    (_ ← rich_print plain; @raise A Abort) w = (Raise e, w') /\
    (e = Abort \/ e = MarkupError) /\
    (plain = true -> e = Abort /\ w' = w).
Proof.
  unfold mbind, M_bind, rich_print, raise. destruct plain.
  - exists Abort, w. repeat split; auto.
  - destruct (terminal w) as [|[|] rest]; eexists _, _;
      (split; [reflexivity|]); (split; [auto | discriminate]).
Qed.

Lemma holds_tokens_reset (self : StravaClient.t) (w : World) (a r e v : PyVal) :
  holds_tokens self w a r e -> holds_tokens self (with_access_token v w) a r e.
Proof. intros H. exact H. Qed.


(** X6: a token file that is not JSON, or that is an object whose
    access_token or refresh_token is absent or falsy, makes loading raise
    a ValueError (JSONDecodeError is one) with the world unchanged, and
    the get_client of the command line turns it into click.Abort. *)
Theorem invalid_token_file_aborts (token_file' : option string) (w : World)
  (ts : list token) :
  fs w !! token_path token_file' = Some ts ->
  json_loads ts = None \/
  (exists kvs a r,
      json_loads ts = Some (VDict kvs) /\
      py_dict_get (VDict kvs) "access_token" = Ok a /\
      py_dict_get (VDict kvs) "refresh_token" = Ok r /\
      (truthy a = false \/ truthy r = false)) ->
  (exists e, is_ValueError e = true /\
             load (StravaClient.mk (token_path token_file')) w = (Raise e, w)) /\
  get_client endpoint token_file' w = (Raise Abort, with_access_token VNone w).
Proof.
  intros Hf [Hj | (kvs & a & r & Hj & Ha & Hr & Hfalsy)].
  - split.
    + exists JSONDecodeError. split; [reflexivity|]. now apply (load_not_json endpoint _ w ts).
    + rewrite get_client_load, (load_not_json endpoint _ _ ts); [reflexivity | exact Hf | exact Hj].
  - split.
    + exists ValueError. split; [reflexivity|].
      now apply (load_missing_token endpoint _ w ts kvs a r).
    + rewrite get_client_load, (load_missing_token endpoint _ _ ts kvs a r); 
        [reflexivity | exact Hf | exact Hj | exact Ha | exact Hr | exact Hfalsy].
Qed.

Lemma load_due (self : StravaClient.t) (w : World) (a r e : PyVal) :
  holds_tokens self w a r e -> due e w -> load self w = refresh self r w.
Proof.
  intros (ts & kvs & Hf & Hj & Ha & Hr & He & Ta & Tr) Hd.
  rewrite (load_tokens endpoint self w ts kvs a r e Hf Hj Ha Hr He Ta Tr).
  unfold mbind, M_bind. apply needs_refresh_true in Hd. rewrite Hd. reflexivity.
Qed.

(** X7: a truthy expires_at that is not a number (a text, say) makes the
    expiry test raise TypeError, which the get_client of the command line
    does not handle: it reaches the caller as it is, and no refresh is
    attempted. *)
Theorem non_numeric_expiry_escapes (token_file' : option string) (w : World)
  (a r e : PyVal) :
  holds_tokens (StravaClient.mk (token_path token_file')) w a r e ->
  truthy e = true -> as_number e = None ->
  load (StravaClient.mk (token_path token_file')) w = (Raise TypeError, w) /\
  get_client endpoint token_file' w = (Raise TypeError, with_access_token VNone w).
Proof.
  intros Hh Te Hn.
  assert (Hl : forall w0, holds_tokens (StravaClient.mk (token_path token_file')) w0 a r e ->
                 load (StravaClient.mk (token_path token_file')) w0 = (Raise TypeError, w0)).
  { intros w0 (ts & kvs & Hf & Hj & Ha & Hr & He & Ta & Tr).
    rewrite (load_tokens endpoint _ w0 ts kvs a r e Hf Hj Ha Hr He Ta Tr).
    unfold mbind, M_bind, StravaClient.needs_refresh, time_time, lift. rewrite Te.
    destruct e; try discriminate Hn; reflexivity. }
  split; [now apply Hl|].
  rewrite get_client_load, Hl; [reflexivity | exact Hh].
Qed.

(** X8: when a refresh is due and STRAVA_CLIENT_ID or STRAVA_CLIENT_SECRET
    is unset or empty, loading raises ValueError before the endpoint is
    called and before the file is opened, and the command line aborts. *)
Theorem refresh_needs_configuration (token_file' : option string) (w : World)
  (a r e : PyVal) :
  holds_tokens (StravaClient.mk (token_path token_file')) w a r e -> due e w ->
  truthy (opt_str (environ w !! "STRAVA_CLIENT_ID")) = false \/
  truthy (opt_str (environ w !! "STRAVA_CLIENT_SECRET")) = false ->
  load (StravaClient.mk (token_path token_file')) w = (Raise ValueError, w) /\
  get_client endpoint token_file' w = (Raise Abort, with_access_token VNone w).
Proof.
  intros Hh Hd Hc. split.
  - rewrite (load_due _ w a r e Hh Hd). now apply refresh_unconfigured.
  - rewrite get_client_load, (load_due _ (with_access_token VNone w) a r e Hh Hd), refresh_unconfigured;
      [reflexivity | exact Hc].
Qed.


(** X10: when the refresh endpoint raises, loading raises the same
    exception; the call is recorded and nothing else changes, the token
    file included.  The get_client of the command line lets the
    exception through when it is neither a FileNotFoundError nor a
    ValueError; when it is one, it prints its message and raises
    click.Abort, provided the message holds no opening bracket, and
    whatever the message it raises click.Abort or the MarkupError of
    rich. *)
Theorem endpoint_failure_propagates (token_file' : option string) (w : World)
  (a r e : PyVal) (cid : Z) (secret : string) (x : exn) :
  holds_tokens (StravaClient.mk (token_path token_file')) w a r e -> due e w ->
  configured w cid secret ->
  endpoint cid (VStr secret) r = Raise x ->
  load (StravaClient.mk (token_path token_file')) w
  = (Raise x, with_call cid (VStr secret) r w) /\
  (is_FileNotFoundError x || is_ValueError x = false ->
   get_client endpoint token_file' w
   = (Raise x, with_call cid (VStr secret) r (with_access_token VNone w))) /\
  (is_FileNotFoundError x || is_ValueError x = true ->
   (plain_exn x = true ->
    get_client endpoint token_file' w
    = (Raise Abort, with_call cid (VStr secret) r (with_access_token VNone w))) /\
   (exists e', fst (get_client endpoint token_file' w) = Raise e' /\
               (e' = Abort \/ e' = MarkupError))).
Proof.
  intros Hh Hd Hc Hep. split.
  - rewrite (load_due _ w a r e Hh Hd). now apply refresh_endpoint_raises.
  - rewrite get_client_load, (load_due _ (with_access_token VNone w) a r e Hh Hd),
      (refresh_endpoint_raises endpoint _ _ _ cid secret x) by assumption.
    split; [intros ->; reflexivity|]. intros ->. split; [intros ->; reflexivity|].
    destruct (@handler_outcome StravaClient.t (plain_exn x)
                (with_call cid (VStr secret) r (with_access_token VNone w)))
      as (e' & w' & -> & He & _).
    exists e'. split; [reflexivity | exact He].
Qed.

Lemma refresh_run (self : StravaClient.t) (r : PyVal) (w : World)
  (cid : Z) (secret : string) (resp : PyVal) :
  configured w cid secret ->
  endpoint cid (VStr secret) r = Ok resp ->
  json_value resp = true ->
  write_budget w = None ->
  refresh self r w =
  match py_subscript resp "access_token" with
  | Ok tok =>
      (Ok tt, mk_World (<[token_file self := json_dumps resp]> (fs w)) (environ w) (clock w)
                       None (refresh_calls w ++ [(cid, VStr secret, r)]) tok (terminal w))
  | Raise x =>
      (Raise x, mk_World (<[token_file self := json_dumps resp]> (fs w)) (environ w) (clock w)
                         None (refresh_calls w ++ [(cid, VStr secret, r)])
                         (client_access_token w) (terminal w))
  end.
Proof.
  intros Hc Hep Hjv Hb.
  rewrite (refresh_answered endpoint self r w cid secret resp Hc Hep), Hb.
  cbn [device_cuts]. unfold json_dump.
  rewrite (write_chunks_complete _ _ (proj1 (json_round_trips resp Hjv))).
  unfold fp_close, with_call, with_access_token. cbn. rewrite Hb.
  destruct (py_subscript resp "access_token"); reflexivity.
Qed.

(** X11: a response of the endpoint that is serialisable but has no
    access_token is written to the token file before the access token is
    looked up: the load fails with the error of the lookup, the token
    file then holds the response, and every later load of that file
    fails without changing anything. *)
Theorem incomplete_response_poisons_token_file (self : StravaClient.t) (w : World)
  (a r e : PyVal) (cid : Z) (secret : string) (resp : PyVal) (x : exn) :
  holds_tokens self w a r e -> due e w -> configured w cid secret ->
  endpoint cid (VStr secret) r = Ok resp ->
  json_value resp = true ->
  py_subscript resp "access_token" = Raise x ->
  write_budget w = None ->
  fst (load self w) = Raise x /\
  (fs (snd (load self w)) !! token_file self) ≫= json_loads = Some resp /\
  exists x', load self (snd (load self w)) = (Raise x', snd (load self w)).
Proof.
  intros Hh Hd Hc Hep Hjv Hsub Hb.
  rewrite (load_due self w a r e Hh Hd), (refresh_run self r w cid secret resp Hc Hep Hjv Hb), Hsub.
  cbn [fst snd fs]. rewrite lookup_insert_eq. cbn. rewrite (loads_dumps resp Hjv).
  split; [reflexivity|]. split; [reflexivity|].
  set (w1 := mk_World _ _ _ _ _ _ _).
  assert (Hf : fs w1 !! token_file self = Some (json_dumps resp)) by apply lookup_insert_eq.
  destruct resp as [ | | | | | | | |kvs| ];
    try (exists AttributeError; apply (load_not_object endpoint self w1 _ _ Hf (loads_dumps _ Hjv));
         congruence).
  exists ValueError.
  apply (load_missing_token endpoint self w1 _ kvs VNone
           (match assoc "refresh_token" kvs with Some v => v | None => VNone end)
           Hf (loads_dumps _ Hjv)).
  - simpl in *. destruct (assoc "access_token" kvs); [discriminate Hsub | reflexivity].
  - reflexivity.
  - now left.
Qed.

(** X12: after a refresh whose answer is a triple with non-empty tokens and
    an expiry at least 300 seconds ahead, the client holds the new access
    token, and loading again succeeds without a further refresh and
    without any change to the world. *)
Theorem reload_after_refresh_uses_new_token (self : StravaClient.t) (w : World)
  (a r e : PyVal) (cid : Z) (secret a' r' : string) (e' : Z) :
  holds_tokens self w a r e -> due e w -> configured w cid secret ->
  endpoint cid (VStr secret) r = Ok (triple a' r' e') ->
  write_budget w = None ->
  a' <> "" -> r' <> "" -> (clock w + 300 <= inject_Z e')%Q ->
  let w1 := snd (load self w) in
  fst (load self w) = Ok tt /\
  load self w1 = (Ok tt, w1) /\
  client_access_token w1 = VStr a' /\
  refresh_calls w1 = refresh_calls w ++ [(cid, VStr secret, r)].
Proof.
  intros Hh Hd Hc Hep Hb Ha' Hr' Hfresh.
  rewrite (load_due self w a r e Hh Hd),
    (refresh_run self r w cid secret (triple a' r' e') Hc Hep eq_refl Hb).
  cbn [py_subscript triple assoc String.eqb Ascii.eqb Bool.eqb fst snd].
  set (w1 := mk_World _ _ _ _ _ _ _).
  split; [reflexivity|]. split; [|split; reflexivity].
  rewrite (load_tokens endpoint self w1 (json_dumps (triple a' r' e'))
             [("access_token", VStr a'); ("refresh_token", VStr r'); ("expires_at", VInt e')]
             (VStr a') (VStr r') (VInt e')).
  - unfold mbind, M_bind.
    destruct (truthy (VInt e')) eqn:Te.
    + destruct (needs_refresh_number (VInt e') (inject_Z e') w1 Te eq_refl) as (b & -> & Hbt).
      destruct b; [|reflexivity].
      assert (Hlt : (inject_Z e' - 300 < clock w1)%Q) by now apply Hbt.
      unfold w1 in Hlt. cbn [clock] in Hlt. lra.
    + rewrite (needs_refresh_falsy _ w1 Te). reflexivity.
  - apply lookup_insert_eq.
  - apply (loads_dumps (triple a' r' e')). reflexivity.
  - reflexivity.
  - reflexivity.
  - reflexivity.
  - now apply truthy_str.
  - now apply truthy_str.
Qed.

(** X4: what a successful load means.  The file held both tokens; then
    either no refresh was due and the client holds the stored access
    token, or a refresh was due, the endpoint answered, the client holds
    the access_token entry of the answer, and the token file holds the
    complete text of the answer. *)
Theorem load_success_means (self : StravaClient.t) (w : World) :
  fst (load self w) = Ok tt ->
  exists a r e,
    holds_tokens self w a r e /\
    ((~ due e w /\ snd (load self w) = with_access_token a w) \/
     (due e w /\
      exists cid secret resp,
        configured w cid secret /\
        endpoint cid (VStr secret) r = Ok resp /\
        py_subscript resp "access_token" = Ok (client_access_token (snd (load self w))) /\
        (exists ws, fs (snd (load self w)) !! token_file self = Some ws /\
                    map Chunk ws = iterencode resp) /\
        refresh_calls (snd (load self w)) = refresh_calls w ++ [(cid, VStr secret, r)])).
Proof.
  intros Hok.
  destruct (load_cases self w) as [[e Hl] | [(a & r & e & Hh & Hd & Hl) | (a & r & e & Hh & Hd & Hl)]].
  - rewrite Hl in Hok. discriminate Hok.
  - exists a, r, e. split; [exact Hh|]. left. split; [exact Hd|]. now rewrite Hl.
  - exists a, r, e. split; [exact Hh|]. right. split; [exact Hd|].
    rewrite Hl in *.
    destruct (refresh_outcome self r w) as [[x Hr] | (cid & secret & Hc & [(x & _ & Hr) | [resp Hep]])];
      try (rewrite Hr in Hok; discriminate Hok).
    destruct (refresh_written self r w cid secret resp Hc Hep) as (ws & Hfs & Hdone & Hcalls).
    destruct (Hdone Hok) as [Hall Htok].
    exists cid, secret, resp. repeat split; try assumption.
    exists ws. split; [|exact Hall]. rewrite Hfs. apply lookup_insert_eq.
Qed.
End TokenFileFacts.

(** ** The activity mapper: what is required, rendering *)

Section NormalizeFacts.

Variable float_of_str : string -> option Q.
Variable repr_other : PyVal -> string.
Local Abbreviation normalize := (Activity.from_strava_activity float_of_str repr_other).
Local Abbreviation py_float := (Activity.py_float float_of_str).

(** X13: the type of a normalized record.  The payload must have a type
    attribute; a type that carries a root attribute (the wrapper of
    stravalib) gives that root, a string gives itself, None gives the
    text None, and any type without a root gives a string. *)
Theorem type_is_unwrapped (p : PyVal) (r : Activity.t) :
  normalize p = Ok r ->
  exists ty, py_getattr p "type" = Ok ty /\
    (forall s, ty = VStr s -> Activity.type r = VStr s) /\
    (forall x, py_getattr ty "root" = Ok x -> Activity.type r = x) /\
    (ty = VNone -> Activity.type r = VStr "None") /\
    (py_hasattr ty "root" = false -> is_str (Activity.type r) = true).
Proof.
  unfold Activity.from_strava_activity. intros H. do 15 step H. injection H as <-.
  cbn [Activity.type]. exists x. split; [exact E|].
  repeat split.
  - intros s ->. simpl in E0. now injection E0.
  - intros y Hy. destruct x; try discriminate Hy. unfold py_getattr in Hy.
    unfold py_hasattr in E0. destruct (assoc "root" attrs) eqn:Ha; [|discriminate Hy].
    unfold py_getattr in E0. rewrite Ha in E0. congruence.
  - intros ->. simpl in E0. now injection E0.
  - intros Hh. rewrite Hh in E0. now injection E0 as <-.
Qed.

Lemma float_or_zero_rule (p : PyVal) (f : string) (q : Q) :
  Activity.float_or_zero float_of_str p f = Ok q ->
  exists x, py_getattr p f = Ok x /\
    (truthy x = false -> q = 0%Q) /\ (truthy x = true -> py_float x = Ok q).
Proof.
  unfold Activity.float_or_zero. intros H. step H. exists x. split; [exact E|].
  rewrite E in H. destruct (truthy x).
  - split; [discriminate | intros _; exact H].
  - injection H as <-. split; [reflexivity | discriminate].
Qed.

(** X14: distance and total_elevation_gain of a normalized record are 0.0
    when the attribute of the payload is falsy (None, 0, 0.0, an empty
    text), and float() of the attribute otherwise. *)
Theorem required_floats_default_to_zero (p : PyVal) (r : Activity.t) :
  normalize p = Ok r ->
  (exists x, py_getattr p "distance" = Ok x /\
     (truthy x = false -> Activity.distance r = 0%Q) /\
     (truthy x = true -> py_float x = Ok (Activity.distance r))) /\
  (exists x, py_getattr p "total_elevation_gain" = Ok x /\
     (truthy x = false -> Activity.total_elevation_gain r = 0%Q) /\
     (truthy x = true -> py_float x = Ok (Activity.total_elevation_gain r))).
Proof.
  unfold Activity.from_strava_activity. intros H. do 15 step H. injection H as <-.
  split; simpl; now apply float_or_zero_rule.
Qed.

Lemma float_or_none_present (p : PyVal) (f : string) (o : option Q) :
  Activity.float_or_none float_of_str p f = Ok o -> exists x, py_getattr p f = Ok x.
Proof. unfold Activity.float_or_none. intros H. step H. eauto. Qed.

Lemma float_or_zero_present (p : PyVal) (f : string) (q : Q) :
  Activity.float_or_zero float_of_str p f = Ok q -> exists x, py_getattr p f = Ok x.
Proof. unfold Activity.float_or_zero. intros H. step H. eauto. Qed.

(** X15: normalization succeeds only on a payload that has all thirteen
    attributes read without a default; a payload that lacks one of them
    is not normalized. *)
Theorem direct_attributes_are_required (p : PyVal) (r : Activity.t) :
  normalize p = Ok r ->
  Forall (fun f => exists x, py_getattr p f = Ok x) direct_attributes.
Proof.
  unfold Activity.from_strava_activity. intros H. do 15 step H. clear H.
  step E4. step E5.
  apply float_or_zero_present in E3, E6.
  apply float_or_none_present in E9, E10, E11, E12.
  unfold direct_attributes. repeat constructor; eauto.
Qed.

Lemma number_or_none_float (x : PyVal) :
  is_number_or_none x = true -> truthy x = true -> exists q, py_float x = Ok q.
Proof.
  destruct x; try discriminate; simpl; eauto.
  intros Hn _. apply Z.ltb_lt in Hn. rewrite (round_double_int_finite n Hn). eauto.
Qed.

Lemma float_or_zero_typed (p : PyVal) (f : string) :
  field_is is_number_or_none p f = true ->
  exists q, Activity.float_or_zero float_of_str p f = Ok q.
Proof.
  intros H. apply field_is_inv in H as (x & E & K). unfold Activity.float_or_zero.
  rw E. destruct (truthy x) eqn:T; [|eauto]. now apply number_or_none_float.
Qed.

Lemma float_or_none_typed (p : PyVal) (f : string) :
  field_is is_number_or_none p f = true ->
  exists o, Activity.float_or_none float_of_str p f = Ok o.
Proof.
  intros H. apply field_is_inv in H as (x & E & K). unfold Activity.float_or_none.
  rw E. destruct (truthy x) eqn:T; [|eauto].
  destruct (number_or_none_float x K T) as [q ->]. simpl. eauto.
Qed.

Lemma calories_typed (p : PyVal) :
  is_number_or_none (py_getattr_default p "calories" VNone) = true ->
  exists o, Activity.calories_or_none float_of_str p = Ok o.
Proof.
  unfold Activity.calories_or_none, py_getattr_default. intros K.
  destruct (py_getattr p "calories") as [x|e] eqn:E; [|simpl; eauto].
  destruct (truthy x) eqn:T; [|eauto]. cbn [mbind Result_bind].
  destruct (number_or_none_float x K T) as [q ->]. simpl. eauto.
Qed.

Lemma duration_typed (p : PyVal) (f : string) :
  field_is is_duration p f = true ->
  exists n, py_getattr p f ≫= (fun x => Activity.get_seconds x) = Ok n.
Proof.
  intros H. apply field_is_inv in H as (x & E & K). rw E.
  destruct x; try discriminate K; simpl; eauto. 
Qed.

Lemma type_resolves (ty : PyVal) :
  exists ty', (if py_hasattr ty "root" then py_getattr ty "root"
               else Ok (VStr (Activity.py_str repr_other ty))) = Ok ty'.
Proof.
  destruct (py_hasattr ty "root") eqn:Hh; [|eauto].
  unfold py_hasattr in Hh. unfold py_getattr. destruct ty; try discriminate Hh.
  destruct (assoc "root" attrs); [eauto | discriminate].
Qed.

End NormalizeFacts.

Lemma isoformat_inv (v x : PyVal) :
  py_isoformat v = Ok x -> exists dt, v = VDatetime dt /\ x = VStr (isoformat dt).
Proof.
  destruct v; try discriminate; simpl.
  - intros [= <-]. eauto.
  - destruct (assoc "isoformat" attrs); discriminate.
Qed.

Lemma isoformat_error (v : PyVal) (e : exn) :
  py_isoformat v = Raise e -> e = AttributeError \/ e = TypeError.
Proof.
  destruct v; simpl; try (intros [= <-]; auto); try discriminate.
  destruct (assoc "isoformat" attrs); intros [= <-]; auto.
Qed.

Lemma to_dict_error (r : Activity.t) (e : exn) :
  Activity.to_dict r = Raise e -> e = AttributeError \/ e = TypeError.
Proof.
  unfold Activity.to_dict.
  destruct (py_isoformat (Activity.start_date r)) as [x|e1] eqn:E1.
  - destruct (py_isoformat (Activity.start_date_local r)) as [y|e2] eqn:E2; [discriminate|].
    intros [= <-]. now apply isoformat_error in E2.
  - intros [= <-]. now apply isoformat_error in E1.
Qed.

Lemma to_dict_datetimes (r : Activity.t) :
  has_datetimes r = true -> exists d, Activity.to_dict r = Ok d /\ map fst d = transport_keys.
Proof.
  unfold has_datetimes, Activity.to_dict. intros H. apply andb_true_iff in H as [H1 H2].
  destruct (Activity.start_date r); try discriminate H1.
  destruct (Activity.start_date_local r); try discriminate H2.
  eexists. split; reflexivity.
Qed.

Lemma to_dict_no_datetimes (r : Activity.t) :
  has_datetimes r = false -> exists e, Activity.to_dict r = Raise e.
Proof.
  unfold has_datetimes. intros H.
  destruct (Activity.to_dict r) as [d|e] eqn:Hd; [|eauto].
  unfold Activity.to_dict in Hd. step Hd. step Hd.
  apply isoformat_inv in E as (dt1 & H1 & _). apply isoformat_inv in E0 as (dt2 & H2 & _).
  rewrite H1, H2 in H. discriminate H.
Qed.

Lemma to_dict_json_value (r : Activity.t) (d : list (string * PyVal)) :
  Activity.to_dict r = Ok d ->
  forallb json_value (copied_fields r) = true ->
  json_value (VDict d) = true.
Proof.
  intros Hd Hc.
  unfold Activity.to_dict in Hd. step Hd. step Hd. injection Hd as <-.
  apply isoformat_inv in E as (dt1 & _ & ->). apply isoformat_inv in E0 as (dt2 & _ & ->).
  unfold copied_fields in Hc. cbn [forallb] in Hc.
  repeat match goal with
  | H : _ && _ = true |- _ => apply andb_true_iff in H as [? H]
  end.
  cbn [json_value forallb snd map fst].
  repeat match goal with
  | H : json_value _ = true |- _ => rewrite H; clear H
  end.
  destruct (Activity.average_speed r), (Activity.max_speed r),
    (Activity.average_heartrate r), (Activity.max_heartrate r), (Activity.calories r);
    reflexivity.
Qed.

(** X17: to_dict succeeds exactly on the records whose two timestamps are
    datetimes, and then yields the nineteen keys in their order;
    otherwise it raises AttributeError or TypeError. *)
Theorem to_dict_needs_datetimes (r : Activity.t) :
  if has_datetimes r
  then exists d, Activity.to_dict r = Ok d /\ map fst d = transport_keys
  else exists e, Activity.to_dict r = Raise e /\ (e = AttributeError \/ e = TypeError).
Proof.
  destruct (has_datetimes r) eqn:H.
  - now apply to_dict_datetimes.
  - destruct (to_dict_no_datetimes r H) as [e He]. exists e. split; [exact He|].
    now apply (to_dict_error r).
Qed.

(** X18: the dictionary of to_dict is serialisable as soon as the fields
    copied from the payload are, and the text json.dumps makes of it
    parses back to the same dictionary. *)
Theorem to_dict_is_json (r : Activity.t) (d : list (string * PyVal)) :
  Activity.to_dict r = Ok d ->
  forallb json_value (copied_fields r) = true ->
  json_value (VDict d) = true /\
  complete (iterencode (VDict d)) = true /\
  json_loads (json_dumps (VDict d)) = Some (VDict d).
Proof.
  intros Hd Hc. pose proof (to_dict_json_value r d Hd Hc) as Hj.
  split; [exact Hj|]. split; [now apply json_round_trips | now apply loads_dumps].
Qed.

Section DisplayFacts.

Variable repr_other : PyVal -> string.
Variable format_2f : Q -> string.
Variable format_0f : Q -> string.
Variable strftime : datetime -> string -> string.
Local Abbreviation format_table_row :=
  (Activity.format_table_row repr_other format_2f format_0f strftime).

(** X19: the Time cell of a table row splits the moving time into hours,
    minutes below sixty and seconds below sixty, shows the hours only
    when positive, and never shows the seconds. *)
Theorem table_row_time_drops_seconds (r : Activity.t) (row : list (string * PyVal)) :
  format_table_row r = Ok row ->
  exists h m s,
    Activity.moving_time r = 3600 * h + 60 * m + s /\
    0 <= m < 60 /\ 0 <= s < 60 /\
    assoc "Time" row =
      Some (VStr (if 0 <? h
                  then str_of_int h +:+ "h " +:+ str_of_int m +:+ "m"
                  else str_of_int m +:+ "m")).
Proof.
  unfold Activity.format_table_row. intros H. step H. injection H as <-.
  set (t := Activity.moving_time r).
  exists (t / 3600), ((t mod 3600) / 60), ((t mod 3600) mod 60).
  repeat split; try reflexivity.
  - pose proof (Z.div_mod t 3600). pose proof (Z.div_mod (t mod 3600) 60). lia.
  - apply Z.div_pos; [|lia]. apply Z.mod_pos_bound. lia.
  - apply Z.div_lt_upper_bound; [lia|]. pose proof (Z.mod_pos_bound t 3600). lia.
  - apply Z.mod_pos_bound. lia.
  - apply Z.mod_pos_bound. lia.
Qed.

(** X20: format_table_row succeeds exactly on the records whose local start
    is a datetime; the row then has the seven keys in their order, the
    date formatted to the minute, and the name and type of the record as
    they are, whatever their kind.  Otherwise it raises AttributeError or
    TypeError. *)
Theorem table_row_needs_local_datetime (r : Activity.t) :
  if is_datetime (Activity.start_date_local r)
  then exists dt row,
         Activity.start_date_local r = VDatetime dt /\
         format_table_row r = Ok row /\ map fst row = table_keys /\
         assoc "Date" row = Some (VStr (strftime dt "%Y-%m-%d %H:%M")) /\
         assoc "Name" row = Some (Activity.name r) /\
         assoc "Type" row = Some (Activity.type r)
  else exists e, format_table_row r = Raise e /\ (e = AttributeError \/ e = TypeError).
Proof.
  unfold Activity.format_table_row.
  destruct (Activity.start_date_local r) as [ | | | | | |dt| | |attrs]; cbn;
    try (eexists; split; [reflexivity | auto]).
  - exists dt. eexists. repeat split; reflexivity.
  - destruct (assoc "strftime" attrs); eexists; (split; [reflexivity | auto]).
Qed.
End DisplayFacts.

(** ** The commands *)

Section CommandFacts.

Variable R : Type.
Variable get_activities :
  PyVal -> option datetime -> option datetime -> Z -> R -> Cli.Outcome (list PyVal) * R.
Variable get_activity : PyVal -> Z -> R -> Cli.Outcome PyVal * R.
Variable update_activity : PyVal -> Z -> list (string * PyVal) -> R -> Cli.Outcome unit * R.
Variable endpoint : Z -> PyVal -> PyVal -> Result PyVal.
Variable float_of_str : string -> option Q.
Variable repr_other : PyVal -> string.
Variable format_2f : Q -> string.
Variable format_0f : Q -> string.
Variable strftime : datetime -> string -> string.
Variable strptime : string -> string -> option datetime.

Local Abbreviation cli_get_client := (Cli.get_client R endpoint).
Local Abbreviation cli_update :=
  (Cli.update R get_activity update_activity endpoint float_of_str repr_other).
Local Abbreviation cli_list :=
  (Cli.list R get_activities endpoint float_of_str repr_other format_2f format_0f strftime
            strptime).
Local Abbreviation Session := (Cli.Session R).

Lemma rich_print_cases (plain : bool) (w : World) :
  exists w',
    rich_print plain w = (Ok tt, w') \/
    (plain = false /\ rich_print plain w = (Raise MarkupError, w')).
Proof.
  unfold rich_print. destruct plain; [eauto|].
  destruct (terminal w) as [|[|] rest]; eauto.
Qed.

Lemma emit_plain (o : Cli.output) (s : Session) :
  Cli.plain_output o = true -> Cli.emit R o s = (Cli.Done tt, logged o s).
Proof. intros H. unfold Cli.emit. rewrite H. reflexivity. Qed.

Lemma emit_cases (o : Cli.output) (s : Session) :
  let res := Cli.emit R o s in
  Cli.calls R (snd res) = Cli.calls R s /\ Cli.remote R (snd res) = Cli.remote R s /\
  ((fst res = Cli.Done tt /\ Cli.console R (snd res) = Cli.console R s ++ [o]) \/
   (Cli.plain_output o = false /\ fst res = Cli.Failed (Cli.Python MarkupError) /\
    Cli.console R (snd res) = Cli.console R s)).
Proof.
  cbv zeta. unfold Cli.emit.
  destruct (rich_print_cases (Cli.plain_output o) (Cli.world R s)) as [w' [-> | [Hp ->]]];
    cbn [fst snd Cli.calls Cli.remote Cli.console].
  - repeat split. left. split; reflexivity.
  - repeat split. right. repeat split. exact Hp.
Qed.

(** A handler that prints a line and raises click.Abort. *)
Lemma report_cases {A : Type} (m : Cli.message) (s : Session) :
  let res := (_ ← Cli.console_print R m; @Cli.fail R A (Cli.Python Abort)) s in
  Cli.calls R (snd res) = Cli.calls R s /\ Cli.remote R (snd res) = Cli.remote R s /\
  (Cli.plain_message m = true ->
   res = (Cli.Failed (Cli.Python Abort), logged (Cli.Print m) s)) /\
  ((fst res = Cli.Failed (Cli.Python Abort) /\
    Cli.console R (snd res) = Cli.console R s ++ [Cli.Print m]) \/
   (Cli.plain_message m = false /\ fst res = Cli.Failed (Cli.Python MarkupError) /\
    Cli.console R (snd res) = Cli.console R s)).
Proof.
  cbv zeta. unfold mbind, Cli.C_bind, Cli.console_print, Cli.fail.
  split; [|split; [|split]].
  - destruct (emit_cases (Cli.Print m) s) as (Hc & _). cbv zeta in Hc.
    destruct (Cli.emit R (Cli.Print m) s) as [[[]|x] s']; exact Hc.
  - destruct (emit_cases (Cli.Print m) s) as (_ & Hr & _). cbv zeta in Hr.
    destruct (Cli.emit R (Cli.Print m) s) as [[[]|x] s']; exact Hr.
  - intros Hp. rewrite (emit_plain (Cli.Print m) s Hp). reflexivity.
  - destruct (emit_cases (Cli.Print m) s) as (_ & _ & H). cbv zeta in H.
    destruct (Cli.emit R (Cli.Print m) s) as [[[]|x] s']; cbn [fst snd] in *.
    + destruct H as [[_ H] | (_ & H & _)]; [left; split; [reflexivity | exact H] | discriminate H].
    + destruct H as [[H _] | (Hp & H & Hc)]; [discriminate H|].
      injection H as ->. right. split; [exact Hp | split; [reflexivity | exact Hc]].
Qed.

Lemma update_unfold (activity_id : Z) (name description type : option string)
  (commute trainer : option bool) (gear_id : option string) (output_json : bool)
  (token_file : option string) (s : Session) :
  cli_update activity_id name description type commute trainer gear_id output_json token_file s
  = match cli_get_client token_file s with
    | (Cli.Failed x, s1) => (Cli.Failed x, s1)
    | (Cli.Done client, s1) =>
        let updates := update_fields name description type commute trainer gear_id in
        match updates with
        | [] => (Cli.Done tt, logged (Cli.Print Cli.No_updates_specified) s1)
        | _ =>
            Cli.try_except R
              (_ ← Cli.request R (fun token => Cli.Update_activity token activity_id updates)
                     (fun token => update_activity token activity_id updates);
               strava_activity ← Cli.request R (fun token => Cli.Get_activity token activity_id)
                                   (fun token => get_activity token activity_id);
               activity ← Cli.pure R
                 (Activity.from_strava_activity float_of_str repr_other strava_activity);
               if output_json
               then d ← Cli.pure R (Activity.to_dict activity); Cli.echo_json R (VDict d)
               else
                 _ ← Cli.console_print R (Cli.Updated_successfully activity_id);
                 _ ← Cli.console_print R
                       (Cli.Name_line (Activity.py_str repr_other (Activity.name activity)));
                 if truthy (Activity.description activity)
                 then Cli.console_print R
                        (Cli.Description_line
                           (Activity.py_str repr_other (Activity.description activity)))
                 else mret tt)
              (fun e =>
                 _ ← Cli.console_print R (Cli.Error_updating activity_id e);
                 Cli.fail R (Cli.Python Abort)) s1
        end
    end.
Proof.
  unfold Cli.update, update_fields. unfold mbind at 1, Cli.C_bind at 1.
  destruct (cli_get_client token_file s) as [[client|x] s1]; [|reflexivity].
  destruct (truthy (opt_str name)), description, (truthy (opt_str type)), commute, trainer,
    (truthy (opt_str gear_id)); reflexivity.
Qed.

Lemma get_client_session (token_file : option string) (s : Session) :
  Cli.calls R (snd (cli_get_client token_file s)) = Cli.calls R s /\
  Cli.remote R (snd (cli_get_client token_file s)) = Cli.remote R s.
Proof.
  unfold Cli.get_client.
  destruct (StravaClient.__init__ _ _ _) as [[c|e] w']; [split; reflexivity|].
  destruct (is_FileNotFoundError e || is_ValueError e); [|split; reflexivity].
  destruct (@report_cases StravaClient.t (Cli.Error_loading e)
              (Cli.mk_Session R w' (Cli.remote R s) (Cli.calls R s) (Cli.console R s)))
    as (Hc & Hr & _).
  split; [exact Hc | exact Hr].
Qed.

Lemma falsy_option (o : option string) : o = None \/ o = Some "" -> truthy (opt_str o) = false.
Proof. intros [-> | ->]; reflexivity. Qed.

(** X21: update with no field to change (name, type and gear id absent or
    empty, description, commute and trainer absent) makes no request to
    the remote API, whatever else happens; once the client is set up it
    prints the notice that no update was specified and returns normally,
    also when JSON output was asked for. *)
Theorem update_without_fields_makes_no_request (activity_id : Z)
  (name type gear_id : option string) (output_json : bool) (token_file : option string)
  (s : Session) :
  name = None \/ name = Some "" ->
  type = None \/ type = Some "" ->
  gear_id = None \/ gear_id = Some "" ->
  let res := cli_update activity_id name None type None None gear_id
               output_json token_file s in
  Cli.calls R (snd res) = Cli.calls R s /\
  Cli.remote R (snd res) = Cli.remote R s /\
  (forall client s1, cli_get_client token_file s = (Cli.Done client, s1) ->
     res = (Cli.Done tt, logged (Cli.Print Cli.No_updates_specified) s1)).
Proof.
  intros Hn Ht Hg. cbv zeta. rewrite update_unfold.
  unfold update_fields. rewrite (falsy_option _ Hn), (falsy_option _ Ht), (falsy_option _ Hg).
  cbn [app]. pose proof (get_client_session token_file s) as [Hc Hr].
  destruct (cli_get_client token_file s) as [[client|x] s1]; cbn [fst snd] in *.
  - repeat split; try assumption. intros c s2 [= _ <-]. reflexivity.
  - repeat split; try assumption. intros c s2 [=].
Qed.

(** Going through the prints of a command, whatever the terminal does
    with each. *)
Ltac printed :=
  repeat (cbn [Cli.world Cli.remote Cli.calls Cli.console fst snd];
          try match goal with
              | |- context [rich_print ?p ?w] => destruct (rich_print p w) as [[[]|?] ?]
              end);
  rewrite <- ?app_assoc; reflexivity.

Lemma update_fields_lookup (name description type : option string)
  (commute trainer : option bool) (gear_id : option string) :
  let updates := update_fields name description type commute trainer gear_id in
  assoc "name" updates = (if truthy (opt_str name) then Some (opt_str name) else None) /\
  assoc "description" updates = VStr <$> description /\
  assoc "type" updates = (if truthy (opt_str type) then Some (opt_str type) else None) /\
  assoc "commute" updates = VBool <$> commute /\
  assoc "trainer" updates = VBool <$> trainer /\
  assoc "gear_id" updates = (if truthy (opt_str gear_id) then Some (opt_str gear_id) else None) /\
  sublist (map fst updates) ["name"; "description"; "type"; "commute"; "trainer"; "gear_id"].
Proof.
  unfold update_fields.
  destruct (truthy (opt_str name)), description, (truthy (opt_str type)), commute, trainer,
    (truthy (opt_str gear_id)); cbn;
    (repeat split; try reflexivity);
    repeat first [apply sublist_nil | apply sublist_skip | apply sublist_cons].
Qed.

(** X22: update with at least one field sends, once the client is set up,
    one update request with the access token of the client, followed by
    at most one request for the updated activity.  The request carries
    exactly the given fields: name, type and gear id when non-empty,
    description when given (an empty description included), commute and
    trainer when given, in that order. *)
Theorem update_sends_the_given_fields (activity_id : Z)
  (name description type : option string) (commute trainer : option bool)
  (gear_id : option string) (output_json : bool) (token_file : option string) (s : Session)
  (client : StravaClient.t) (s1 : Session) :
  cli_get_client token_file s = (Cli.Done client, s1) ->
  update_fields name description type commute trainer gear_id <> [] ->
  let res := cli_update activity_id name description type commute trainer gear_id
               output_json token_file s in
  let token := client_access_token (Cli.world R s1) in
  exists updates rest,
    Cli.calls R (snd res) = Cli.calls R s1 ++ Cli.Update_activity token activity_id updates :: rest /\
    (rest = [] \/ rest = [Cli.Get_activity token activity_id]) /\
    assoc "name" updates = (if truthy (opt_str name) then Some (opt_str name) else None) /\
    assoc "description" updates = VStr <$> description /\
    assoc "type" updates = (if truthy (opt_str type) then Some (opt_str type) else None) /\
    assoc "commute" updates = VBool <$> commute /\
    assoc "trainer" updates = VBool <$> trainer /\
    assoc "gear_id" updates = (if truthy (opt_str gear_id) then Some (opt_str gear_id) else None) /\
    sublist (map fst updates) ["name"; "description"; "type"; "commute"; "trainer"; "gear_id"].
Proof.
  intros Hgc Hne. cbv zeta. rewrite update_unfold, Hgc.
  pose proof (update_fields_lookup name description type commute trainer gear_id) as Hl.
  cbv zeta in Hl.
  destruct (update_fields name description type commute trainer gear_id) as [|kv u] eqn:Hu;
    [now destruct Hne|].
  exists (kv :: u).
  unfold Cli.try_except, mbind, Cli.C_bind, Cli.request, Cli.pure, Cli.console_print, Cli.emit,
    Cli.fail, Cli.echo_json.
  cbn [Cli.world Cli.remote Cli.calls Cli.console].
  destruct (update_activity _ activity_id (kv :: u) (Cli.remote R s1)) as [[[]|x] r1].
  - cbn [Cli.world Cli.remote Cli.calls Cli.console].
    exists [Cli.Get_activity (client_access_token (Cli.world R s1)) activity_id].
    split; [|split; [now right | exact Hl]].
    destruct (get_activity _ activity_id r1) as [[p|x] r2];
      cbn [Cli.world Cli.remote Cli.calls Cli.console fst snd]; [|printed].
    destruct (Activity.from_strava_activity float_of_str repr_other p) as [a|e];
      cbn [Cli.world Cli.remote Cli.calls Cli.console fst snd]; [|printed].
    destruct output_json.
    + destruct (Activity.to_dict a) as [d|e];
        cbn [Cli.world Cli.remote Cli.calls Cli.console fst snd]; [|printed].
      destruct (complete (iterencode (VDict d))); printed.
    + destruct (truthy (Activity.description a)); printed.
  - exists []. split; [|split; [now left | exact Hl]]. printed.
Qed.


Local Abbreviation parse_date := (Cli.parse_date R strptime).
Local Abbreviation normalize := (Activity.from_strava_activity float_of_str repr_other).

Lemma list_unfold (limit : Z) (after before : option string) (output_json : bool)
  (token_file : option string) (s s1 : Session) (client : StravaClient.t)
  (after_date before_date : option datetime) :
  cli_get_client token_file s = (Cli.Done client, s1) ->
  parse_date "--after" after s1 = (Cli.Done after_date, s1) ->
  parse_date "--before" before s1 = (Cli.Done before_date, s1) ->
  let token := client_access_token (Cli.world R s1) in
  cli_list limit after before output_json token_file s =
  match get_activities token after_date before_date limit (Cli.remote R s1) with
  | (Cli.Failed x, r) =>
      (_ ← Cli.console_print R (Cli.Error_fetching_activities x);
       Cli.fail R (Cli.Python Abort))
        (requested (Cli.Get_activities token after_date before_date limit) r s1)
  | (Cli.Done payloads, r) =>
      let s2 := requested (Cli.Get_activities token after_date before_date limit) r s1 in
      match Cli.for_each normalize payloads with
      | Raise e =>
          (_ ← Cli.console_print R (Cli.Error_fetching_activities (Cli.Python e));
           Cli.fail R (Cli.Python Abort)) s2
      | Ok [] => (Cli.Done tt, logged (Cli.Print Cli.No_activities_found) s2)
      | Ok activities =>
          if output_json
          then
            match Cli.for_each Activity.to_dict activities with
            | Raise e => (Cli.Failed (Cli.Python e), s2)
            | Ok dicts =>
                Cli.echo_json R
                  (VDict [("activities", VList (map VDict dicts));
                          ("count", VInt (Z.of_nat (length activities)))]) s2
            end
          else
            match Cli.add_activity_rows R repr_other format_2f format_0f strftime [] activities s2
            with
            | (Cli.Done table, s3) =>
                Cli.emit R (Cli.Print_table (Some (length activities)) table) s3
            | (Cli.Failed x, s3) => (Cli.Failed x, s3)
            end
      end
  end.
Proof.
  intros Hgc Ha Hb. cbv zeta.
  unfold Cli.list. unfold mbind at 1, Cli.C_bind at 1. rewrite Hgc.
  unfold mbind at 1, Cli.C_bind at 1. rewrite Ha.
  unfold mbind at 1, Cli.C_bind at 1. rewrite Hb.
  unfold mbind at 1, Cli.C_bind at 1.
  unfold Cli.try_except, Cli.request. unfold mbind at 1, Cli.C_bind at 1.
  destruct (get_activities _ after_date before_date limit (Cli.remote R s1)) as [[payloads|x] r].
  - unfold Cli.pure at 1.
    fold (requested (Cli.Get_activities (client_access_token (Cli.world R s1))
                       after_date before_date limit) r s1).
    destruct (Cli.for_each normalize payloads) as [activities|e].
    + destruct activities as [|a rest]; [reflexivity|].
      destruct output_json.
      * unfold mbind at 1, Cli.C_bind at 1, Cli.pure.
        destruct (Cli.for_each Activity.to_dict (a :: rest)); reflexivity.
      * unfold mbind at 1, Cli.C_bind at 1.
        destruct (Cli.add_activity_rows _ _ _ _ _ _ _ _) as [[table|x] s3]; reflexivity.
    + unfold mbind, Cli.C_bind, Cli.fail.
      destruct (Cli.console_print R _ _) as [[[]|x] s3]; reflexivity.
  - fold (requested (Cli.Get_activities (client_access_token (Cli.world R s1))
                       after_date before_date limit) r s1).
    unfold mbind, Cli.C_bind, Cli.fail.
    destruct (Cli.console_print R _ _) as [[[]|x0] s3]; reflexivity.
Qed.

Lemma for_each_raises {A B : Type} (f : A -> Result B) (xs : list A) (x : A) (e : exn) :
  In x xs -> f x = Raise e ->
  exists e' x', Cli.for_each f xs = Raise e' /\ In x' xs /\ f x' = Raise e'.
Proof.
  induction xs as [|y xs IH]; intros Hin Hf; [destruct Hin|].
  cbn [Cli.for_each]. destruct (f y) as [b|e0] eqn:Hy.
  - destruct Hin as [-> | Hin]; [congruence|].
    destruct (IH Hin Hf) as (e' & x' & -> & Hin' & Hx'). exists e', x'.
    repeat split; [right; exact Hin' | exact Hx'].
  - exists e0, y. repeat split; [left; reflexivity | exact Hy].
Qed.

Lemma for_each_Ok {A B : Type} (f : A -> Result B) (xs : list A) (ys : list B) :
  Cli.for_each f xs = Ok ys -> Forall2 (fun x y => f x = Ok y) xs ys.
Proof.
  revert ys. induction xs as [|x xs IH]; intros ys H; cbn [Cli.for_each] in H.
  - injection H as <-. constructor.
  - step H. step H. injection H as <-. constructor; [exact E | now apply IH].
Qed.

(** X24: when the remote API returns no activity, list makes that one
    request, prints the notice that no activities were found and returns
    normally; with --json it prints the same notice and no JSON
    document. *)
Theorem list_without_activities (limit : Z) (after before : option string)
  (output_json : bool) (token_file : option string) (s s1 : Session)
  (client : StravaClient.t) (after_date before_date : option datetime) (r : R) :
  cli_get_client token_file s = (Cli.Done client, s1) ->
  parse_date "--after" after s1 = (Cli.Done after_date, s1) ->
  parse_date "--before" before s1 = (Cli.Done before_date, s1) ->
  get_activities (client_access_token (Cli.world R s1)) after_date before_date limit
                 (Cli.remote R s1) = (Cli.Done [], r) ->
  cli_list limit after before output_json token_file s =
  (Cli.Done tt,
   logged (Cli.Print Cli.No_activities_found)
     (requested (Cli.Get_activities (client_access_token (Cli.world R s1))
                   after_date before_date limit) r s1)).
Proof.
  intros Hgc Ha Hb Hg. rewrite (list_unfold _ _ _ _ _ _ _ _ _ _ Hgc Ha Hb). cbv zeta.
  rewrite Hg. reflexivity.
Qed.


(** X26: a non-empty --after or --before that strptime rejects makes list
    print the line naming the option and raise click.Abort before any
    request to the remote API; --after is examined first. *)
Theorem list_invalid_date_aborts_before_request (limit : Z) (after before : option string)
  (output_json : bool) (token_file : option string) (s s1 : Session)
  (client : StravaClient.t) (text : string) :
  cli_get_client token_file s = (Cli.Done client, s1) ->
  text <> "" -> strptime text "%Y-%m-%d" = None ->
  (after = Some text ->
   cli_list limit after before output_json token_file s =
   (Cli.Failed (Cli.Python Abort), logged (Cli.Print (Cli.Invalid_date "--after")) s1)) /\
  (forall after_date,
     parse_date "--after" after s1 = (Cli.Done after_date, s1) -> before = Some text ->
     cli_list limit after before output_json token_file s =
     (Cli.Failed (Cli.Python Abort), logged (Cli.Print (Cli.Invalid_date "--before")) s1)).
Proof.
  intros Hgc Hne Hp. split.
  - intros ->. unfold Cli.list. unfold mbind at 1, Cli.C_bind at 1. rewrite Hgc.
    unfold mbind at 1, Cli.C_bind at 1. unfold Cli.parse_date.
    rewrite (truthy_str _ Hne), Hp. reflexivity.
  - intros after_date Ha ->. unfold Cli.list. unfold mbind at 1, Cli.C_bind at 1. rewrite Hgc.
    unfold mbind at 1, Cli.C_bind at 1. rewrite Ha.
    unfold mbind at 1, Cli.C_bind at 1. unfold Cli.parse_date at 1.
    rewrite (truthy_str _ Hne), Hp. reflexivity.
Qed.

Lemma for_each_total {A B : Type} (f : A -> Result B) (xs : list A) :
  Forall (fun x => exists y, f x = Ok y) xs -> exists ys, Cli.for_each f xs = Ok ys.
Proof.
  induction 1 as [|x xs [y Hy] _ [ys IH]]; cbn [Cli.for_each]; [eauto|].
  rewrite Hy, IH. simpl. eauto.
Qed.

Lemma for_each_length {A B : Type} (f : A -> Result B) (xs : list A) (ys : list B) :
  Cli.for_each f xs = Ok ys -> length ys = length xs.
Proof. intros H. apply for_each_Ok in H. symmetry. exact (Forall2_length _ _ _ H). Qed.

(** X27: with --json, when the returned payloads are normalized to records
    whose timestamps are datetimes and whose copied fields are
    serialisable, list writes one JSON document and returns normally; the
    document parses back to an object whose activities are the to_dict of
    the records in order and whose count is their number. *)
Theorem list_json_counts_the_activities (limit : Z) (after before : option string)
  (token_file : option string) (s s1 : Session)
  (client : StravaClient.t) (after_date before_date : option datetime) (r : R)
  (payloads : list PyVal) (activities : list Activity.t) :
  cli_get_client token_file s = (Cli.Done client, s1) ->
  parse_date "--after" after s1 = (Cli.Done after_date, s1) ->
  parse_date "--before" before s1 = (Cli.Done before_date, s1) ->
  get_activities (client_access_token (Cli.world R s1)) after_date before_date limit
                 (Cli.remote R s1) = (Cli.Done payloads, r) ->
  payloads <> [] ->
  Cli.for_each normalize payloads = Ok activities ->
  forallb has_datetimes activities = true ->
  forallb (fun a => forallb json_value (copied_fields a)) activities = true ->
  exists dicts,
    Forall2 (fun a d => Activity.to_dict a = Ok d) activities dicts /\
    length dicts = length payloads /\
    let doc := VDict [("activities", VList (map VDict dicts));
                      ("count", VInt (Z.of_nat (length payloads)))] in
    cli_list limit after before true token_file s =
    (Cli.Done tt,
     logged (Cli.Echo (json_dumps doc))
       (requested (Cli.Get_activities (client_access_token (Cli.world R s1))
                     after_date before_date limit) r s1)) /\
    json_loads (json_dumps doc) = Some doc.
Proof.
  intros Hgc Ha Hb Hg Hne Hn Hdt Hj.
  destruct (for_each_total Activity.to_dict activities) as [dicts Hd].
  { apply Forall_forall. intros a Hin. apply list_elem_of_In in Hin.
    pose proof (proj1 (forallb_forall _ _) Hdt a Hin) as Ha'.
    destruct (to_dict_datetimes a Ha') as (d & -> & _). eauto. }
  exists dicts. pose proof (for_each_Ok _ _ _ Hd) as HF.
  pose proof (for_each_length _ _ _ Hd) as Hl1. pose proof (for_each_length _ _ _ Hn) as Hl2.
  split; [exact HF|]. split; [lia|]. cbv zeta.
  assert (Hdoc : json_value (VDict [("activities", VList (map VDict dicts));
                                    ("count", VInt (Z.of_nat (length payloads)))]) = true).
  { cbn [json_value forallb snd map fst nodup_keys existsb].
    replace (negb (("activities" =? "count")%string || false) && (negb false && true))
      with true by reflexivity.
    cbn [andb]. rewrite !andb_true_r.
    clear Hd Hl1 Hn Hl2 Hdt. induction HF as [|a d activities dicts Had HF IH]; [reflexivity|].
    cbn [map forallb] in *. apply andb_true_iff in Hj as [Hja Hj].
    rewrite (to_dict_json_value a d Had Hja). now apply IH. }
  split; [|now apply loads_dumps].
  rewrite (list_unfold _ _ _ _ _ _ _ _ _ _ Hgc Ha Hb). cbv zeta. rewrite Hg, Hn.
  destruct activities as [|a rest].
  { destruct payloads; [now destruct Hne | discriminate Hl2]. }
  rewrite Hd. unfold Cli.echo_json. rewrite Hl2.
  destruct (json_round_trips _ Hdoc) as [-> _]. reflexivity.
Qed.

(** X28: with --json, a normalized record whose timestamps are not both
    datetimes makes list fail with the AttributeError or TypeError of
    to_dict as it is: the handler of the fetch does not cover the
    rendering, so nothing is printed and no click.Abort is raised. *)
Theorem list_json_lets_to_dict_errors_through (limit : Z) (after before : option string)
  (token_file : option string) (s s1 : Session)
  (client : StravaClient.t) (after_date before_date : option datetime) (r : R)
  (payloads : list PyVal) (activities : list Activity.t) (a : Activity.t) :
  cli_get_client token_file s = (Cli.Done client, s1) ->
  parse_date "--after" after s1 = (Cli.Done after_date, s1) ->
  parse_date "--before" before s1 = (Cli.Done before_date, s1) ->
  get_activities (client_access_token (Cli.world R s1)) after_date before_date limit
                 (Cli.remote R s1) = (Cli.Done payloads, r) ->
  Cli.for_each normalize payloads = Ok activities ->
  In a activities -> has_datetimes a = false ->
  exists e,
    (e = AttributeError \/ e = TypeError) /\
    cli_list limit after before true token_file s =
    (Cli.Failed (Cli.Python e),
     requested (Cli.Get_activities (client_access_token (Cli.world R s1))
                  after_date before_date limit) r s1).
Proof.
  intros Hgc Ha Hb Hg Hn Hin Hdt.
  destruct (to_dict_no_datetimes a Hdt) as [e0 He0].
  destruct (for_each_raises Activity.to_dict activities a e0 Hin He0) as (e & a' & Hd & _ & Ha').
  exists e. split; [now apply (to_dict_error a')|].
  rewrite (list_unfold _ _ _ _ _ _ _ _ _ _ Hgc Ha Hb). cbv zeta. rewrite Hg, Hn.
  destruct activities as [|a1 rest]; [destruct Hin|]. now rewrite Hd.
Qed.

Local Abbreviation format_table_row :=
  (Activity.format_table_row repr_other format_2f format_0f strftime).
Local Abbreviation add_activity_rows :=
  (Cli.add_activity_rows R repr_other format_2f format_0f strftime).

Lemma add_cell_text (v : PyVal) : is_text_or_none v = true -> Cli.add_cell v = Cli.Done (shown v).
Proof. destruct v; try discriminate; reflexivity. Qed.

Lemma add_activity_rows_tabular (activities : list Activity.t) :
  forallb tabular activities = true ->
  forall (table : list (list PyVal)) (s : Session),
  exists rows,
    add_activity_rows table activities s = (Cli.Done (table ++ rows), s) /\
    Forall2 (fun a row => exists cells, format_table_row a = Ok cells /\
                                        row = map (fun kv => shown (snd kv)) cells)
            activities rows.
Proof.
  induction activities as [|a rest IH]; intros Ht table s.
  - exists []. rewrite app_nil_r. split; [reflexivity | constructor].
  - cbn [forallb] in Ht. apply andb_true_iff in Ht as [Ha Ht].
    unfold tabular in Ha. apply andb_true_iff in Ha as [Ha _].
    apply andb_true_iff in Ha as [Ha _]. apply andb_true_iff in Ha as [Ha Hty].
    apply andb_true_iff in Ha as [Hdt Hname].
    cbn [Cli.add_activity_rows]. unfold Activity.format_table_row.
    destruct (Activity.start_date_local a) as [ | | | | | |dt| | | ] eqn:Hd; try discriminate Hdt.
    cbn [Activity.py_strftime mbind Result_bind Cli.pure Cli.C_bind].
    unfold mbind at 1, Cli.C_bind at 1. cbn [Cli.pure].
    unfold mbind at 1, Cli.C_bind at 1. cbn -[str_of_int Z.div Z.modulo Qdiv round_double].
    unfold mbind at 1, Cli.C_bind at 1, Cli.add_row. cbn [Cli.add_cells Cli.add_cell].
    rewrite (add_cell_text _ Hname), (add_cell_text _ Hty).
    destruct (IH Ht (table ++ [[VStr (Activity.py_str repr_other (Activity.id a));
                                VStr (strftime dt "%Y-%m-%d %H:%M");
                                shown (Activity.name a); shown (Activity.type a);
                                VStr (format_2f (round_double (Activity.distance a / 1000)%Q)
                                      +:+ " km");
                                VStr (if 0 <? Activity.moving_time a / 3600
                                      then str_of_int (Activity.moving_time a / 3600) +:+ "h " +:+
                                           str_of_int (Activity.moving_time a mod 3600 / 60) +:+ "m"
                                      else str_of_int (Activity.moving_time a mod 3600 / 60) +:+ "m");
                                VStr (format_0f (Activity.total_elevation_gain a) +:+ " m")]]) s)
      as (rows & Hrows & HF).
    eexists (_ :: rows). split.
    + rewrite <- app_assoc in Hrows. exact Hrows.
    + constructor; [|exact HF]. eexists. split.
      * unfold Activity.format_table_row. rewrite Hd. reflexivity.
      * reflexivity.
Qed.

(** X29: without --json, when the returned payloads are normalized to
    records whose local start is a datetime, whose name and type are
    strings or None and whose id and moving time can be printed, list
    builds one table, titled with the number of activities, that has one
    row per activity in order: the seven cells of format_table_row, None
    being shown as an empty cell.  When no cell holds an opening
    bracket, list hands that table to console.print and returns
    normally; otherwise it does that, or console.print raises MarkupError
    and nothing is printed. *)
Theorem list_table_has_a_row_per_activity (limit : Z) (after before : option string)
  (token_file : option string) (s s1 : Session)
  (client : StravaClient.t) (after_date before_date : option datetime) (r : R)
  (payloads : list PyVal) (activities : list Activity.t) :
  cli_get_client token_file s = (Cli.Done client, s1) ->
  parse_date "--after" after s1 = (Cli.Done after_date, s1) ->
  parse_date "--before" before s1 = (Cli.Done before_date, s1) ->
  get_activities (client_access_token (Cli.world R s1)) after_date before_date limit
                 (Cli.remote R s1) = (Cli.Done payloads, r) ->
  payloads <> [] ->
  Cli.for_each normalize payloads = Ok activities ->
  forallb tabular activities = true ->
  let res := cli_list limit after before false token_file s in
  let s2 := requested (Cli.Get_activities (client_access_token (Cli.world R s1))
                         after_date before_date limit) r s1 in
  exists rows,
    Forall2 (fun a row => exists cells, format_table_row a = Ok cells /\
                                        row = map (fun kv => shown (snd kv)) cells)
            activities rows /\
    Cli.calls R (snd res) = Cli.calls R s2 /\
    (forallb (forallb Cli.plain_cell) rows = true ->
     res = (Cli.Done tt, logged (Cli.Print_table (Some (length payloads)) rows) s2)) /\
    ((fst res = Cli.Done tt /\
      Cli.console R (snd res)
      = Cli.console R s1 ++ [Cli.Print_table (Some (length payloads)) rows]) \/
     (forallb (forallb Cli.plain_cell) rows = false /\
      fst res = Cli.Failed (Cli.Python MarkupError) /\
      Cli.console R (snd res) = Cli.console R s1)).
Proof.
  intros Hgc Ha Hb Hg Hne Hn Ht. cbv zeta.
  pose proof (for_each_length _ _ _ Hn) as Hl.
  rewrite (list_unfold _ _ _ _ _ _ _ _ _ _ Hgc Ha Hb). cbv zeta. rewrite Hg, Hn.
  destruct activities as [|a rest].
  { destruct payloads; [now destruct Hne | discriminate Hl]. }
  destruct (add_activity_rows_tabular (a :: rest) Ht []
              (requested (Cli.Get_activities (client_access_token (Cli.world R s1))
                            after_date before_date limit) r s1)) as (rows & Hrows & HF).
  exists rows. rewrite Hrows, Hl. cbn [app]. split; [exact HF|].
  destruct (emit_cases (Cli.Print_table (Some (length payloads)) rows)
              (requested (Cli.Get_activities (client_access_token (Cli.world R s1))
                            after_date before_date limit) r s1)) as (Hc & _ & H).
  split; [exact Hc|]. split; [|exact H].
  intros Hp. now apply emit_plain.
Qed.

End CommandFacts.

(** ** The further statements on sample inputs *)

(** The sample worlds whose token expires in 200 seconds hold both
    tokens and are due for a refresh; the sample environment is
    configured. *)
Lemma expiring_holds_tokens :
  holds_tokens sample_self world_expiring (VStr "old-access") (VStr "old-refresh")
               (VInt 1700000200).
Proof.
  exists (json_dumps (old_triple 1700000200)),
    [("access_token", VStr "old-access"); ("refresh_token", VStr "old-refresh");
     ("expires_at", VInt 1700000200)].
  repeat split; reflexivity.
Qed.

Lemma expiring_due : due (VInt 1700000200) world_expiring.
Proof.
  split; [reflexivity|]. exists (inject_Z 1700000200). split; [reflexivity|].
  vm_compute. reflexivity.
Qed.

Lemma expiring_configured : configured world_expiring 4711 "s3cret".
Proof. exists "4711". repeat split; try reflexivity. discriminate. Qed.

(** The sample payload is normalized to the sample record, and the same
    payload in transport shape to the record with its timestamps as
    texts. *)
Lemma sample_payload_normalized :
  Activity.from_strava_activity sample_float_of_str sample_repr sample_payload
  = Ok sample_activity.
Proof. vm_compute. reflexivity. Qed.

Lemma sample_transport_normalized :
  Activity.from_strava_activity sample_float_of_str sample_repr (VObj sample_transport)
  = Ok (iso_dates sample_activity).
Proof. vm_compute. reflexivity. Qed.

(** On the sample sessions the client is set up without a refresh. *)
Lemma sample_client_ready (r : list PyVal) :
  Cli.get_client (list PyVal) sample_endpoint None (sample_session r)
  = (Cli.Done sample_self, sample_session_ready r).
Proof. vm_compute. reflexivity. Qed.

(** X1 on a refresh in a world with a second file. *)
Lemma load_touches_only_token_file_witness :
  fs (snd (StravaClient._load_and_set_token sample_endpoint sample_self world_two_files))
    !! "notes.json"
  = fs world_two_files !! "notes.json".
Proof.
  apply (load_touches_only_token_file sample_endpoint sample_self world_two_files "notes.json").
  discriminate.
Defined.

(** X2 on a record expiring 200 seconds from now. *)
Lemma token_file_written_only_after_answer_witness :
  exists a r e cid secret resp,
    holds_tokens sample_self world_expiring a r e /\ due e world_expiring /\
    configured world_expiring cid secret /\
    sample_endpoint cid (VStr secret) r = Ok resp /\
    refresh_calls (snd (StravaClient._load_and_set_token sample_endpoint sample_self
                          world_expiring))
    = refresh_calls world_expiring ++ [(cid, VStr secret, r)].
Proof.
  apply (token_file_written_only_after_answer sample_endpoint sample_self world_expiring).
  intros H. apply (f_equal (fun m => m !! "strava-token.json")) in H.
  vm_compute in H. discriminate H.
Defined.

(** X4 on a record expiring an hour from now. *)
Lemma load_success_means_witness :
  exists a r e,
    holds_tokens sample_self world_fresh a r e /\
    ((~ due e world_fresh /\
      snd (StravaClient._load_and_set_token sample_endpoint sample_self world_fresh)
      = with_access_token a world_fresh) \/
     (due e world_fresh /\
      exists cid secret resp,
        configured world_fresh cid secret /\
        sample_endpoint cid (VStr secret) r = Ok resp /\
        py_subscript resp "access_token"
        = Ok (client_access_token
                (snd (StravaClient._load_and_set_token sample_endpoint sample_self
                        world_fresh))) /\
        (exists ws,
            fs (snd (StravaClient._load_and_set_token sample_endpoint sample_self world_fresh))
              !! StravaClient.token_file sample_self = Some ws /\
            map Chunk ws = iterencode resp) /\
        refresh_calls (snd (StravaClient._load_and_set_token sample_endpoint sample_self
                              world_fresh))
        = refresh_calls world_fresh ++ [(cid, VStr secret, r)])).
Proof.
  apply (load_success_means sample_endpoint sample_self world_fresh).
  vm_compute. reflexivity.
Defined.


(** A path that holds a closing tag, on a terminal where rich refuses
    the line: the MarkupError reaches the caller, not click.Abort. *)
Example missing_token_file_markup :
  get_client sample_endpoint (Some "[/red]x.json") world_rejecting
  = (Raise MarkupError, with_access_token VNone world_no_file).
Proof. vm_compute. reflexivity. Qed.

(** X6 on a token file without refresh token. *)
Lemma invalid_token_file_aborts_witness :
  (exists e, is_ValueError e = true /\
             StravaClient._load_and_set_token sample_endpoint
               (StravaClient.mk (token_path None)) world_no_refresh_token
             = (Raise e, world_no_refresh_token)) /\
  get_client sample_endpoint None world_no_refresh_token
  = (Raise Abort, with_access_token VNone world_no_refresh_token).
Proof.
  apply (invalid_token_file_aborts sample_endpoint None world_no_refresh_token
           (json_dumps (VDict [("access_token", VStr "old-access")]))).
  - reflexivity.
  - right. exists [("access_token", VStr "old-access")], (VStr "old-access"), VNone.
    repeat split; try reflexivity. right. reflexivity.
Defined.

(** X7 on a token file whose expires_at is a text. *)
Lemma non_numeric_expiry_escapes_witness :
  StravaClient._load_and_set_token sample_endpoint (StravaClient.mk (token_path None))
    world_text_expiry
  = (Raise TypeError, world_text_expiry) /\
  get_client sample_endpoint None world_text_expiry
  = (Raise TypeError, with_access_token VNone world_text_expiry).
Proof.
  apply (non_numeric_expiry_escapes sample_endpoint None world_text_expiry
           (VStr "old-access") (VStr "old-refresh") (VStr "soon")).
  - exists (json_dumps (VDict [("access_token", VStr "old-access");
                               ("refresh_token", VStr "old-refresh");
                               ("expires_at", VStr "soon")])),
      [("access_token", VStr "old-access"); ("refresh_token", VStr "old-refresh");
       ("expires_at", VStr "soon")].
    repeat split; reflexivity.
  - reflexivity.
  - reflexivity.
Defined.

(** X8 on an empty environment. *)
Lemma refresh_needs_configuration_witness :
  StravaClient._load_and_set_token sample_endpoint (StravaClient.mk (token_path None))
    world_unconfigured
  = (Raise ValueError, world_unconfigured) /\
  get_client sample_endpoint None world_unconfigured
  = (Raise Abort, with_access_token VNone world_unconfigured).
Proof.
  apply (refresh_needs_configuration sample_endpoint None world_unconfigured
           (VStr "old-access") (VStr "old-refresh") (VInt 1700000200)).
  - exact expiring_holds_tokens.
  - exact expiring_due.
  - left. reflexivity.
Defined.


(** X10 on an endpoint out of reach. *)
Lemma endpoint_failure_propagates_witness :
  StravaClient._load_and_set_token failing_endpoint (StravaClient.mk (token_path None))
    world_expiring
  = (Raise OSError, with_call 4711 (VStr "s3cret") (VStr "old-refresh") world_expiring) /\
  get_client failing_endpoint None world_expiring
  = (Raise OSError,
     with_call 4711 (VStr "s3cret") (VStr "old-refresh")
       (with_access_token VNone world_expiring)).
Proof.
  destruct (endpoint_failure_propagates failing_endpoint None world_expiring
              (VStr "old-access") (VStr "old-refresh") (VInt 1700000200) 4711 "s3cret" OSError)
    as (H1 & H2 & _).
  - exact expiring_holds_tokens.
  - exact expiring_due.
  - exact expiring_configured.
  - reflexivity.
  - split; [exact H1 | exact (H2 eq_refl)].
Defined.

(** X11 on an endpoint whose answer lacks the access token. *)
Lemma incomplete_response_poisons_token_file_witness :
  let resp := VDict [("refresh_token", VStr "new-refresh"); ("expires_at", VInt 2000007200)] in
  let res := StravaClient._load_and_set_token incomplete_endpoint sample_self world_expiring in
  fst res = Raise KeyError /\
  (fs (snd res) !! StravaClient.token_file sample_self) ≫= json_loads = Some resp /\
  exists x', StravaClient._load_and_set_token incomplete_endpoint sample_self (snd res)
             = (Raise x', snd res).
Proof.
  apply (incomplete_response_poisons_token_file incomplete_endpoint sample_self world_expiring
           (VStr "old-access") (VStr "old-refresh") (VInt 1700000200) 4711 "s3cret"
           (VDict [("refresh_token", VStr "new-refresh"); ("expires_at", VInt 2000007200)])
           KeyError).
  - exact expiring_holds_tokens.
  - exact expiring_due.
  - exact expiring_configured.
  - reflexivity.
  - reflexivity.
  - reflexivity.
  - reflexivity.
Defined.

(** X12 on a record expiring 200 seconds from now. *)
Lemma reload_after_refresh_uses_new_token_witness :
  let w1 := snd (StravaClient._load_and_set_token sample_endpoint sample_self world_expiring) in
  fst (StravaClient._load_and_set_token sample_endpoint sample_self world_expiring) = Ok tt /\
  StravaClient._load_and_set_token sample_endpoint sample_self w1 = (Ok tt, w1) /\
  client_access_token w1 = VStr "new-access" /\
  refresh_calls w1
  = refresh_calls world_expiring ++ [(4711, VStr "s3cret", VStr "old-refresh")].
Proof.
  apply (reload_after_refresh_uses_new_token sample_endpoint sample_self world_expiring
           (VStr "old-access") (VStr "old-refresh") (VInt 1700000200) 4711 "s3cret"
           "new-access" "new-refresh" 2000007200).
  - exact expiring_holds_tokens.
  - exact expiring_due.
  - exact expiring_configured.
  - reflexivity.
  - reflexivity.
  - discriminate.
  - discriminate.
  - vm_compute. discriminate.
Defined.

(** X13 on the sample payload, whose type is wrapped. *)
Lemma type_is_unwrapped_witness :
  exists ty, py_getattr sample_payload "type" = Ok ty /\
    (forall s, ty = VStr s -> Activity.type sample_activity = VStr s) /\
    (forall x, py_getattr ty "root" = Ok x -> Activity.type sample_activity = x) /\
    (ty = VNone -> Activity.type sample_activity = VStr "None") /\
    (py_hasattr ty "root" = false -> is_str (Activity.type sample_activity) = true).
Proof.
  apply (type_is_unwrapped sample_float_of_str sample_repr sample_payload sample_activity).
  exact sample_payload_normalized.
Defined.

(** X14 on the sample payload. *)
Lemma required_floats_default_to_zero_witness :
  (exists x, py_getattr sample_payload "distance" = Ok x /\
     (truthy x = false -> Activity.distance sample_activity = 0%Q) /\
     (truthy x = true ->
      Activity.py_float sample_float_of_str x = Ok (Activity.distance sample_activity))) /\
  (exists x, py_getattr sample_payload "total_elevation_gain" = Ok x /\
     (truthy x = false -> Activity.total_elevation_gain sample_activity = 0%Q) /\
     (truthy x = true ->
      Activity.py_float sample_float_of_str x
      = Ok (Activity.total_elevation_gain sample_activity))).
Proof.
  apply (required_floats_default_to_zero sample_float_of_str sample_repr sample_payload
           sample_activity).
  exact sample_payload_normalized.
Defined.

(** X15 on the sample payload. *)
Lemma direct_attributes_are_required_witness :
  Forall (fun f => exists x, py_getattr sample_payload f = Ok x) direct_attributes.
Proof.
  apply (direct_attributes_are_required sample_float_of_str sample_repr sample_payload
           sample_activity).
  exact sample_payload_normalized.
Defined.


(** X18 on the sample record. *)
Lemma to_dict_is_json_witness :
  exists d,
    Activity.to_dict sample_activity = Ok d /\
    json_value (VDict d) = true /\
    complete (iterencode (VDict d)) = true /\
    json_loads (json_dumps (VDict d)) = Some (VDict d).
Proof.
  eexists. split; [reflexivity|].
  apply (to_dict_is_json sample_activity); reflexivity.
Defined.

(** X19 on the sample record, whose moving time is 3661 seconds. *)
Lemma table_row_time_drops_seconds_witness :
  exists row,
    Activity.format_table_row sample_repr sample_format sample_format sample_strftime
      sample_activity = Ok row /\
    exists h m s,
      Activity.moving_time sample_activity = 3600 * h + 60 * m + s /\
      0 <= m < 60 /\ 0 <= s < 60 /\
      assoc "Time" row =
        Some (VStr (if 0 <? h
                    then str_of_int h +:+ "h " +:+ str_of_int m +:+ "m"
                    else str_of_int m +:+ "m")).
Proof.
  eexists. split; [reflexivity|].
  apply (table_row_time_drops_seconds sample_repr sample_format sample_format sample_strftime
           sample_activity).
  reflexivity.
Defined.

(** X21 on an update whose only option is an empty type. *)
Lemma update_without_fields_makes_no_request_witness :
  let res := sample_update 987654321 None None (Some "") None None None true None
               (sample_session [sample_payload]) in
  Cli.calls (list PyVal) (snd res) = [] /\
  Cli.remote (list PyVal) (snd res) = [sample_payload] /\
  res = (Cli.Done tt,
         logged (Cli.Print Cli.No_updates_specified) (sample_session_ready [sample_payload])).
Proof.
  pose proof (update_without_fields_makes_no_request (list PyVal) sample_get_activity
                sample_update_activity sample_endpoint sample_float_of_str sample_repr
                987654321 None (Some "") None true None (sample_session [sample_payload])
                (or_introl eq_refl) (or_intror eq_refl) (or_introl eq_refl)) as H.
  cbv zeta in H. destruct H as (H1 & H2 & H3).
  split; [exact H1|]. split; [exact H2|].
  exact (H3 sample_self _ (sample_client_ready [sample_payload])).
Defined.

(** X22 on an update of the name that also clears the description. *)
Lemma update_sends_the_given_fields_witness :
  let res := sample_update 987654321 (Some "Evening Run") (Some "") None None None None false
               None (sample_session [sample_payload]) in
  exists updates rest,
    Cli.calls (list PyVal) (snd res)
    = Cli.Update_activity (VStr "old-access") 987654321 updates :: rest /\
    (rest = [] \/ rest = [Cli.Get_activity (VStr "old-access") 987654321]) /\
    assoc "name" updates = Some (VStr "Evening Run") /\
    assoc "description" updates = Some (VStr "") /\
    assoc "type" updates = None /\
    sublist (map fst updates) ["name"; "description"; "type"; "commute"; "trainer"; "gear_id"].
Proof.
  pose proof (update_sends_the_given_fields (list PyVal) sample_get_activity
                sample_update_activity sample_endpoint sample_float_of_str sample_repr
                987654321 (Some "Evening Run") (Some "") None None None None false None
                (sample_session [sample_payload]) sample_self
                (sample_session_ready [sample_payload])
                (sample_client_ready [sample_payload])) as H.
  cbv zeta in H.
  destruct H as (updates & rest & H1 & H2 & H3 & H4 & H5 & _ & _ & _ & H9); [discriminate|].
  exists updates, rest. repeat split; assumption.
Defined.


(** The same update reports the failure of the service and raises
    click.Abort; an update to a name that holds a closing tag, on a
    terminal where rich refuses such lines, ends in MarkupError after
    the line of success, the update itself being made. *)
Example update_unknown_activity :
  sample_update 42 (Some "Evening Run") None None None None None false None
    (sample_session [sample_payload])
  = (Cli.Failed (Cli.Python Abort),
     logged (Cli.Print (Cli.Error_updating 42 (Cli.Library "ObjectNotFound" "Record Not Found")))
       (requested (Cli.Update_activity (VStr "old-access") 42 [("name", VStr "Evening Run")])
          [sample_payload] (sample_session_ready [sample_payload]))).
Proof. vm_compute. reflexivity. Qed.

Example update_name_with_markup :
  let res := sample_update 987654321 (Some "Run [/bold] x") None None None None None false None
               (Cli.mk_Session (list PyVal) (with_terminal [false; false] world_fresh)
                               [sample_payload] [] []) in
  fst res = Cli.Failed (Cli.Python MarkupError) /\
  Cli.console (list PyVal) (snd res) = [Cli.Print (Cli.Updated_successfully 987654321)] /\
  Cli.calls (list PyVal) (snd res)
  = [Cli.Update_activity (VStr "old-access") 987654321 [("name", VStr "Run [/bold] x")];
     Cli.Get_activity (VStr "old-access") 987654321].
Proof. vm_compute. repeat split. Qed.

(** X24 on a service without activities, JSON output being asked for. *)
Lemma list_without_activities_witness :
  sample_list 10 None None true None (sample_session [])
  = (Cli.Done tt,
     logged (Cli.Print Cli.No_activities_found)
       (requested (Cli.Get_activities (VStr "old-access") None None 10) []
          (sample_session_ready []))).
Proof.
  apply (list_without_activities (list PyVal) sample_get_activities sample_endpoint
           sample_float_of_str sample_repr sample_format sample_format sample_strftime
           sample_strptime 10 None None true None (sample_session []) (sample_session_ready [])
           sample_self None None []).
  - exact (sample_client_ready []).
  - reflexivity.
  - reflexivity.
  - reflexivity.
Defined.


(** X26 on a date that is a word, given as --after, and as --before
    beside a valid --after. *)
Lemma list_invalid_date_aborts_before_request_witness :
  sample_list 10 (Some "yesterday") None false None (sample_session [sample_payload])
  = (Cli.Failed (Cli.Python Abort),
     logged (Cli.Print (Cli.Invalid_date "--after")) (sample_session_ready [sample_payload])) /\
  sample_list 10 (Some "2024-05-01") (Some "yesterday") false None
    (sample_session [sample_payload])
  = (Cli.Failed (Cli.Python Abort),
     logged (Cli.Print (Cli.Invalid_date "--before")) (sample_session_ready [sample_payload])).
Proof.
  split.
  - apply (list_invalid_date_aborts_before_request (list PyVal) sample_get_activities
             sample_endpoint sample_float_of_str sample_repr sample_format sample_format
             sample_strftime sample_strptime 10 (Some "yesterday") None false None
             (sample_session [sample_payload]) (sample_session_ready [sample_payload])
             sample_self "yesterday");
      [exact (sample_client_ready _) | discriminate | reflexivity | reflexivity].
  - apply (list_invalid_date_aborts_before_request (list PyVal) sample_get_activities
             sample_endpoint sample_float_of_str sample_repr sample_format sample_format
             sample_strftime sample_strptime 10 (Some "2024-05-01") (Some "yesterday") false
             None (sample_session [sample_payload]) (sample_session_ready [sample_payload])
             sample_self "yesterday" (sample_client_ready _))
      with (after_date := Some (mk_datetime 2024 5 1 0 0 0 0 None));
      [discriminate | reflexivity | reflexivity | reflexivity].
Defined.

(** X27 on a service with the sample payload. *)
Lemma list_json_counts_the_activities_witness :
  exists dicts,
    Forall2 (fun a d => Activity.to_dict a = Ok d) [sample_activity] dicts /\
    length dicts = 1%nat /\
    let doc := VDict [("activities", VList (map VDict dicts)); ("count", VInt 1)] in
    sample_list 10 None None true None (sample_session [sample_payload])
    = (Cli.Done tt,
       logged (Cli.Echo (json_dumps doc))
         (requested (Cli.Get_activities (VStr "old-access") None None 10) [sample_payload]
            (sample_session_ready [sample_payload]))) /\
    json_loads (json_dumps doc) = Some doc.
Proof.
  apply (list_json_counts_the_activities (list PyVal) sample_get_activities sample_endpoint
           sample_float_of_str sample_repr sample_format sample_format sample_strftime
           sample_strptime 10 None None None (sample_session [sample_payload])
           (sample_session_ready [sample_payload]) sample_self None None [sample_payload]
           [sample_payload] [sample_activity]).
  - exact (sample_client_ready _).
  - reflexivity.
  - reflexivity.
  - reflexivity.
  - discriminate.
  - vm_compute. reflexivity.
  - reflexivity.
  - reflexivity.
Defined.

(** X28 on a service whose payload carries its timestamps as texts. *)
Lemma list_json_lets_to_dict_errors_through_witness :
  exists e,
    (e = AttributeError \/ e = TypeError) /\
    sample_list 10 None None true None (sample_session [VObj sample_transport])
    = (Cli.Failed (Cli.Python e),
       requested (Cli.Get_activities (VStr "old-access") None None 10) [VObj sample_transport]
         (sample_session_ready [VObj sample_transport])).
Proof.
  apply (list_json_lets_to_dict_errors_through (list PyVal) sample_get_activities
           sample_endpoint sample_float_of_str sample_repr sample_format sample_format
           sample_strftime sample_strptime 10 None None None
           (sample_session [VObj sample_transport])
           (sample_session_ready [VObj sample_transport]) sample_self None None
           [VObj sample_transport] [VObj sample_transport] [iso_dates sample_activity]
           (iso_dates sample_activity)).
  - exact (sample_client_ready _).
  - reflexivity.
  - reflexivity.
  - reflexivity.
  - vm_compute. reflexivity.
  - left. reflexivity.
  - reflexivity.
Defined.

(** X29 on a service with the sample payload. *)
Lemma list_table_has_a_row_per_activity_witness :
  exists rows,
    sample_list 10 None None false None (sample_session [sample_payload])
    = (Cli.Done tt,
       logged (Cli.Print_table (Some 1%nat) rows)
         (requested (Cli.Get_activities (VStr "old-access") None None 10) [sample_payload]
            (sample_session_ready [sample_payload]))) /\
    Forall2 (fun a row =>
               exists cells,
                 Activity.format_table_row sample_repr sample_format sample_format
                   sample_strftime a = Ok cells /\
                 row = map (fun kv => shown (snd kv)) cells)
            [sample_activity] rows.
Proof.
  pose proof (list_table_has_a_row_per_activity (list PyVal) sample_get_activities
                sample_endpoint sample_float_of_str sample_repr sample_format sample_format
                sample_strftime sample_strptime 10 None None None
                (sample_session [sample_payload]) (sample_session_ready [sample_payload])
                sample_self None None [sample_payload] [sample_payload] [sample_activity]
                (sample_client_ready _) eq_refl eq_refl eq_refl) as H.
  cbv zeta in H. destruct H as (rows & HF & _ & Hplain & _).
  - discriminate.
  - vm_compute. reflexivity.
  - vm_compute. reflexivity.
  - exists rows. split; [|exact HF]. apply Hplain.
    inversion HF as [|a row l l' (cells & Hc & Hrow) HF' E1 E2]. inversion HF'. subst.
    vm_compute in Hc. injection Hc as <-. vm_compute. reflexivity.
Defined.

(** A name that holds a closing tag, on a terminal where rich refuses
    such cells: the table is built, and console.print raises
    MarkupError with nothing printed. *)
Example list_name_with_markup :
  let res := sample_list 10 None None false None
               (Cli.mk_Session (list PyVal) (with_terminal [false] world_fresh)
                               [sample_markup_payload] [] []) in
  fst res = Cli.Failed (Cli.Python MarkupError) /\
  Cli.console (list PyVal) (snd res) = [] /\
  Cli.calls (list PyVal) (snd res) = [Cli.Get_activities (VStr "old-access") None None 10].
Proof. vm_compute. repeat split. Qed.
